(* ===== verification/_CoqProject ===== *)
-Q . S2P
Prelude.v
Panel.v
Signals.v
Sizing.v
Ledger.v
Growth.v
Analytics.v
Benchmarks.v
Trades.v
Sbin.v
RsiAccumulation.v
BuyHold.v
DualMomentum.v
Charts.v
