(* ===== verification/Prelude.v ===== *)
(** * A verification development of the vectorbt backtesting scripts

    The repository holds four strategy scripts under src/backtesting/:
    - SBIN_ema_crossover_backtest.py: EMA crossover signals, cleaned with
      [ta.exrem], run through [Portfolio.from_signals] with 75% percent
      sizing, 0.1% fees, long only, unit lots;
    - buy_hold_75_25_backtest.py: a one-time target-percent allocation
      over two ETFs with one shared cash pool ([from_orders],
      [cash_sharing=True], [call_seq="auto"]), CAGR benchmarks, a
      fixed-deposit curve, drawdown and period-wise CAGR;
    - dual_momentum_backtest.py: a quarterly rotation into the previous
      quarter's winner, rebalanced only on switch days, filled at the
      open, shared cash;
    - niftybees_rsi_accumulation_backtest.py: slab-wise accumulation on
      Friday 15:15 bars driven by the previous week's RSI, exits that sell
      the whole position ([size=np.inf], [accumulate=True]).

    Each script fetches histories, builds its series with pandas, hands
    sizes or signals to one engine, vectorbt's bar-by-bar portfolio
    simulator, and reports on the equity curve it gets back. The engine,
    [openalgo.ta.exrem] and the indicators are library code, not code of
    this repository: the engine and [exrem] are modelled from the spec
    (spec.md, sections 4.1-4.4) and marked so in the manifest; the
    indicators are parameters. Everything the scripts compute themselves
    is translated from the scripts, line by line.

    ** Numbers and time

    Prices, cash, quantities and fees are exact rationals [Q] (Stdlib
    QArith), decided with [Qle_bool], [Qltb] and [Qeq_bool]: the
    accounting identities the spec states "within floating tolerance"
    hold exactly here. Missing values (pandas NaN) are [None]; [np.inf]
    and NaN order sizes are constructors of [Size]. Compound growth needs
    real powers: [calc_cagr] and the fixed-deposit curve are over [R] with
    [Rpower] (Python's [x ** y] on a positive float). Timestamps are
    integers whose order is the time order: day numbers in [BuyHold],
    [yyyymmdd] in [DualMomentum] (quarters are digit arithmetic), minutes
    since 1970-01-01 in [RsiAccumulation] (weekday, hour and minute are
    computed from them as pandas does). Every recursion is structural on
    the lists of bars, rows or points, so no definition takes fuel and
    every definition runs under [vm_compute]. Lot rounding follows spec
    4.2 (the nearest lot, [round_lot]); vectorbt's own
    [size_granularity] truncates instead, a difference the manifest
    records as a finding.

    ** Files, in dependency order

    - [Prelude] (this file): the [bt_scope] notations, boolean comparisons
      on [Q] with their reflection lemmas and the [reflect_cmp]/[case_cmp]
      tactics, the [bt] hint database, sums over lists of rationals and
      the list lemmas shared by the components.
    - [Panel]: the pandas operations the scripts build their data with:
      [sort_index], the outer [align] of two series and [dropna_panel],
      [ffill]/[bfill], [first_valid_index], [loc], [reindex_ffill_bfill]
      and [resample_last] ([resample(rule).last()]).
    - [Signals]: [exrem] (spec 4.1), the spec's FLAT/OPEN normalizer and
      the SBIN script's entry/exit composition.
    - [Sizing]: the order sizer (spec 4.2): size types, lot rounding,
      minimum size, affordability clipping, [size_order].
    - [Ledger]: the fill simulator (spec 4.3): the [Ledger] state (cash,
      positions, fills, rejections), [exec_col] for one order, [bar_step]
      for a bar of a cash-sharing group in the "auto" call order (sells
      first), [simulate] and [sim_states] over the bars, the entry points
      [from_orders] and [from_signals].
    - [Growth]: [calc_cagr], [years_between] and the fixed-deposit
      benchmark ([fd_final], [fd_daily_rate], [fd_equity]).
    - [Analytics]: cumulative returns, [cummax], [drawdown] (script code)
      and the engine's summary statistics (spec 4.4): total return,
      maximum drawdown, the periodic returns and their Sharpe and Sortino
      ratios (rational mean and sample variance, the square root and the
      annualisation factor of the run's [freq] in [R]), win rate and
      profit factor.
    - [Benchmarks]: [Portfolio.from_holding] (all the cash into the first
      close at a fee, fractional units) and a column of a benchmark table
      ([BenchCol]: CAGR, total return, maximum drawdown, final value,
      Sharpe and Sortino ratios);
      the setoid of curves equal up to [Qeq], with [Proper] instances for
      the statistics, and their invariance under a positive scale, which
      is why a [from_holding] column reports the statistics of the closes.
    - [Trades]: vectorbt's positions records ([pf.positions],
      [pf.trades]) as a scan over the fill log ([pos_scan]) that groups
      the fills from flat to flat, and the realized P&L of each.
    - [Sbin], [RsiAccumulation], [BuyHold], [DualMomentum]: one file per
      script, with its constants in a [Module] ([SbinConfig], ...), its
      series, its engine call ([sbin_backtest], [rsi_backtest],
      [buy_hold_backtest], [dm_backtest]), the end-to-end run from the
      histories ([sbin_run], [rsi_run], [bh_panel], [dm_run]) and its
      report (CAGR figures, benchmark tables, period table, signal log,
      rebalance log, key metrics, exported positions, daily series).
    - [Charts]: the Plotly figures of the three scripts that plot, as
      the data each [go.Scatter] trace is handed (name, subplot row, x
      dates, y values with NaN as [None]), built from the script files'
      series.

    ** Theorems

    The engine files carry the invariants the scripts rely on: a run keeps
    cash and long-only positions non-negative and positions whole lots
    ([ledger_ok], by induction on the bars), every fill is on a bar that
    sent an order, a target of 0 sells a column out, an executed order is
    affordable, at least [min_size] and a lot multiple. The script files
    prove, on the scripts' own definitions:
    - dual momentum: on a sorted history of calendar dates the holding of
      a whole quarter is the winner of the quarter two before it (a
      finding against the comment of line 80); orders are sent on switch
      days only, 75% on the ETF held that day and 0 on the other; every
      fill is on a switch day; a switch closes the leg it leaves; once a
      winner is placed every day holds an ETF; the placement day is the
      first trading day after the quarter end; the equity is marked at
      the day's open, not its close (a finding); the printed winner list
      names each quarter's better ETF; the benchmark rows report the
      closes' statistics;
    - buy-and-hold: the run trades on its first bar only, with 60/40
      weights (a finding against its 75/25 title), on the inner join of
      the two histories, and its first equity point is the initial cash
      less the fees; the period table's start is the first bar on or
      after the look-back date, within the largest gap of it, and falls
      back to the first bar on a short history (a finding); the ETF
      columns of the benchmark table report the closes' statistics and a
      CAGR that compounds to their total return;
    - RSI accumulation: buys and exits are disjoint Friday 15:15 events,
      read the previous week's RSI, buy the slab of their band (which
      agrees with the [SLAB_ALLOC] table the script never reads); every
      exit is acted on at its bar and leaves the position flat, by
      induction over the run's states; the "No action" count also counts
      missing RSI values (a finding); each benchmark column's CAGR
      compounds to its total return; the invested value is never
      negative; the strategy, NIFTYBEES, cash and invested curves of the
      figures share their days although they are resampled from
      different series;
    - SBIN: the cleaned signals alternate but start with an exit whenever
      the first raw crossover is a sell (a finding against spec 4.1); the
      run is a FLAT/OPEN machine, bar by bar from any prefix of the run;
      the cash is the initial cash plus the realized P&L of the exported
      positions plus the open one's flow;
    - growth: the CAGR round trip and its guard, and the fixed-deposit
      curve ending below the tabulated final value (a finding).
    [reindex().ffill().bfill()] leaves no NaN as soon as the series has
    a value on one of the dates, and NaN everywhere otherwise, which the
    NIFTY 50 benchmark of two scripts carries into its CAGR ([None]) and
    its curve. Each theorem with hypotheses has a witness that applies
    it to a concrete input.

    ** Not modelled

    Data retrieval ([client.history]), the formatting of printed
    numbers, [pf.stats()] and CSV export are I/O; of the figures only the
    data is modelled, not their styling, the RSI threshold lines
    ([add_hline]) or SBIN's library [pf.plot()]. The indicators
    ([vbt.MA] with [ewm=True], [vbt.RSI]) are parameters of the runs.
    The walk-forward optimizer of the spec (4.5) has no code in the
    repository. *)

From Stdlib Require Import QArith Qround Lqa List Lia Permutation.
Import ListNotations.

Declare Scope bt_scope.
Delimit Scope bt_scope with bt.
Open Scope Q_scope.

(** ** Boolean comparisons on rationals, as the code's [<], [<=], [==] *)

Definition Qltb (a b : Q) : bool := negb (Qle_bool b a).

Notation "a <=? b" := (Qle_bool a b) (at level 70, no associativity) : bt_scope.
Notation "a <? b" := (Qltb a b) (at level 70, no associativity) : bt_scope.
Notation "a =?= b" := (Qeq_bool a b) (at level 70, no associativity) : bt_scope.

Lemma Qltb_iff (a b : Q) : Qltb a b = true <-> a < b.
Proof.
  unfold Qltb. rewrite Bool.negb_true_iff.
  split; intro H.
  - apply Qnot_le_lt. intro H'. apply Qle_bool_iff in H'. congruence.
  - destruct (Qle_bool b a) eqn:E; [|reflexivity].
    apply Qle_bool_iff in E. exfalso. apply (Qlt_not_le a b); assumption.
Qed.

Lemma Qltb_false (a b : Q) : Qltb a b = false <-> b <= a.
Proof.
  unfold Qltb. rewrite Bool.negb_false_iff. apply Qle_bool_iff.
Qed.

Lemma Qle_bool_false (a b : Q) : Qle_bool a b = false <-> b < a.
Proof.
  split; intro H.
  - apply Qnot_le_lt. intro H'. apply Qle_bool_iff in H'. congruence.
  - destruct (Qle_bool a b) eqn:E; [|reflexivity].
    apply Qle_bool_iff in E. exfalso. apply (Qlt_not_le b a); assumption.
Qed.

Lemma Qeq_bool_false (a b : Q) : Qeq_bool a b = false <-> ~ a == b.
Proof.
  split; intro H.
  - intro H'. apply Qeq_bool_iff in H'. congruence.
  - destruct (Qeq_bool a b) eqn:E; [|reflexivity].
    apply Qeq_bool_iff in E. contradiction.
Qed.

(** ** Sums over lists of rationals *)

Fixpoint sumQ (l : list Q) : Q :=
  match l with
  | [] => 0
  | x :: xs => x + sumQ xs
  end.

Notation "'Σ' l" := (sumQ l) (at level 35) : bt_scope.

Open Scope bt_scope.

Lemma sumQ_app (l1 l2 : list Q) : Σ (l1 ++ l2) == Σ l1 + Σ l2.
Proof. induction l1 as [|x l1 IH]; simpl; [ring|]. rewrite IH. ring. Qed.

Lemma sumQ_nonneg (l : list Q) : Forall (fun x => 0 <= x) l -> 0 <= Σ l.
Proof. induction 1; simpl; lra. Qed.

(** Two lists of the same length whose elements are pairwise [Qeq] have
    [Qeq] sums. *)
Lemma sumQ_Forall2 (l1 l2 : list Q) :
  Forall2 Qeq l1 l2 -> Σ l1 == Σ l2.
Proof. induction 1; simpl; [reflexivity|]. rewrite H, IHForall2. reflexivity. Qed.

(** The sum of a pointwise product, the mark-to-market value of a list of
    positions at a list of prices. *)
Fixpoint dotQ (xs ys : list Q) : Q :=
  match xs, ys with
  | x :: xs', y :: ys' => x * y + dotQ xs' ys'
  | _, _ => 0
  end.

Lemma dotQ_nonneg (xs ys : list Q) :
  Forall (fun x => 0 <= x) xs -> Forall (fun y => 0 <= y) ys -> 0 <= dotQ xs ys.
Proof.
  intros Hx. revert ys. induction Hx as [|x xs Hx0 Hx IH]; intros [|y ys] Hy; simpl; try lra.
  inversion Hy; subst. specialize (IH ys ltac:(assumption)).
  assert (0 <= x * y) by (apply Qmult_le_0_compat; assumption). lra.
Qed.

Lemma dotQ_nil_r (xs : list Q) : dotQ xs [] == 0.
Proof. destruct xs; reflexivity. Qed.

Lemma dotQ_repeat_0 (n : nat) (ys : list Q) : dotQ (repeat 0 n) ys == 0.
Proof.
  revert ys; induction n as [|n IH]; intros [|y ys]; simpl; try reflexivity.
  rewrite IH. ring.
Qed.

Lemma nth_nonneg (l : list Q) (i : nat) :
  Forall (fun x => 0 <= x) l -> 0 <= nth i l 0.
Proof.
  intros H. revert i; induction H as [|x l Hx H IH]; intros [|i]; simpl;
    auto using Qle_refl.
Qed.

(** ** Loops: a property kept by every iteration of a [for] loop holds
    after it. *)
Lemma fold_left_inv {A B} (f : A -> B -> A) (P : A -> Prop) (l : list B) (a : A) :
  (forall a b, In b l -> P a -> P (f a b)) -> P a -> P (fold_left f l a).
Proof.
  revert a; induction l as [|b l IH]; intros a Hf Ha; simpl; [exact Ha|].
  apply IH; [intros; apply Hf; simpl; auto | apply Hf; simpl; auto].
Qed.

(** A list is a permutation of the elements that pass a test followed by
    those that fail it. *)
Lemma Permutation_filter_split {A} (p : A -> bool) (xs : list A) :
  Permutation xs (filter p xs ++ filter (fun x => negb (p x)) xs).
Proof.
  induction xs as [|x xs IHxs]; cbn; [reflexivity|].
  case (p x); cbn; [now apply perm_skip|].
  rewrite <- Permutation_middle. now apply perm_skip.
Qed.

Lemma filter_all_true {A} (p : A -> bool) (xs : list A) :
  (forall x, In x xs -> p x = true) -> filter p xs = xs.
Proof.
  intros Hp. induction xs as [|x xs IHxs]; cbn; [reflexivity|].
  rewrite (Hp x (or_introl eq_refl)), IHxs; [reflexivity|].
  intros y Hy. exact (Hp y (or_intror Hy)).
Qed.

Lemma filter_all_false {A} (p : A -> bool) (xs : list A) :
  (forall x, In x xs -> p x = false) -> filter p xs = [].
Proof.
  intros Hp. induction xs as [|x xs IHxs]; cbn; [reflexivity|].
  rewrite (Hp x (or_introl eq_refl)). apply IHxs.
  intros y Hy. exact (Hp y (or_intror Hy)).
Qed.

Lemma length_filter_map {A B} (p : B -> bool) (f : A -> B) (l : list A) :
  length (List.filter p (map f l)) = length (List.filter (fun x => p (f x)) l).
Proof. induction l as [|x l IH]; cbn; [reflexivity|]. destruct (p (f x)); cbn; congruence. Qed.

Lemma length_filter_orb {A} (p q : A -> bool) (l : list A) :
  (length (List.filter (fun x => p x || q x) l)
   <= length (List.filter p l) + length (List.filter q l))%nat.
Proof. induction l as [|x l IH]; cbn; [lia|]. destruct (p x), (q x); cbn; lia. Qed.

Lemma map_fst_combine {A B} (l1 : list A) (l2 : list B) :
  (length l1 <= length l2)%nat -> map fst (combine l1 l2) = l1.
Proof.
  revert l2; induction l1 as [|a l1 IH]; intros [|b l2] Hl; cbn in *; [reflexivity | reflexivity | lia |].
  rewrite IH by lia. reflexivity.
Qed.

Lemma last_map_default {A B} (f : A -> B) (l : list A) (d : A) :
  List.last (map f l) (f d) = f (List.last l d).
Proof. induction l as [|x l IH]; [reflexivity|]. destruct l as [|y l]; [reflexivity | exact IH]. Qed.

Lemma last_cons_default {A} (b : A) (l : list A) (x y : A) :
  List.last (b :: l) x = List.last (b :: l) y.
Proof. revert b; induction l as [|c l IH]; intros b; [reflexivity | apply IH]. Qed.

Lemma last_In_cons {A} (a : A) (l : list A) : In (List.last (a :: l) a) (a :: l).
Proof.
  revert a; induction l as [|b l IH]; intros a; [left; reflexivity|].
  right. change (List.last (a :: b :: l) a) with (List.last (b :: l) a).
  rewrite (last_cons_default b l a b). apply IH.
Qed.

Lemma forallb_nonneg (l : list Q) :
  forallb (fun x => 0 <=? x) l = true -> Forall (fun x => 0 <= x) l.
Proof.
  intros H. apply Forall_forall. intros x Hx.
  rewrite forallb_forall in H. apply Qle_bool_iff, H, Hx.
Qed.

(** ** Options, the code's NaN *)

Definition is_nan {A} (o : option A) : bool :=
  match o with None => true | Some _ => false end.

Definition count_true (l : list bool) : nat := length (filter (fun b => b) l).

Lemma count_true_le (l : list bool) : (count_true l <= length l)%nat.
Proof. unfold count_true. apply filter_length_le. Qed.

(** ** Automation *)

Create HintDb bt.
Create Rewrite HintDb bt_cmp.

#[export] Hint Rewrite Qltb_iff Qltb_false Qle_bool_iff Qle_bool_false
  Qeq_bool_iff Qeq_bool_false : bt_cmp.
#[export] Hint Resolve Qle_refl Qlt_le_weak sumQ_nonneg dotQ_nonneg : bt.

(** Turn every boolean comparison outcome among the hypotheses into the
    proposition it decides. *)
Ltac reflect_cmp :=
  repeat match goal with
  | H : Qle_bool _ _ = true |- _ => apply Qle_bool_iff in H
  | H : Qle_bool _ _ = false |- _ => apply Qle_bool_false in H
  | H : Qltb _ _ = true |- _ => apply Qltb_iff in H
  | H : Qltb _ _ = false |- _ => apply Qltb_false in H
  | H : Qeq_bool _ _ = true |- _ => apply Qeq_bool_iff in H
  | H : Qeq_bool _ _ = false |- _ => apply Qeq_bool_false in H
  end.

(** Case analysis on the boolean comparisons of the code: an
    [if a <=? b], [if a <? b] or [if a =?= b] of the goal (or else of a
    hypothesis) is destructed and its outcome turned into the
    proposition it decides. *)
Ltac case_cmp :=
  match goal with
  | |- context [if Qle_bool ?a ?b then _ else _] =>
      let E := fresh "Ecmp" in destruct (Qle_bool a b) eqn:E
  | |- context [if Qltb ?a ?b then _ else _] =>
      let E := fresh "Ecmp" in destruct (Qltb a b) eqn:E
  | |- context [if Qeq_bool ?a ?b then _ else _] =>
      let E := fresh "Ecmp" in destruct (Qeq_bool a b) eqn:E
  | H : context [if Qle_bool ?a ?b then _ else _] |- _ =>
      let E := fresh "Ecmp" in destruct (Qle_bool a b) eqn:E
  | H : context [if Qltb ?a ?b then _ else _] |- _ =>
      let E := fresh "Ecmp" in destruct (Qltb a b) eqn:E
  | H : context [if Qeq_bool ?a ?b then _ else _] |- _ =>
      let E := fresh "Ecmp" in destruct (Qeq_bool a b) eqn:E
  end;
  reflect_cmp.

(** Destruct a boolean comparison anywhere in the goal, also under a
    conjunction of tests where [case_cmp] finds no [if]. *)
Ltac destruct_cmp :=
  match goal with
  | |- context [Qle_bool ?a ?b] => let E := fresh "Ecmp" in destruct (Qle_bool a b) eqn:E
  | |- context [Qltb ?a ?b] => let E := fresh "Ecmp" in destruct (Qltb a b) eqn:E
  end;
  reflect_cmp.

(** Split every comparison of the goal, then close arithmetic goals. *)
Ltac bt_arith := repeat case_cmp; simpl in *; try lra.
