(* ===== verification/Panel.v ===== *)
(** * Panel: the pandas operations the scripts build their data with

    Every script turns the histories the broker returns into time-indexed
    series: it sorts each history by timestamp ([df.sort_index()]),
    aligns several series on their dates ([pd.DataFrame({...})], an outer
    join) and drops incomplete rows ([dropna()]), fills gaps
    ([ffill()], [bfill()]), cuts a series at its first valid value,
    resamples it to days, weeks or quarters keeping each period's last
    value ([resample(rule).last()]) and reads values by label ([loc]).
    This file holds these operations once, generic in the values, with the
    facts the script files use: sorting gives a sorted permutation,
    aligning and dropping gives the inner join, and resampling keeps the
    last point of each period. Timestamps are integers whose order is the
    time order. *)

From Stdlib Require Import QArith List Bool Lia ZArith Sorting.Sorted Permutation.
From S2P Require Import Prelude.
Import ListNotations.
Open Scope Q_scope.

(** ** Sorting by index *)

Section SortIndex.
Context {A : Type}.

Fixpoint insert_by_key (x : Z * A) (l : list (Z * A)) : list (Z * A) :=
  match l with
  | [] => [x]
  | y :: l' => if (fst x <=? fst y)%Z then x :: l else y :: insert_by_key x l'
  end.

(** [df.sort_index()]: the rows in timestamp order. *)
Fixpoint sort_index (l : list (Z * A)) : list (Z * A) :=
  match l with
  | [] => []
  | x :: l' => insert_by_key x (sort_index l')
  end.

End SortIndex.

(** A row of the outer-joined panel: a date and the two closes, each
    possibly missing. *)
Record PanelRow := mkPanelRow { p_day : Z; p_nifty : option Q; p_gold : option Q }.

(** [pd.DataFrame({sym: dfs[sym]["close"] for sym in SYMBOLS})]: the
    outer join of two date-sorted close series on their dates. *)
Fixpoint align (a : list (Z * Q)) : list (Z * Q) -> list PanelRow :=
  fix align_b (b : list (Z * Q)) : list PanelRow :=
    match a, b with
    | [], _ => map (fun '(d, v) => mkPanelRow d None (Some v)) b
    | _, [] => map (fun '(d, v) => mkPanelRow d (Some v) None) a
    | (da, va) :: a', (db, vb) :: b' =>
        if (da <? db)%Z then mkPanelRow da (Some va) None :: align a' b
        else if (db <? da)%Z then mkPanelRow db None (Some vb) :: align_b b'
        else mkPanelRow da (Some va) (Some vb) :: align a' b'
    end.

(** [pd.DataFrame({sym: dfs[sym]["close"]}).dropna()] *)
Fixpoint dropna_panel (rows : list PanelRow) : list (Z * Q * Q) :=
  match rows with
  | [] => []
  | r :: rs =>
      match p_nifty r, p_gold r with
      | Some n, Some g => (p_day r, n, g) :: dropna_panel rs
      | _, _ => dropna_panel rs
      end
  end.

(** [equity.loc[start_idx]]: the value at a date label. *)
Fixpoint loc {A} (days : list Z) (vals : list A) (k : Z) : option A :=
  match days, vals with
  | d :: ds, v :: vs => if (d =? k)%Z then Some v else loc ds vs k
  | _, _ => None
  end.

(** [ffill()] *)
Fixpoint ffill_from {A} (last : option A) (l : list (option A)) : list (option A) :=
  match l with
  | [] => []
  | x :: xs =>
      let v := match x with Some _ => x | None => last end in
      v :: ffill_from v xs
  end.

Definition ffill {A} (l : list (option A)) : list (option A) := ffill_from None l.

(** [bfill()] *)
Definition bfill {A} (l : list (option A)) : list (option A) := rev (ffill (rev l)).

(** [first_valid_index()]; [None] when every value is NaN, and then
    [.loc[None:]] keeps the whole series. *)
Fixpoint first_valid_index {A} (l : list (option A)) : option nat :=
  match l with
  | [] => None
  | Some _ :: _ => Some O
  | None :: xs => option_map S (first_valid_index xs)
  end.

Definition first_valid_offset {A} (l : list (option A)) : nat :=
  match first_valid_index l with Some k => k | None => O end.

(** [series.reindex(index).ffill().bfill()] for a sorted series: its
    value at each date of [days], the gaps filled forward then backward;
    a series with no value on any of the dates stays NaN ([None]). *)
Definition reindex_ffill_bfill (src : list (Z * Q)) (days : list Z) : list (option Q) :=
  bfill (ffill (map (loc (map fst src) (map snd src)) days)).

(** [series.reindex(index).ffill()]: the value at each date of [days],
    the gaps filled forward; NaN ([None]) before the first hit. *)
Definition reindex_ffill {A} (src : list (Z * A)) (days : list Z) : list (option A) :=
  ffill (map (loc (map fst src) (map snd src)) days).

(** [resample(rule).last()] on a time-sorted series: one row per bin
    that has a point, labelled by [label], holding the bin's last value
    ([dropna] has nothing to drop: empty bins give no row). *)
Fixpoint resample_last {A} (label : Z -> Z) (pts : list (Z * A)) : list (Z * A) :=
  match pts with
  | [] => []
  | (t, v) :: rest =>
      match resample_last label rest with
      | [] => [(label t, v)]
      | ((k, _) :: _) as out => if (k =? label t)%Z then out else (label t, v) :: out
      end
  end.

(** ** Lemmas *)

Section SortLemmas.
Context {A : Type}.

Lemma insert_by_key_perm (x : Z * A) (l : list (Z * A)) : Permutation (x :: l) (insert_by_key x l).
Proof.
  induction l as [|y l IH]; simpl; [reflexivity|].
  destruct (fst x <=? fst y)%Z; [reflexivity|].
  etransitivity; [apply perm_swap|]. apply perm_skip, IH.
Qed.

Lemma sort_index_perm (l : list (Z * A)) : Permutation l (sort_index l).
Proof.
  induction l as [|x l IH]; simpl; [reflexivity|].
  etransitivity; [apply perm_skip, IH | apply insert_by_key_perm].
Qed.

Lemma insert_by_key_sorted (x : Z * A) (l : list (Z * A)) :
  StronglySorted (fun a b => (fst a <= fst b)%Z) l ->
  StronglySorted (fun a b => (fst a <= fst b)%Z) (insert_by_key x l).
Proof.
  induction l as [|y l IH]; intros Hs; simpl; [repeat constructor|].
  apply StronglySorted_inv in Hs as [Hs Hy].
  destruct (fst x <=? fst y)%Z eqn:E.
  - apply Z.leb_le in E. constructor; [constructor; assumption|].
    constructor; [exact E|]. refine (List.Forall_impl _ _ Hy). intros z Hz. lia.
  - apply Z.leb_gt in E. constructor; [apply IH, Hs|].
    apply List.Forall_forall. intros z Hz.
    apply (Permutation_in _ (Permutation_sym (insert_by_key_perm x l))) in Hz as [<- | Hz]; [lia|].
    exact (proj1 (List.Forall_forall _ _) Hy z Hz).
Qed.

Lemma sort_index_sorted (l : list (Z * A)) :
  StronglySorted (fun a b => (fst a <= fst b)%Z) (sort_index l).
Proof. induction l as [|x l IH]; simpl; [constructor | apply insert_by_key_sorted, IH]. Qed.

(** With unique timestamps the sorted rows are strictly increasing. *)
Lemma sort_index_strict (l : list (Z * A)) :
  NoDup (map fst l) -> StronglySorted (fun a b => (fst a < fst b)%Z) (sort_index l).
Proof.
  intros Hnd. pose proof (sort_index_sorted l) as Hs.
  assert (Hnd' : NoDup (map fst (sort_index l)))
    by exact (Permutation_NoDup (Permutation_map fst (sort_index_perm l)) Hnd).
  clear Hnd. induction (sort_index l) as [|x s IH]; [constructor|].
  apply StronglySorted_inv in Hs as [Hs Hx]. inversion Hnd' as [|? ? Hnin Hnd]; subst.
  constructor; [apply IH; assumption|].
  apply List.Forall_forall. intros y Hy.
  pose proof (proj1 (List.Forall_forall _ _) Hx y Hy).
  assert (fst x <> fst y) by (intros E; apply Hnin; rewrite E; apply in_map, Hy). cbv beta in *. lia.
Qed.

End SortLemmas.

(** ** The aligned panel *)

Definition key_sorted (l : list (Z * Q)) : Prop :=
  StronglySorted (fun x y => (fst x < fst y)%Z) l.

Lemma key_sorted_tail (k : Z) (v : Q) (l : list (Z * Q)) (d : Z) (w : Q) :
  key_sorted ((k, v) :: l) -> In (d, w) l -> (k < d)%Z.
Proof.
  intros H Hin. apply StronglySorted_inv in H as [_ H].
  exact (proj1 (List.Forall_forall _ _) H (d, w) Hin).
Qed.

Lemma dropna_gold_only (l : list (Z * Q)) :
  dropna_panel (map (fun '(d, v) => mkPanelRow d None (Some v)) l) = [].
Proof. induction l as [|[d v] l IH]; [reflexivity | exact IH]. Qed.

Lemma dropna_nifty_only (l : list (Z * Q)) :
  dropna_panel (map (fun '(d, v) => mkPanelRow d (Some v) None) l) = [].
Proof. induction l as [|[d v] l IH]; [reflexivity | exact IH]. Qed.

Lemma align_nil_l (b : list (Z * Q)) : dropna_panel (align [] b) = [].
Proof. destruct b; [reflexivity | exact (dropna_gold_only (_ :: _))]. Qed.

Lemma align_nil_r (a : list (Z * Q)) : dropna_panel (align a []) = [].
Proof. destruct a as [|[d v] a]; [reflexivity | exact (dropna_nifty_only (_ :: _))]. Qed.

(** Aligning two date-sorted series and dropping the rows with a missing
    value keeps exactly the dates both series have, each with its two
    values: the panel is their inner join. *)
Lemma dropna_align_inner_join (a b : list (Z * Q)) (d : Z) (n g : Q) :
  key_sorted a -> key_sorted b ->
  In (d, n, g) (dropna_panel (align a b)) <-> In (d, n) a /\ In (d, g) b.
Proof.
  revert b; induction a as [|[da va] a IHa]; intros b Ha Hb.
  { rewrite align_nil_l. simpl. tauto. }
  induction b as [|[db vb] b IHb].
  { rewrite align_nil_r. simpl. tauto. }
  pose proof Ha as Ha'. pose proof Hb as Hb'.
  apply StronglySorted_inv in Ha' as [Ha' _]. apply StronglySorted_inv in Hb' as [Hb' _].
  cbn [align]. destruct (da <? db)%Z eqn:E1; [|destruct (db <? da)%Z eqn:E2].
  - apply Z.ltb_lt in E1. cbn [dropna_panel p_nifty p_gold].
    rewrite (IHa _ Ha' Hb). simpl. split; [tauto|].
    intros [[[= -> ->] | H1] H2]; [|tauto]. exfalso.
    destruct H2 as [[= -> ->] | H2]; [lia|]. pose proof (key_sorted_tail _ _ _ _ _ Hb H2). lia.
  - apply Z.ltb_lt in E2. cbn [dropna_panel p_nifty p_gold].
    rewrite (IHb Hb'). simpl. split; [tauto|].
    intros [H1 [[= -> ->] | H2]]; [|tauto]. exfalso.
    destruct H1 as [[= -> ->] | H1]; [lia|]. pose proof (key_sorted_tail _ _ _ _ _ Ha H1). lia.
  - apply Z.ltb_ge in E1, E2. assert (db = da) as -> by lia. clear E1 E2. cbn [dropna_panel p_nifty p_gold p_day].
    simpl. rewrite (IHa _ Ha' Hb'). split.
    + intros [[= -> -> ->] | [H1 H2]]; [tauto | tauto].
    + intros [[E1 | H1] [E2 | H2]].
      * injection E1 as <- <-. injection E2 as <-. left. reflexivity.
      * exfalso. injection E1 as <- <-. pose proof (key_sorted_tail _ _ _ _ _ Hb H2). lia.
      * exfalso. injection E2 as <- <-. pose proof (key_sorted_tail _ _ _ _ _ Ha H1). lia.
      * right. tauto.
Qed.

Lemma combine_map_r {A B C} (f : B -> C) (l1 : list A) (l2 : list B) :
  combine l1 (map f l2) = map (fun '(a, b) => (a, f b)) (combine l1 l2).
Proof.
  revert l2; induction l1 as [|a l1 IH]; intros [|b l2]; simpl; try reflexivity.
  rewrite IH. reflexivity.
Qed.

Lemma combine_map_map {A B C} (f : A -> B) (g : A -> C) (l : list A) :
  combine (map f l) (map g l) = map (fun a => (f a, g a)) l.
Proof. induction l as [|a l IH]; simpl; [reflexivity | rewrite IH; reflexivity]. Qed.

(** ** Resampling *)

Section Resample.
Context {A : Type} (label : Z -> Z).

Lemma resample_last_cons_key (t : Z) (v : A) (rest : list (Z * A)) :
  exists v' out, resample_last label ((t, v) :: rest) = (label t, v') :: out.
Proof.
  simpl. destruct (resample_last label rest) as [|[k w] out] eqn:E; [eauto|].
  destruct (k =? label t)%Z eqn:Ek; [apply Z.eqb_eq in Ek; subst k; eauto | eauto].
Qed.

(** Every row of the resampled series is a point of the input, labelled. *)
Lemma resample_last_values (pts : list (Z * A)) (k : Z) (v : A) :
  In (k, v) (resample_last label pts) -> exists t, In (t, v) pts /\ k = label t.
Proof.
  induction pts as [|[t0 v0] rest IH]; simpl; [tauto|].
  destruct (resample_last label rest) as [|[k1 w] out] eqn:E.
  - intros [[= <- <-] | []]. exists t0. split; [left; reflexivity | reflexivity].
  - assert (Hr : In (k, v) ((k1, w) :: out) -> exists t, In (t, v) ((t0, v0) :: rest) /\ k = label t).
    { intros H. destruct (IH H) as (t & Ht & ->). exists t. split; [right; exact Ht | reflexivity]. }
    destruct (k1 =? label t0)%Z; [exact Hr|].
    intros [[= <- <-] | H]; [exists t0; split; [left; reflexivity | reflexivity] | exact (Hr H)].
Qed.

(** Resampling looks at the timestamps only: mapping the values commutes
    with it. *)
(** The labels of a resample depend on the timestamps only: two series on
    the same timestamps resample to the same labels. *)
Lemma resample_last_keys {B} (p : list (Z * A)) (q : list (Z * B)) :
  map fst p = map fst q -> map fst (resample_last label p) = map fst (resample_last label q).
Proof.
  revert q; induction p as [|[t v] p IH]; intros [|[t' w] q] H; cbn in H; try discriminate;
    [reflexivity|].
  injection H as <- H. specialize (IH q H). cbn.
  destruct (resample_last label p) as [|[k x] o], (resample_last label q) as [|[k' y] o'];
    cbn in IH |- *; try discriminate; [reflexivity|].
  injection IH as <- IH. destruct (k =? label t)%Z; cbn; congruence.
Qed.

Lemma resample_last_map {B} (f : A -> B) (pts : list (Z * A)) :
  resample_last label (map (fun '(t, v) => (t, f v)) pts)
  = map (fun '(t, v) => (t, f v)) (resample_last label pts).
Proof.
  induction pts as [|[t0 v0] rest IH]; [reflexivity|]. simpl. rewrite IH.
  destruct (resample_last label rest) as [|[k1 w] out]; simpl; [reflexivity|].
  destruct (k1 =? label t0)%Z; reflexivity.
Qed.

End Resample.

(** The fills: lengths, totality once a value has been seen, and the
    values they spread are values of the series. *)
Section FillLemmas.
Context {A : Type}.

Lemma ffill_from_length (last : option A) (l : list (option A)) :
  length (ffill_from last l) = length l.
Proof. induction l as [|o l IH] in last |- *; simpl; [reflexivity | now rewrite IH]. Qed.

Lemma bfill_ffill_length (l : list (option A)) : length (bfill (ffill l)) = length l.
Proof. unfold bfill, ffill. now rewrite length_rev, ffill_from_length, length_rev, ffill_from_length. Qed.

Lemma ffill_from_total (x : A) (l : list (option A)) :
  Forall (fun o => o <> None) (ffill_from (Some x) l).
Proof.
  induction l as [|[y|] l IH] in x |- *; simpl; constructor; try discriminate; apply IH.
Qed.

Lemma ffill_from_vals (P : A -> Prop) (last : option A) (l : list (option A)) :
  (forall x, last = Some x -> P x) ->
  Forall (fun o => forall x, o = Some x -> P x) l ->
  Forall (fun o => forall x, o = Some x -> P x) (ffill_from last l).
Proof.
  intros Hl Hs. induction Hs as [|o l Ho Hs IH] in last, Hl |- *; simpl; [constructor|].
  assert (Hv : forall x, (match o with Some _ => o | None => last end) = Some x -> P x)
    by (destruct o; auto).
  constructor; [exact Hv | exact (IH _ Hv)].
Qed.

(** Once the series has a value, the last point of its forward fill is
    a value. *)
Lemma ffill_from_tail_some (last : option A) (l : list (option A)) (x : A) :
  In (Some x) l -> exists y r, rev (ffill_from last l) = Some y :: r.
Proof.
  induction l as [|o l IH] in last |- *; [intros []|]. intros Hin. simpl.
  destruct o as [z|].
  - destruct (rev (ffill_from (Some z) l)) as [|h r] eqn:E; [now exists z, []|].
    assert (Hh : In h (ffill_from (Some z) l)) by (apply in_rev; rewrite E; now left).
    pose proof (proj1 (List.Forall_forall _ _) (ffill_from_total z l) h Hh) as Hne.
    destruct h as [y|]; [|contradiction]. now exists y, (r ++ [Some z]).
  - destruct Hin as [[=]|Hin]. destruct (IH last Hin) as (y & r & ->).
    now exists y, (r ++ [last]).
Qed.

Lemma bfill_ffill_total (l : list (option A)) (x : A) :
  In (Some x) l -> Forall (fun o => o <> None) (bfill (ffill l)).
Proof.
  intros Hin. unfold bfill, ffill. destruct (ffill_from_tail_some None l x Hin) as (y & r & ->).
  apply Forall_rev. simpl. constructor; [discriminate | apply ffill_from_total].
Qed.

Lemma bfill_ffill_vals (P : A -> Prop) (l : list (option A)) :
  Forall (fun o => forall x, o = Some x -> P x) l ->
  Forall (fun o => forall x, o = Some x -> P x) (bfill (ffill l)).
Proof.
  intros H. unfold bfill, ffill. apply Forall_rev, ffill_from_vals; [discriminate|].
  apply Forall_rev, ffill_from_vals; [discriminate | exact H].
Qed.

(** After its first valid index a forward-filled series has no NaN. *)
Lemma first_valid_ffill_total (l : list (option A)) (k : nat) :
  first_valid_index l = Some k -> Forall (fun o => o <> None) (skipn k (ffill l)).
Proof.
  induction l as [|[x|] l IH] in k |- *; simpl; [discriminate| |].
  - intros [= <-]. simpl. constructor; [discriminate | apply ffill_from_total].
  - destruct (first_valid_index l) as [k'|] eqn:E; [|discriminate]. intros [= <-].
    exact (IH k' eq_refl).
Qed.

Lemma ffill_first_valid (l : list (option A)) :
  first_valid_index (ffill l) = first_valid_index l.
Proof.
  unfold ffill. induction l as [|[x|] l IH]; simpl; [reflexivity | reflexivity | now rewrite IH].
Qed.


(** A forward fill of a series with no NaN has none. *)
Lemma ffill_total (l : list (option A)) :
  Forall (fun o => o <> None) l -> Forall (fun o => o <> None) (ffill l).
Proof.
  intros H. destruct H as [|[x|] l Hx _]; [constructor | |contradiction].
  unfold ffill. cbn. constructor; [discriminate | apply ffill_from_total].
Qed.

End FillLemmas.

(** A series reindexed on its own dates has a value at each of them. *)
Lemma loc_total {B} (src : list (Z * B)) (k : Z) :
  In k (map fst src) -> loc (map fst src) (map snd src) k <> None.
Proof.
  induction src as [|[d v] src IH]; [intros []|]. intros Hk. cbn.
  destruct (d =? k)%Z eqn:E; [discriminate|]. apply IH.
  destruct Hk as [<-|Hk]; [now rewrite Z.eqb_refl in E | exact Hk].
Qed.

Lemma reindex_ffill_self {B} (src : list (Z * B)) :
  (length (reindex_ffill src (map fst src)) = length src)%nat /\
  Forall (fun o => o <> None) (reindex_ffill src (map fst src)).
Proof.
  unfold reindex_ffill, ffill. split; [now rewrite ffill_from_length, !length_map|].
  apply ffill_total, Forall_map, List.Forall_forall. intros k Hk. now apply loc_total.
Qed.

Lemma loc_in_vals {B} (days : list Z) (vals : list B) (k : Z) (v : B) :
  loc days vals k = Some v -> In v vals.
Proof.
  induction days as [|d ds IH] in vals |- *; destruct vals as [|w ws]; simpl; try discriminate.
  destruct (d =? k)%Z; [intros [= ->]; now left | intros H; right; exact (IH ws H)].
Qed.

Lemma loc_found {B} (src : list (Z * B)) (d : Z) :
  In d (map fst src) -> exists v, loc (map fst src) (map snd src) d = Some v.
Proof.
  induction src as [|[k w] src IH]; simpl; [intros []|]. intros Hin.
  destruct (k =? d)%Z eqn:E; [now exists w|].
  apply IH. destruct Hin as [->|Hin]; [now rewrite Z.eqb_refl in E | exact Hin].
Qed.

Lemma loc_some_in {B} (src : list (Z * B)) (d : Z) (v : B) :
  loc (map fst src) (map snd src) d = Some v -> In d (map fst src).
Proof.
  induction src as [|[k w] src IH]; cbn; [discriminate|].
  destruct (k =? d)%Z eqn:E; [intros _; left; exact (proj1 (Z.eqb_eq _ _) E) | intros Hv; right; exact (IH Hv)].
Qed.

Lemma ffill_none {A} (n : nat) : ffill (repeat (@None A) n) = repeat None n.
Proof. unfold ffill. induction n as [|n IH]; cbn; [reflexivity | now rewrite IH]. Qed.

(** ** Theorems *)

(** [resample(rule).last()] keeps, for each bin, the last point of
    the bin: on a series whose labels do not decrease, a row [(k, v)] is
    in the result exactly when [v] is the value of a point labelled [k]
    after which no point is labelled [k]. *)
Theorem resample_last_spec {A} (label : Z -> Z) (pts : list (Z * A)) (k : Z) (v : A) :
  StronglySorted (fun x y => (label (fst x) <= label (fst y))%Z) pts ->
  In (k, v) (resample_last label pts) <->
  exists t pre post, pts = pre ++ (t, v) :: post /\ label t = k /\
                     Forall (fun x => label (fst x) <> k) post.
Proof.
  induction pts as [|[t0 v0] rest IH]; intros Hs.
  { simpl. split; [tauto|]. intros (t & [|??] & post & H & _); discriminate. }
  apply StronglySorted_inv in Hs as [Hs Hall]. specialize (IH Hs).
  assert (Hext : (exists t pre post, rest = pre ++ (t, v) :: post /\ label t = k /\
                    Forall (fun x => label (fst x) <> k) post) ->
                 exists t pre post, (t0, v0) :: rest = pre ++ (t, v) :: post /\ label t = k /\
                    Forall (fun x => label (fst x) <> k) post).
  { intros (t & pre & post & -> & Hk & Hp). exists t, ((t0, v0) :: pre), post. auto. }
  destruct rest as [|[t1 v1] rest'].
  - simpl. split.
    + intros [[= <- <-] | []]. exists t0, [], []. auto.
    + intros (t & [|x pre] & post & H & Hk & _).
      * injection H as -> -> <-. left. rewrite Hk. reflexivity.
      * destruct pre; discriminate.
  - destruct (resample_last_cons_key label t1 v1 rest') as (w & out & Hr).
    change (resample_last label ((t0, v0) :: (t1, v1) :: rest'))
      with (match resample_last label ((t1, v1) :: rest') with
            | [] => [(label t0, v0)]
            | ((k', _) :: _) as o => if (k' =? label t0)%Z then o else (label t0, v0) :: o
            end).
    rewrite Hr. cbv beta iota. rewrite <- Hr. inversion Hall as [|? ? Ht1 Hall']; subst. simpl in Ht1.
    destruct (label t1 =? label t0)%Z eqn:E; cbv beta iota.
    + apply Z.eqb_eq in E. rewrite IH. split; [exact Hext|].
      intros (t & [|x pre] & post & H & Hk & Hp).
      * injection H as -> -> <-. inversion Hp as [|? ? Hne]; subst. simpl in Hne. congruence.
      * injection H as <- H. exists t, pre, post. auto.
    + apply Z.eqb_neq in E. cbn [In]. rewrite IH. split.
      * intros [[= <- <-] | H]; [|exact (Hext H)].
        exists t0, [], ((t1, v1) :: rest'). split; [reflexivity|]. split; [reflexivity|].
        constructor; [simpl; lia|]. apply List.Forall_forall. intros x Hin.
        apply StronglySorted_inv in Hs as [_ Hs1].
        pose proof (proj1 (List.Forall_forall _ _) Hs1 x Hin). simpl in *. lia.
      * intros (t & [|x pre] & post & H & Hk & Hp).
        -- injection H as -> -> <-. left. rewrite Hk. reflexivity.
        -- injection H as <- H. right. exists t, pre, post. auto.
Qed.

(** Closes on days 0, 0.5 and 1 (minutes 0, 720, 1440) resampled to
    days: day 0 keeps its afternoon close. *)
Lemma resample_last_spec_witness :
  let pts : list (Z * Q) := [(0%Z, 100); (720%Z, 102); (1440%Z, 105)] in
  let day := fun t : Z => (t / 1440 * 1440)%Z in
  StronglySorted (fun x y => (day (fst x) <= day (fst y))%Z) pts /\
  exists t pre post, pts = pre ++ (t, 102) :: post /\ day t = 0%Z /\
                     Forall (fun x => day (fst x) <> 0%Z) post.
Proof.
  intros pts day.
  assert (Hs : StronglySorted (fun x y => (day (fst x) <= day (fst y))%Z) pts)
    by (repeat constructor; apply Z.leb_le; reflexivity).
  split; [exact Hs|].
  apply (proj1 (resample_last_spec day pts 0 102 Hs)).
  vm_compute. left. reflexivity.
Defined.

(** [reindex(days).ffill().bfill()] leaves no NaN once the series has
    a value on one of the days: the result has one value per day and
    every value is a close of the series. *)
Theorem reindex_ffill_bfill_total (src : list (Z * Q)) (days : list Z) (d : Z) :
  In d days -> In d (map fst src) ->
  (length (reindex_ffill_bfill src days) = length days)%nat /\
  Forall (fun o => exists p, o = Some p /\ In p (map snd src)) (reindex_ffill_bfill src days).
Proof.
  intros Hd Hs. unfold reindex_ffill_bfill.
  set (l := map (loc (map fst src) (map snd src)) days).
  destruct (loc_found src d Hs) as [v Hv].
  assert (Hin : In (Some v) l) by (rewrite <- Hv; now apply in_map).
  split; [rewrite bfill_ffill_length; unfold l; now rewrite length_map|].
  assert (Hvals : Forall (fun o => forall x, o = Some x -> In x (map snd src)) l).
  { apply List.Forall_forall. intros o Ho x ->. apply in_map_iff in Ho as (k & Hk & _).
    exact (loc_in_vals _ _ _ _ Hk). }
  pose proof (bfill_ffill_total l v Hin) as Ht. pose proof (bfill_ffill_vals _ l Hvals) as Hw.
  apply List.Forall_forall. intros [x|] Ho.
  - exists x. split; [reflexivity|]. exact (proj1 (List.Forall_forall _ _) Hw _ Ho x eq_refl).
  - exact (False_ind _ (proj1 (List.Forall_forall _ _) Ht _ Ho eq_refl)).
Qed.

(** A series with no value on any of the days stays NaN on all of them. *)
Lemma reindex_ffill_bfill_nan (src : list (Z * Q)) (days : list Z) :
  (forall d, In d days -> ~ In d (map fst src)) ->
  reindex_ffill_bfill src days = repeat None (length days).
Proof.
  intros H. unfold reindex_ffill_bfill.
  replace (map (loc (map fst src) (map snd src)) days) with (repeat (@None Q) (length days)).
  - unfold bfill. rewrite ffill_none, rev_repeat, ffill_none. apply rev_repeat.
  - induction days as [|d ds IH]; [reflexivity|]. cbn [map repeat length].
    rewrite IH by (intros d' Hd'; apply H; right; exact Hd').
    destruct (loc (map fst src) (map snd src) d) as [v|] eqn:E; [|reflexivity].
    exfalso. apply (H d (or_introl eq_refl)). exact (loc_some_in src d v E).
Qed.

(** A series with closes on days 1 and 3, reindexed on days 0 to 4:
    day 0 takes the close of day 1 (backward fill), days 2 and 4 the
    close before them. *)
Lemma reindex_ffill_bfill_total_witness :
  In 1%Z [0; 1; 2; 3; 4]%Z /\ In 1%Z (map fst [(1%Z, 10); (3%Z, 30)]) /\
  reindex_ffill_bfill [(1%Z, 10); (3%Z, 30)] [0; 1; 2; 3; 4]%Z
  = [Some 10; Some 10; Some 10; Some 30; Some 30] /\
  Forall (fun o => exists p, o = Some p /\ In p (map snd [(1%Z, 10); (3%Z, 30)]))
    (reindex_ffill_bfill [(1%Z, 10); (3%Z, 30)] [0; 1; 2; 3; 4]%Z).
Proof.
  assert (H1 : In 1%Z [0; 1; 2; 3; 4]%Z) by (simpl; tauto).
  assert (H2 : In 1%Z (map fst [(1%Z, 10); (3%Z, 30)])) by (simpl; tauto).
  split; [exact H1|]. split; [exact H2|]. split; [vm_compute; reflexivity|].
  exact (proj2 (reindex_ffill_bfill_total _ _ 1%Z H1 H2)).
Defined.
