(* ===== verification/Signals.v ===== *)
(** * Signals: the signal normalizer and the SBIN entry/exit composition

    [exrem] is [openalgo.ta.exrem], the library call the SBIN script makes
    on its raw crossover series (spec 4.1: one left-to-right scan with a
    two-state flag, no lookahead). [normalize] is the spec's contract for
    the normalizer: a single FLAT/OPEN scan emitting entries and exits.
    [sbin_signals] is what SBIN_ema_crossover_backtest.py lines 60-61 do:
    two independent [exrem] calls with the roles of the series swapped.
    The theorems: [exrem] keeps only primary signals and is idempotent;
    on raw series that never fire together the script's cleaned events
    alternate, as the normalizer's do; but where the normalizer always
    starts with an entry, the script emits an exit first whenever the
    first raw crossover is a sell. *)

From Stdlib Require Import List Bool Lia.
From stdpp Require Import base decidable.
From S2P Require Import Prelude.
Import ListNotations.

Module Exrem.

(** One scan of [exrem primary secondary] from the flag [active]: a
    primary signal is kept when the flag is down and raises it; while the
    flag is up, a secondary signal lowers it. *)
Fixpoint exrem_from (active : bool) (primary secondary : list bool) : list bool :=
  match primary, secondary with
  | p :: ps, s :: ss =>
      if active then false :: exrem_from (negb s) ps ss
      else if p then true :: exrem_from true ps ss
      else false :: exrem_from false ps ss
  | _, _ => []
  end.

Definition exrem (primary secondary : list bool) : list bool :=
  exrem_from false primary secondary.

End Exrem.

Module Normalizer.

(** The spec's normalizer: a scan carrying {FLAT, OPEN} ([open] false or
    true); an entry candidate is accepted only while flat, an exit
    candidate only while open. Each bar yields the pair (entry, exit). *)
Fixpoint normalize_from (open : bool) (entries exits : list bool)
    : list (bool * bool) :=
  match entries, exits with
  | e :: es, x :: xs =>
      if open then
        if x then (false, true) :: normalize_from false es xs
        else (false, false) :: normalize_from true es xs
      else
        if e then (true, false) :: normalize_from true es xs
        else (false, false) :: normalize_from false es xs
  | _, _ => []
  end.

Definition normalize (entries exits : list bool) : list bool * list bool :=
  split (normalize_from false entries exits).

End Normalizer.

Module SbinSignals.
Import Exrem.

(** [entries = ta.exrem(buy_raw, sell_raw)],
    [exits = ta.exrem(sell_raw, buy_raw)]. *)
Definition sbin_signals (buy_raw sell_raw : list bool) : list bool * list bool :=
  (exrem buy_raw sell_raw, exrem sell_raw buy_raw).

End SbinSignals.

(** ** Events: the bars that carry a signal, in order *)

Inductive Ev := EntryEv | ExitEv.

#[export] Instance Ev_eq_dec : EqDecision Ev.
Proof. solve_decision. Defined.

(** The events of an (entries, exits) pair, bar by bar; a bar with both
    flags counts as an entry (the [disjoint] theorems show that the
    modelled compositions never produce one). *)
Fixpoint events (es xs : list bool) : list Ev :=
  match es, xs with
  | e :: es', x :: xs' =>
      if e then EntryEv :: events es' xs'
      else if x then ExitEv :: events es' xs'
      else events es' xs'
  | _, _ => []
  end.

(** [alt_from last evs]: no event of [evs] repeats the one before it,
    the first one compared with [last]. *)
Fixpoint alt_from (last : option Ev) (evs : list Ev) : Prop :=
  match evs with
  | [] => True
  | e :: es => last <> Some e /\ alt_from (Some e) es
  end.

Definition alternating (evs : list Ev) : Prop := alt_from None evs.

Fixpoint disjoint (a b : list bool) : Prop :=
  match a, b with
  | x :: a', y :: b' => ~ (x = true /\ y = true) /\ disjoint a' b'
  | _, _ => True
  end.

Fixpoint disjointb (a b : list bool) : bool :=
  match a, b with
  | x :: a', y :: b' => negb (x && y) && disjointb a' b'
  | _, _ => true
  end.

Lemma disjointb_spec (a b : list bool) : disjointb a b = true <-> disjoint a b.
Proof.
  revert b; induction a as [|x a IH]; intros [|y b]; simpl; try tauto.
  rewrite andb_true_iff, IH, negb_true_iff, andb_false_iff.
  destruct x, y; intuition congruence.
Qed.

(** ** Lemmas on the scans *)

Section ScanLemmas.
Import Exrem Normalizer.

Lemma exrem_from_length (a : bool) (p s : list bool) :
  length (exrem_from a p s) = Nat.min (length p) (length s).
Proof.
  revert a s; induction p as [|x p IH]; intros a [|y s]; simpl; auto.
  destruct a; [|destruct x]; simpl; rewrite IH; reflexivity.
Qed.

Lemma exrem_from_subset (a : bool) (p s : list bool) (i : nat) :
  nth i (exrem_from a p s) false = true -> nth i p false = true.
Proof.
  revert a s i; induction p as [|x p IH]; intros a [|y s] i; simpl; auto;
    [destruct i; discriminate|].
  destruct a; [|destruct x]; destruct i; simpl; eauto; discriminate.
Qed.

Lemma exrem_from_idem (a : bool) (p s : list bool) :
  exrem_from a (exrem_from a p s) s = exrem_from a p s.
Proof.
  revert a s; induction p as [|x p IH]; intros a [|y s]; simpl; auto.
  destruct a; [|destruct x]; simpl; rewrite IH; reflexivity.
Qed.

(** The joint state of the two [exrem] scans of the SBIN script, read off
    the last raw event seen: none, a buy, or a sell. *)
Definition flags_of (last : option Ev) : bool * bool :=
  match last with
  | None => (false, false)
  | Some EntryEv => (true, false)
  | Some ExitEv => (false, true)
  end.

Lemma sbin_scan_alt (last : option Ev) (b s : list bool) :
  disjoint b s ->
  alt_from last
    (events (exrem_from (fst (flags_of last)) b s)
            (exrem_from (snd (flags_of last)) s b)).
Proof.
  revert last s; induction b as [|x b IH]; intros last [|y s] Hd; simpl; auto.
  destruct Hd as [Hxy Hd].
  destruct last as [[]|]; destruct x, y; simpl; try (exfalso; tauto);
    first [ split; [congruence|] | idtac ];
    first [ apply (IH (Some EntryEv)) | apply (IH (Some ExitEv)) | apply (IH None) ];
    assumption.
Qed.

Lemma sbin_scan_disjoint (last : option Ev) (b s : list bool) :
  disjoint b s ->
  disjoint (exrem_from (fst (flags_of last)) b s)
           (exrem_from (snd (flags_of last)) s b).
Proof.
  revert last s; induction b as [|x b IH]; intros last [|y s] Hd; simpl; auto.
  destruct Hd as [Hxy Hd].
  destruct last as [[]|]; destruct x, y; simpl; try (exfalso; tauto);
    (split; [intuition congruence|]);
    first [ apply (IH (Some EntryEv)) | apply (IH (Some ExitEv)) | apply (IH None) ];
    assumption.
Qed.

End ScanLemmas.

Lemma split_cons {A B} (a : A) (b : B) (l : list (A * B)) :
  split ((a, b) :: l) = (a :: fst (split l), b :: snd (split l)).
Proof. simpl. destruct (split l); reflexivity. Qed.

Lemma alt_from_exit_entry (evs : list Ev) :
  alt_from (Some ExitEv) evs -> alternating evs /\ hd EntryEv evs = EntryEv.
Proof.
  unfold alternating; destruct evs as [|[] es]; simpl; intuition congruence.
Qed.

Section NormalizerLemmas.
Import Normalizer.

Lemma normalize_scan_alt (open : bool) (e x : list bool) :
  alt_from (Some (if open then EntryEv else ExitEv))
    (events (fst (split (normalize_from open e x)))
            (snd (split (normalize_from open e x)))).
Proof.
  revert open x; induction e as [|a e IH]; intros open [|y x]; simpl; auto.
  destruct open; [destruct y|destruct a]; rewrite split_cons; simpl;
    first [ split; [congruence|] | idtac ];
    first [ apply (IH true) | apply (IH false) ].
Qed.

End NormalizerLemmas.

(** ** Theorems *)

Section SignalTheorems.
Import Exrem Normalizer SbinSignals.

(** [exrem] never invents a signal: every bar it keeps carries a
    primary signal. *)
Theorem exrem_subset (p s : list bool) (i : nat) :
  nth i (exrem p s) false = true -> nth i p false = true.
Proof. apply exrem_from_subset. Qed.

Lemma exrem_subset_witness :
  nth 2 (exrem [true; true; true] [false; true; false]) false = true /\
  nth 2 [true; true; true] false = true.
Proof.
  split; [reflexivity|].
  apply (exrem_subset [true; true; true] [false; true; false] 2). reflexivity.
Defined.

(** [exrem] is idempotent: cleaning an already cleaned series
    against the same secondary series changes nothing. *)
Theorem exrem_idempotent (p s : list bool) :
  exrem (exrem p s) s = exrem p s.
Proof. apply exrem_from_idem. Qed.

(** On raw buy and sell series that never fire on the same bar, the
    events of the SBIN script's cleaned signals strictly alternate: no two
    entries without an exit between them, and no two exits without an
    entry between them. *)
Theorem sbin_events_alternate (buy_raw sell_raw : list bool) :
  disjoint buy_raw sell_raw ->
  alternating (events (fst (sbin_signals buy_raw sell_raw))
                      (snd (sbin_signals buy_raw sell_raw))).
Proof. intros H. exact (sbin_scan_alt None buy_raw sell_raw H). Qed.

Lemma sbin_events_alternate_witness :
  disjoint [false; true; false; true] [true; false; true; false] /\
  alternating (events (fst (sbin_signals [false; true; false; true] [true; false; true; false]))
                      (snd (sbin_signals [false; true; false; true] [true; false; true; false]))).
Proof.
  assert (H : disjoint [false; true; false; true] [true; false; true; false])
    by (apply disjointb_spec; reflexivity).
  split; [exact H|]. exact (sbin_events_alternate _ _ H).
Defined.

(** The spec's normalizer contract: its events alternate and the
    first one is an entry, whatever the candidate series. *)
Theorem normalize_alternates_from_entry (entries exits : list bool) :
  alternating (events (fst (normalize entries exits)) (snd (normalize entries exits))) /\
  hd EntryEv (events (fst (normalize entries exits)) (snd (normalize entries exits)))
  = EntryEv.
Proof. apply alt_from_exit_entry, (normalize_scan_alt false). Qed.

(** C15: the script's composition does not meet the spec's "begin with an
    entry": when the first raw crossover is a sell, on bar [k] with no
    buy up to it, [exrem(sell_raw, buy_raw)] keeps it, so the cleaned
    exits fire on bar [k] and the first event of the run is an exit. *)
Theorem sbin_first_event_exit (buy_raw sell_raw : list bool) (k : nat) :
  (k < length buy_raw)%nat -> (k < length sell_raw)%nat ->
  (forall i, (i < k)%nat -> nth i buy_raw false = false /\ nth i sell_raw false = false) ->
  nth k buy_raw false = false -> nth k sell_raw false = true ->
  nth k (snd (sbin_signals buy_raw sell_raw)) false = true /\
  hd_error (events (fst (sbin_signals buy_raw sell_raw)) (snd (sbin_signals buy_raw sell_raw)))
  = Some ExitEv.
Proof.
  unfold sbin_signals, exrem. cbn [fst snd]. revert buy_raw sell_raw.
  induction k as [|k IH]; intros [|b bs] [|x xs] Hb Hx Hpre Hbk Hxk; cbn [length] in Hb, Hx; try lia.
  - cbn in Hbk, Hxk. subst. split; reflexivity.
  - destruct (Hpre 0%nat ltac:(lia)) as [Hb0 Hx0]. cbn in Hb0, Hx0. subst. cbn.
    apply IH; [lia | lia | | exact Hbk | exact Hxk].
    intros i Hi. exact (Hpre (S i) ltac:(lia)).
Qed.

Lemma sbin_first_event_exit_witness :
  disjoint [false; true] [true; false] /\
  nth 0 (snd (sbin_signals [false; true] [true; false])) false = true /\
  hd_error (events (fst (sbin_signals [false; true] [true; false]))
                   (snd (sbin_signals [false; true] [true; false]))) = Some ExitEv.
Proof.
  split; [apply disjointb_spec; reflexivity|].
  apply (sbin_first_event_exit [false; true] [true; false] 0); cbn; try reflexivity; try lia.
Defined.

End SignalTheorems.
