(* ===== verification/Sizing.v ===== *)
(** * Sizing: the order sizer of the engine (spec 4.2)

    The scripts pass vectorbt a size, a [size_type] ("percent",
    "targetpercent", "value"; "amount" is the default), [min_size=1],
    [size_granularity=1] and fees. This file turns one such request into
    the quantity that is executed: the size semantics ([requested]),
    rounding to the lot ([round_lot]), the long-only clip of a sell to the
    position, the clip of a buy to what the cash affords ([floor_lot] of
    [max_affordable]), and the rejection below [min_size]. The result is
    an [Outcome]: nothing to do, a rejection with its [SizingError], or an
    executed signed quantity, price and fee. *)

From Stdlib Require Import QArith Qround Lqa List Lia ZArith.
From stdpp Require Import base decidable.
From S2P Require Import Prelude.
Import ListNotations.
Open Scope Q_scope.
Open Scope bt_scope.

Inductive SizeType := SizeAmount | SizeValue | SizePercent | SizeTargetPercent.
Inductive Direction := LongOnly | Both.

#[export] Instance SizeType_eq_dec : EqDecision SizeType.
Proof. solve_decision. Defined.
#[export] Instance Direction_eq_dec : EqDecision Direction.
Proof. solve_decision. Defined.

(** A size as the scripts write it: a number, [np.nan] (no order), or
    [np.inf] / [-np.inf] (everything). *)
Inductive Size := NaN | PosInf | NegInf | Num (q : Q).

Definition neg_size (s : Size) : Size :=
  match s with
  | NaN => NaN
  | PosInf => NegInf
  | NegInf => PosInf
  | Num q => Num (- q)
  end.

Record FeeModel := mkFeeModel {
  fees : Q;          (** Proportional fee, [fees=0.001] in every script *)
  fixed_fees : Q;    (** Charged once per executed order *)
  slippage : Q       (** Adverse fraction of the price *)
}.

Record SizingConfig := mkSizingConfig {
  size_type : SizeType;
  min_size : Q;
  size_granularity : Q;
  direction : Direction
}.

(** What the size asks for, in units, before rounding and clipping. *)
Inductive Req := NoReq | BuyAll | SellAll | Qty (q : Q).

Definition requested (st : SizeType) (sz : Size) (price value pos : Q) : Req :=
  match sz with
  | NaN => NoReq
  | PosInf => BuyAll
  | NegInf => SellAll
  | Num v =>
      match st with
      | SizeAmount => Qty v
      | SizeValue => Qty (v / price)
      | SizePercent => Qty (value * v / price)
      | SizeTargetPercent => Qty ((value * v - pos * price) / price)
      end
  end.

Definition is_sell_req (r : Req) : bool :=
  match r with
  | SellAll => true
  | Qty q => q <? 0
  | _ => false
  end.

(** Nearest multiple of the lot [g]. *)
Definition round_lot (g q : Q) : Q := inject_Z (Qfloor (q / g + (1 # 2))) * g.

(** Largest multiple of the lot [g] not above [q]. *)
Definition floor_lot (g q : Q) : Q := inject_Z (Qfloor (q / g)) * g.

(** Execution prices with slippage: buys pay more, sells receive less. *)
Definition buy_price (fm : FeeModel) (p : Q) : Q := p * (1 + slippage fm).
Definition sell_price (fm : FeeModel) (p : Q) : Q := p * (1 - slippage fm).

Definition order_fee (fm : FeeModel) (qty px : Q) : Q :=
  fees fm * (qty * px) + fixed_fees fm.

(** Units the cash pays for, fees included. *)
Definition max_affordable (fm : FeeModel) (cash p : Q) : Q :=
  (cash - fixed_fees fm) / (buy_price fm p * (1 + fees fm)).

Inductive SizingError := BelowMinSize | WouldOverdraw.

#[export] Instance SizingError_eq_dec : EqDecision SizingError.
Proof. solve_decision. Defined.

Inductive Outcome :=
  | Ignored
  | Rejected (e : SizingError)
  | Executed (qty px fee : Q).   (** Signed quantity, fill price, fee *)

(** The unsigned quantity a buy executes: the rounded request if its cost
    is covered, else the largest affordable lot; [BuyAll] takes the
    largest affordable lot. *)
Definition buy_qty (cfg : SizingConfig) (fm : FeeModel) (r : Req) (cash p : Q) : Q :=
  let g := size_granularity cfg in
  let aff := floor_lot g (max_affordable fm cash p) in
  match r with
  | Qty q =>
      let qr := round_lot g q in
      if qr * buy_price fm p + order_fee fm qr (buy_price fm p) <=? cash
      then qr else aff
  | _ => aff
  end.

(** The unsigned quantity a sell executes: the rounded request, at most the
    position when long only; [SellAll] sells the whole position. *)
Definition sell_qty (cfg : SizingConfig) (r : Req) (pos : Q) : Q :=
  match r with
  | Qty q =>
      let qr := - round_lot (size_granularity cfg) q in
      match direction cfg with
      | LongOnly => if qr <=? pos then qr else pos
      | Both => qr
      end
  | _ => pos
  end.

(** The final checks of an order of [u] units at fill price [px], a buy
    or a sell: a size below the minimum (or none at all) is rejected, and
    so is an order whose cash would go negative. *)
Definition settle (cfg : SizingConfig) (fm : FeeModel) (buy : bool) (u px cash : Q)
    : Outcome :=
  let fee := order_fee fm u px in
  let q := if buy then u else - u in
  if (u <=? 0) || (u <? min_size cfg) then Rejected BelowMinSize
  else if cash - q * px - fee <? 0 then Rejected WouldOverdraw
  else Executed q px fee.

Definition size_order (cfg : SizingConfig) (fm : FeeModel) (r : Req) (cash pos p : Q)
    : Outcome :=
  match r with
  | NoReq => Ignored
  | _ =>
      if is_sell_req r then settle cfg fm false (sell_qty cfg r pos) (sell_price fm p) cash
      else settle cfg fm true (buy_qty cfg fm r cash p) (buy_price fm p) cash
  end.

(** ** Lots *)

Definition is_lot (g q : Q) : Prop := exists k : Z, q == inject_Z k * g.

Lemma round_lot_is_lot (g q : Q) : is_lot g (round_lot g q).
Proof. eexists; reflexivity. Qed.

Lemma floor_lot_is_lot (g q : Q) : is_lot g (floor_lot g q).
Proof. eexists; reflexivity. Qed.

Lemma floor_lot_le (g q : Q) : 0 < g -> floor_lot g q <= q.
Proof.
  intros Hg. unfold floor_lot.
  pose proof (Qfloor_le (q / g)) as H.
  apply (Qmult_le_compat_r _ _ g) in H; [|lra].
  assert (E : q / g * g == q) by (field; lra). rewrite E in H. exact H.
Qed.

(** Rounding to the nearest lot moves a quantity by at most half a lot. *)
Lemma round_lot_bounds (g q : Q) : 0 < g -> q - (1 # 2) * g < round_lot g q <= q + (1 # 2) * g.
Proof.
  intros Hg. unfold round_lot.
  pose proof (Qfloor_le (q / g + (1 # 2))) as H1.
  pose proof (Qlt_floor (q / g + (1 # 2))) as H2. rewrite inject_Z_plus in H2.
  set (F := inject_Z (Qfloor (q / g + (1 # 2)))) in *.
  assert (E : (q / g + (1 # 2)) * g == q + (1 # 2) * g) by (field; lra).
  split.
  - apply (Qmult_lt_compat_r _ _ g) in H2; [|exact Hg].
    assert (E' : (F + inject_Z 1) * g == F * g + g) by (simpl; ring).
    rewrite E', E in H2. lra.
  - apply (Qmult_le_compat_r _ _ g) in H1; [|lra]. rewrite E in H1. exact H1.
Qed.

Lemma round_lot_comp (g x y : Q) : x == y -> round_lot g x == round_lot g y.
Proof.
  intros H. unfold round_lot.
  assert (E : x / g + (1 # 2) == y / g + (1 # 2)) by (rewrite H; reflexivity).
  rewrite (Qfloor_comp _ _ E). reflexivity.
Qed.

(** A whole number of units rounds to itself. *)
Lemma round_lot_unit (k : Z) : round_lot 1 (inject_Z k) == inject_Z k.
Proof.
  unfold round_lot.
  pose proof (Qfloor_le (inject_Z k / 1 + (1 # 2))) as H1.
  pose proof (Qlt_floor (inject_Z k / 1 + (1 # 2))) as H2.
  set (F := Qfloor (inject_Z k / 1 + (1 # 2))) in *.
  assert (E : inject_Z k / 1 == inject_Z k) by field. rewrite E in H1, H2.
  rewrite inject_Z_plus in H2.
  assert (HF : F = k).
  { destruct (Z.lt_trichotomy F k) as [Hlt | [Heq | Hgt]]; [exfalso | exact Heq | exfalso].
    - assert (Hq : inject_Z (F + 1) <= inject_Z k) by (rewrite <- Zle_Qle; lia).
      rewrite inject_Z_plus in Hq. change (inject_Z 1) with 1 in Hq, H2. lra.
    - assert (Hq : inject_Z (k + 1) <= inject_Z F) by (rewrite <- Zle_Qle; lia).
      rewrite inject_Z_plus in Hq. change (inject_Z 1) with 1 in Hq, H2. lra. }
  rewrite HF. ring.
Qed.

(** A positive whole number of units is at least one unit. *)
Lemma is_lot_pos_ge1 (q : Q) : is_lot 1 q -> 0 < q -> 1 <= q.
Proof.
  intros [k Hk] Hq. rewrite Hk in Hq |- *. rewrite Qmult_1_r in Hq |- *.
  assert (H0 : (0 < k)%Z) by (rewrite Zlt_Qlt; exact Hq).
  assert (H1 : (1 <= k)%Z) by lia. rewrite Zle_Qle in H1. exact H1.
Qed.

Lemma is_lot_add (g a b : Q) : is_lot g a -> is_lot g b -> is_lot g (a + b).
Proof. intros [k1 H1] [k2 H2]. exists (k1 + k2)%Z. rewrite H1, H2, inject_Z_plus. ring. Qed.

Lemma is_lot_eq (g a b : Q) : a == b -> is_lot g b -> is_lot g a.
Proof. intros H [k Hk]. exists k. rewrite H. exact Hk. Qed.

(** A non-negative whole number of units is none or at least one. *)
Lemma is_lot_nonneg_cases (q : Q) : is_lot 1 q -> 0 <= q -> q == 0 \/ 1 <= q.
Proof.
  intros Hl Hq. destruct (Qlt_le_dec 0 q) as [Hp|Hn]; [right; exact (is_lot_pos_ge1 q Hl Hp)|].
  left. lra.
Qed.

Lemma is_lot_opp (g q : Q) : is_lot g q -> is_lot g (- q).
Proof.
  intros [k Hk]. exists (- k)%Z. rewrite Hk, inject_Z_opp. ring.
Qed.

Lemma is_lot_plus (g a b : Q) : is_lot g a -> is_lot g b -> is_lot g (a + b).
Proof.
  intros [k Hk] [m Hm]. exists (k + m)%Z. rewrite Hk, Hm, inject_Z_plus. ring.
Qed.

Lemma is_lot_zero (g : Q) : is_lot g 0.
Proof. exists 0%Z. reflexivity. Qed.

#[export] Hint Resolve round_lot_is_lot floor_lot_is_lot is_lot_opp is_lot_plus
  is_lot_zero : bt.

(** ** What an executed order satisfies *)

Section SizerLemmas.

Lemma settle_executed (cfg : SizingConfig) (fm : FeeModel) (buy : bool) (u px cash q p' fee : Q) :
  settle cfg fm buy u px cash = Executed q p' fee ->
  0 < u /\ min_size cfg <= u /\ q = (if buy then u else - u) /\ p' = px /\
  fee = order_fee fm u px /\ 0 <= cash - q * px - fee.
Proof.
  unfold settle. intros H.
  destruct (u <=? 0) eqn:E1; simpl in H; [discriminate|].
  destruct (u <? min_size cfg) eqn:E2; simpl in H; [discriminate|].
  destruct (_ <? 0) eqn:E3; [discriminate|].
  injection H as <- <- <-.
  apply Qle_bool_false in E1. apply Qltb_false in E2. apply Qltb_false in E3.
  repeat split; assumption.
Qed.

Lemma settle_not_overdraw (cfg : SizingConfig) (fm : FeeModel) (buy : bool) (u px cash : Q) :
  0 <= cash - (if buy then u else - u) * px - order_fee fm u px ->
  settle cfg fm buy u px cash <> Rejected WouldOverdraw.
Proof.
  unfold settle. intros H.
  destruct (_ || _); [discriminate|].
  destruct (_ <? 0) eqn:E; [|discriminate].
  apply Qltb_iff in E. lra.
Qed.

Lemma sell_qty_le_pos (cfg : SizingConfig) (r : Req) (pos : Q) :
  direction cfg = LongOnly -> sell_qty cfg r pos <= pos.
Proof.
  intros Hd. unfold sell_qty. destruct r; try apply Qle_refl.
  rewrite Hd. case_cmp; lra.
Qed.

Lemma sell_qty_lot (cfg : SizingConfig) (r : Req) (pos : Q) :
  is_lot (size_granularity cfg) pos -> is_lot (size_granularity cfg) (sell_qty cfg r pos).
Proof.
  intros Hp. unfold sell_qty. destruct r; auto.
  destruct (direction cfg); [case_cmp|]; auto with bt.
Qed.

Lemma buy_qty_lot (cfg : SizingConfig) (fm : FeeModel) (r : Req) (cash p : Q) :
  is_lot (size_granularity cfg) (buy_qty cfg fm r cash p).
Proof. unfold buy_qty. destruct r; [..|case_cmp]; auto with bt. Qed.

(** The largest affordable lot costs at most the cash. *)
Lemma floor_lot_affordable (fm : FeeModel) (g cash p : Q) :
  0 < g -> 0 < p -> 0 <= fees fm -> 0 <= slippage fm ->
  0 <= cash - floor_lot g (max_affordable fm cash p) * buy_price fm p
       - order_fee fm (floor_lot g (max_affordable fm cash p)) (buy_price fm p).
Proof.
  intros Hg Hp Hf Hs.
  set (a := floor_lot g (max_affordable fm cash p)).
  set (b := buy_price fm p).
  assert (Hb : 0 < b) by (unfold b, buy_price; apply Qmult_lt_0_compat; lra).
  assert (HD : 0 < b * (1 + fees fm)) by (apply Qmult_lt_0_compat; lra).
  assert (Hle : a * (b * (1 + fees fm)) <= cash - fixed_fees fm).
  { pose proof (floor_lot_le g (max_affordable fm cash p) Hg) as H. fold a in H.
    apply (Qmult_le_compat_r _ _ (b * (1 + fees fm))) in H; [|lra].
    unfold max_affordable in H. fold b in H.
    assert (E : (cash - fixed_fees fm) / (b * (1 + fees fm)) * (b * (1 + fees fm))
                == cash - fixed_fees fm) by (field; split; lra).
    rewrite E in H. exact H. }
  unfold order_fee.
  assert (E2 : a * (b * (1 + fees fm)) == a * b + fees fm * (a * b)) by ring.
  rewrite E2 in Hle. lra.
Qed.

(** A sell of a positive quantity at a positive price, without fixed fee
    and with a proportional fee of at most 100%, always settles. *)
Lemma settle_sell_executes (cfg : SizingConfig) (fm : FeeModel) (u px cash : Q) :
  0 <= cash -> 0 < px -> 0 <= fees fm <= 1 -> fixed_fees fm == 0 ->
  0 < u -> min_size cfg <= u ->
  settle cfg fm false u px cash = Executed (- u) px (order_fee fm u px).
Proof.
  intros Hc Hp Hf Hx Hu Hm. unfold settle.
  destruct (u <=? 0) eqn:E1; [apply Qle_bool_iff in E1; lra|].
  destruct (u <? min_size cfg) eqn:E2; [apply Qltb_iff in E2; lra|]. simpl.
  destruct (_ <? 0) eqn:E3; [|reflexivity].
  apply Qltb_iff in E3. exfalso. unfold order_fee in E3. rewrite Hx in E3.
  assert (0 < u * px) by (apply Qmult_lt_0_compat; assumption).
  assert (fees fm * (u * px) <= u * px).
  { rewrite <- (Qmult_1_l (u * px)) at 2. apply Qmult_le_compat_r; lra. }
  lra.
Qed.

(** A buy request whose rounded lot the cash covers, fees included,
    executes that lot at the buy price. *)
Lemma size_order_buy_exec (cfg : SizingConfig) (fm : FeeModel) (x cash pos p : Q) :
  0 <= x -> 0 < round_lot (size_granularity cfg) x ->
  min_size cfg <= round_lot (size_granularity cfg) x ->
  round_lot (size_granularity cfg) x * buy_price fm p
    + order_fee fm (round_lot (size_granularity cfg) x) (buy_price fm p) <= cash ->
  size_order cfg fm (Qty x) cash pos p
  = Executed (round_lot (size_granularity cfg) x) (buy_price fm p)
      (order_fee fm (round_lot (size_granularity cfg) x) (buy_price fm p)).
Proof.
  intros Hx H0 Hm Hc. unfold size_order, is_sell_req.
  rewrite (proj2 (Qltb_false _ _) Hx). unfold buy_qty.
  rewrite (proj2 (Qle_bool_iff _ _) Hc). unfold settle.
  rewrite (proj2 (Qle_bool_false _ _) H0), (proj2 (Qltb_false _ _) Hm). simpl.
  rewrite (proj2 (Qltb_false _ _)); [reflexivity | lra].
Qed.

End SizerLemmas.

(** ** Theorems of the sizer *)

Section SizerTheorems.
Context (cfg : SizingConfig) (fm : FeeModel).

(** An executed order never drives the cash below zero, trades at
    least [min_size] units, and, long only, never sells more than the
    position. *)
Theorem size_order_executed_safe (r : Req) (cash pos p q px fee : Q) :
  size_order cfg fm r cash pos p = Executed q px fee ->
  0 <= cash - q * px - fee /\
  ((0 < q /\ min_size cfg <= q) \/ (q < 0 /\ min_size cfg <= - q)) /\
  (direction cfg = LongOnly -> 0 <= pos -> 0 <= pos + q).
Proof.
  intros H. unfold size_order in H.
  destruct r; [discriminate| | |]; destruct (is_sell_req _) eqn:Es;
    apply settle_executed in H as (Hu & Hmin & -> & -> & -> & Hc);
    (split; [assumption|]);
    (split; [first [left; split; lra | right; split; lra]|]);
    intros Hd Hpos; try lra;
    match goal with
    | |- context [sell_qty cfg ?r pos] => pose proof (sell_qty_le_pos cfg r pos Hd)
    end; lra.
Qed.


(** An executed quantity is a whole number of lots, provided the
    position it may close is one. *)
Theorem size_order_lot (r : Req) (cash pos p q px fee : Q) :
  is_lot (size_granularity cfg) pos ->
  size_order cfg fm r cash pos p = Executed q px fee ->
  is_lot (size_granularity cfg) q.
Proof.
  intros Hpos H. unfold size_order in H.
  destruct r; [discriminate| | |]; destruct (is_sell_req _) eqn:Es;
    apply settle_executed in H as (_ & _ & -> & _);
    auto using is_lot_opp, sell_qty_lot, buy_qty_lot.
Qed.


(** A buy is never rejected for overdrawing the cash: when the
    rounded request costs more than the cash, the sizer has already cut
    it to the largest affordable lot (spec 4.2). *)
Theorem buy_never_overdraws (r : Req) (cash pos p : Q) :
  0 < size_granularity cfg -> 0 < p -> 0 <= fees fm -> 0 <= slippage fm ->
  is_sell_req r = false ->
  size_order cfg fm r cash pos p <> Rejected WouldOverdraw.
Proof.
  intros Hg Hp Hf Hs Hb.
  destruct r as [| | |q]; [discriminate | | discriminate Hb |];
    unfold size_order; rewrite Hb; apply settle_not_overdraw; cbv beta iota; unfold buy_qty.
  - apply floor_lot_affordable; assumption.
  - case_cmp; [lra | apply floor_lot_affordable; assumption].
Qed.

End SizerTheorems.

Lemma size_order_executed_safe_witness :
  let cfg1 := mkSizingConfig SizeAmount 1 1 LongOnly in
  let fm0 := mkFeeModel 0 0 0 in
  size_order cfg1 fm0 (Qty 2) 100 0 10 = Executed 2 10 0 /\
  0 <= 100 - 2 * 10 - 0 /\
  ((0 < 2 /\ min_size cfg1 <= 2) \/ (2 < 0 /\ min_size cfg1 <= - 2)) /\
  (direction cfg1 = LongOnly -> 0 <= 0 -> 0 <= 0 + 2).
Proof.
  intros cfg1 fm0.
  assert (H : size_order cfg1 fm0 (Qty 2) 100 0 10 = Executed 2 10 0) by reflexivity.
  split; [exact H|].
  exact (size_order_executed_safe cfg1 fm0 (Qty 2) 100 0 10 2 10 0 H).
Defined.

Lemma size_order_lot_witness :
  let cfg1 := mkSizingConfig SizeAmount 1 1 LongOnly in
  let fm0 := mkFeeModel 0 0 0 in
  is_lot 1 5 /\ size_order cfg1 fm0 SellAll 100 5 10 = Executed (-5) 10 0 /\
  is_lot (size_granularity cfg1) (-5).
Proof.
  intros cfg1 fm0.
  assert (Hl : is_lot 1 5) by (exists 5%Z; reflexivity).
  assert (H : size_order cfg1 fm0 SellAll 100 5 10 = Executed (-5) 10 0) by reflexivity.
  split; [exact Hl|]. split; [exact H|].
  exact (size_order_lot cfg1 fm0 SellAll 100 5 10 (-5) 10 0 Hl H).
Defined.

Lemma buy_never_overdraws_witness :
  let cfg1 := mkSizingConfig SizePercent 1 1 LongOnly in
  let fm1 := mkFeeModel (1 # 100) 0 0 in
  0 < size_granularity cfg1 /\ 0 < 50 /\ is_sell_req (Qty 2) = false /\
  size_order cfg1 fm1 (Qty 2) 100 0 50 <> Rejected WouldOverdraw.
Proof.
  intros cfg1 fm1. split; [reflexivity|]. split; [reflexivity|]. split; [reflexivity|].
  apply (buy_never_overdraws cfg1 fm1 (Qty 2) 100 0 50); try reflexivity; simpl; lra.
Defined.
