(* ===== verification/Ledger.v ===== *)
(** * Ledger: the bar-by-bar fill simulator of the engine (spec 4.3)

    The state of one run is a [Ledger]: the cash of the group (one pool
    shared by all columns, [cash_sharing=True]; a single-column run is a
    group of one), the signed position of each column, the append-only log
    of fills, and the count of orders the sizer rejected (the spec's
    SizingError warnings). [exec_col] is one order of one column: size it
    ([Sizing.size_order]) at the ledger's current state, then update cash,
    position and log. [bar_step] runs the orders of a bar in the "auto"
    call order, sells first ([call_seq_auto]); [simulate] folds bars and
    marks the group to market after each one, which gives the equity
    curve. [from_orders] and [from_signals] are the two entry points the
    scripts call. Fills happen at the price the script passes as [close]
    (the rotation script passes open prices), which is also the mark. *)

From Stdlib Require Import QArith Qround Lqa List Permutation Lia Sorting.Sorted.
From stdpp Require Import base list.
From S2P Require Import Prelude Sizing.
Import ListNotations.
Open Scope Q_scope.
Open Scope bt_scope.

Record Fill := mkFill {
  fill_bar : nat;
  fill_col : nat;
  fill_qty : Q;      (** Signed: positive buys, negative sells *)
  fill_price : Q;
  fill_fee : Q;
  fill_cash : Q      (** Cash balance after the fill *)
}.

Record Ledger := mkLedger {
  cash : Q;
  positions : list Q;
  fills : list Fill;
  warnings : nat
}.

Definition init_ledger (init_cash : Q) (ncols : nat) : Ledger :=
  mkLedger init_cash (repeat 0 ncols) [] 0.

(** Mark-to-market value of the group: cash plus every position at its
    price (the spec's accounting identity, never computed otherwise). *)
Definition value (L : Ledger) (prices : list Q) : Q :=
  cash L + dotQ (positions L) prices.

Definition fees_paid (L : Ledger) : Q := Σ (map fill_fee (fills L)).

(** One bar of [from_orders]: a price and a size per column. *)
Record Bar := mkBar { bar_price : list Q; bar_size : list Size }.

(** The request of column [i] at the ledger's current state; sizes in
    percent refer to the group's current value. *)
Definition col_req (cfg : SizingConfig) (b : Bar) (L : Ledger) (i : nat) : Req :=
  requested (size_type cfg) (nth i (bar_size b) NaN) (nth i (bar_price b) 0)
    (value L (bar_price b)) (nth i (positions L) 0).

(** The effect of a sized order on the ledger. *)
Definition apply_outcome (t i : nat) (L : Ledger) (o : Outcome) : Ledger :=
  match o with
  | Ignored => L
  | Rejected _ => mkLedger (cash L) (positions L) (fills L) (S (warnings L))
  | Executed q px fee =>
      let c' := cash L - q * px - fee in
      mkLedger c' (<[i := nth i (positions L) 0 + q]> (positions L))
        (fills L ++ [mkFill t i q px fee c']) (warnings L)
  end.

Definition exec_col (cfg : SizingConfig) (fm : FeeModel) (t : nat) (b : Bar)
    (L : Ledger) (i : nat) : Ledger :=
  apply_outcome t i L
    (size_order cfg fm (col_req cfg b L i) (cash L) (nth i (positions L) 0)
       (nth i (bar_price b) 0)).

(** [call_seq="auto"]: the columns whose order sells, then the others,
    each in column order; the side is read at the start of the bar. *)
Definition call_seq_auto (cfg : SizingConfig) (b : Bar) (L : Ledger) : list nat :=
  let cols := seq 0 (length (bar_price b)) in
  List.filter (fun i => is_sell_req (col_req cfg b L i)) cols
  ++ List.filter (fun i => negb (is_sell_req (col_req cfg b L i))) cols.

Definition bar_step (cfg : SizingConfig) (fm : FeeModel) (t : nat) (b : Bar)
    (L : Ledger) : Ledger :=
  fold_left (exec_col cfg fm t b) (call_seq_auto cfg b L) L.

(** ** Runs *)

Section Simulate.
Context {B : Type} (step : nat -> B -> Ledger -> Ledger) (marks : B -> list Q).

(** Bars in order from bar [t]; after each bar the group is marked to
    market at that bar's prices. Returns the equity curve and the final
    ledger. *)
Fixpoint simulate (t : nat) (bars : list B) (L : Ledger) : list Q * Ledger :=
  match bars with
  | [] => ([], L)
  | b :: bs =>
      let L' := step t b L in
      let r := simulate (S t) bs L' in
      (value L' (marks b) :: fst r, snd r)
  end.

(** The ledger after each bar ([pf.cash()] and [pf.assets()] read it). *)
Fixpoint sim_states (t : nat) (bars : list B) (L : Ledger) : list Ledger :=
  match bars with
  | [] => []
  | b :: bs => let L' := step t b L in L' :: sim_states (S t) bs L'
  end.

End Simulate.

Definition ncols_of (bars : list Bar) : nat :=
  match bars with [] => 0%nat | b :: _ => length (bar_price b) end.

(** [vbt.Portfolio.from_orders(close, size, size_type, fees, init_cash,
    cash_sharing=True, call_seq="auto", group_by=True, min_size,
    size_granularity)]. *)
Definition from_orders (cfg : SizingConfig) (fm : FeeModel) (init_cash : Q)
    (bars : list Bar) : list Q * Ledger :=
  simulate (bar_step cfg fm) bar_price 0 bars (init_ledger init_cash (ncols_of bars)).

(** One bar of [from_signals] on one column. *)
Record SigBar := mkSigBar {
  sb_price : Q; sb_entry : bool; sb_exit : bool; sb_size : Size
}.

(** The order a signal bar asks for, long only: an entry buys [size]
    (only from a flat position unless [accumulate]); an exit sells the
    whole position, or [size] of it when [accumulate]; an entry and an
    exit on the same bar cancel. *)
Definition signal_size (accumulate entry exit : bool) (sz : Size) (pos : Q) : Size :=
  if entry && exit then NaN
  else if entry then (if accumulate || (pos =?= 0) then sz else NaN)
  else if exit then
    (if 0 <? pos then (if accumulate then neg_size sz else NegInf) else NaN)
  else NaN.

Definition signal_step (cfg : SizingConfig) (fm : FeeModel) (accumulate : bool)
    (t : nat) (sb : SigBar) (L : Ledger) : Ledger :=
  exec_col cfg fm t
    (mkBar [sb_price sb]
       [signal_size accumulate (sb_entry sb) (sb_exit sb) (sb_size sb)
          (nth 0 (positions L) 0)]) L 0.

(** [vbt.Portfolio.from_signals(close, entries, exits, size, size_type,
    accumulate, direction="longonly", fees, init_cash, min_size,
    size_granularity)]. *)
Definition from_signals (cfg : SizingConfig) (fm : FeeModel) (accumulate : bool)
    (init_cash : Q) (bars : list SigBar) : list Q * Ledger :=
  simulate (signal_step cfg fm accumulate) (fun sb => [sb_price sb]) 0 bars
    (init_ledger init_cash 1).

(** ** The accounting of one order *)

Definition ledger_ok (cfg : SizingConfig) (L : Ledger) : Prop :=
  0 <= cash L /\ Forall (fun f => 0 <= fill_cash f) (fills L) /\
  (direction cfg = LongOnly -> Forall (fun q => 0 <= q) (positions L)).

Section OrderLemmas.
Context (cfg : SizingConfig) (fm : FeeModel).

Lemma dotQ_insert (xs ys : list Q) (i : nat) (x : Q) :
  (i < length xs)%nat ->
  dotQ (<[i:=x]> xs) ys == dotQ xs ys + (x - nth i xs 0) * nth i ys 0.
Proof.
  revert i ys; induction xs as [|a xs IH]; intros [|i] [|y ys] Hi; simpl in *;
    try lia; try ring.
  rewrite IH by lia. ring.
Qed.

Lemma apply_outcome_value (t i : nat) (L : Ledger) (q px fee : Q) (prices : list Q) :
  (i < length (positions L))%nat ->
  value (apply_outcome t i L (Executed q px fee)) prices
  == value L prices - fee - q * (px - nth i prices 0).
Proof. intros Hi. unfold value; simpl. rewrite dotQ_insert by exact Hi. ring. Qed.

Lemma apply_outcome_fees (t i : nat) (L : Ledger) (q px fee : Q) :
  fees_paid (apply_outcome t i L (Executed q px fee)) == fees_paid L + fee.
Proof. unfold fees_paid; simpl. rewrite map_app, sumQ_app. simpl. ring. Qed.

Lemma size_order_price (r : Req) (c pos p q px fee : Q) :
  size_order cfg fm r c pos p = Executed q px fee ->
  px = buy_price fm p \/ px = sell_price fm p.
Proof.
  unfold size_order. intros H.
  destruct r; [discriminate| | |]; destruct (is_sell_req _);
    apply settle_executed in H; intuition.
Qed.

Lemma exec_col_length (t : nat) (b : Bar) (L : Ledger) (i : nat) :
  length (positions (exec_col cfg fm t b L i)) = length (positions L).
Proof.
  unfold exec_col. destruct (size_order _ _ _ _ _ _); simpl; auto using length_insert.
Qed.

(** Without slippage, an order moves value into fees and nothing else. *)
Lemma exec_col_value_fees (t : nat) (b : Bar) (L : Ledger) (i : nat) :
  slippage fm == 0 -> (i < length (positions L))%nat ->
  value (exec_col cfg fm t b L i) (bar_price b) + fees_paid (exec_col cfg fm t b L i)
  == value L (bar_price b) + fees_paid L.
Proof.
  intros Hs Hi. unfold exec_col.
  destruct (size_order _ _ _ _ _ _) as [|e|q px fee] eqn:E; [reflexivity|reflexivity|].
  rewrite apply_outcome_value, apply_outcome_fees by exact Hi.
  apply size_order_price in E as [-> | ->]; unfold buy_price, sell_price; rewrite Hs; ring.
Qed.

Lemma exec_col_ok (t : nat) (b : Bar) (L : Ledger) (i : nat) :
  ledger_ok cfg L -> ledger_ok cfg (exec_col cfg fm t b L i).
Proof.
  intros (Hc & Hf & Hp). unfold exec_col.
  destruct (size_order _ _ _ _ _ _) as [|e|q px fee] eqn:E;
    [exact (conj Hc (conj Hf Hp)) | exact (conj Hc (conj Hf Hp)) |].
  apply size_order_executed_safe in E as (Hc' & _ & Hl).
  split; [exact Hc'|]. split.
  - apply Forall_app; split; [exact Hf | constructor; [exact Hc' | constructor]].
  - intros Hd. apply Forall_insert; [apply Hp, Hd|].
    apply Hl; [exact Hd | apply nth_nonneg, Hp, Hd].
Qed.

Lemma call_seq_auto_in (b : Bar) (L : Ledger) (i : nat) :
  In i (call_seq_auto cfg b L) -> (i < length (bar_price b))%nat.
Proof. unfold call_seq_auto. rewrite in_app_iff, !filter_In, in_seq. lia. Qed.

Lemma bar_step_ok (t : nat) (b : Bar) (L : Ledger) :
  ledger_ok cfg L -> ledger_ok cfg (bar_step cfg fm t b L).
Proof.
  intros H. unfold bar_step. apply fold_left_inv; [|exact H].
  intros L' i _. apply exec_col_ok.
Qed.

Lemma bar_step_length (t : nat) (b : Bar) (L : Ledger) :
  length (positions (bar_step cfg fm t b L)) = length (positions L).
Proof.
  unfold bar_step. apply (fold_left_inv _ (fun L' => length (positions L') = _)); [|reflexivity].
  intros L' i _ H. rewrite exec_col_length. exact H.
Qed.

(** How an outcome moves the position of its column. *)
Definition outcome_qty (o : Outcome) : Q :=
  match o with Executed q _ _ => q | _ => 0 end.

Lemma apply_outcome_position (t i : nat) (L : Ledger) (o : Outcome) :
  (i < length (positions L))%nat ->
  nth i (positions (apply_outcome t i L o)) 0 == nth i (positions L) 0 + outcome_qty o.
Proof.
  intros Hi. destruct o as [|e|q px fee]; simpl; try ring.
  rewrite nth_lookup, list_lookup_insert_eq by exact Hi. simpl. reflexivity.
Qed.

Lemma apply_outcome_length (t i : nat) (L : Ledger) (o : Outcome) :
  length (positions (apply_outcome t i L o)) = length (positions L).
Proof. destruct o; simpl; auto using length_insert. Qed.

(** An order of column [i] leaves every other column's position alone. *)
Lemma exec_col_other (t : nat) (b : Bar) (L : Ledger) (i j : nat) :
  i <> j -> nth j (positions (exec_col cfg fm t b L i)) 0 = nth j (positions L) 0.
Proof.
  intros Hij. unfold exec_col. destruct (size_order _ _ _ _ _ _); simpl; try reflexivity.
  destruct (decide (i < length (positions L))%nat) as [Hi | Hi].
  - destruct (decide (j < length (positions L))%nat) as [Hj | Hj].
    + rewrite !nth_lookup, list_lookup_insert_ne by exact Hij. reflexivity.
    + rewrite !nth_overflow by (rewrite ?length_insert; lia). reflexivity.
  - rewrite list_insert_ge by lia. reflexivity.
Qed.

(** A bar whose orders all buy runs its columns in column order. *)
Lemma call_seq_auto_no_sells (b : Bar) (L : Ledger) :
  (forall i, (i < length (bar_price b))%nat -> is_sell_req (col_req cfg b L i) = false) ->
  call_seq_auto cfg b L = seq 0 (length (bar_price b)).
Proof.
  intros H. unfold call_seq_auto.
  rewrite filter_all_false, filter_all_true; [reflexivity| |];
    intros i Hi; apply in_seq in Hi; rewrite H by lia; reflexivity.
Qed.

End OrderLemmas.

(** ** Runs *)

Section SimulateLemmas.
Context {B : Type} (step : nat -> B -> Ledger -> Ledger) (marks : B -> list Q).

Lemma simulate_length (t : nat) (bars : list B) (L : Ledger) :
  length (fst (simulate step marks t bars L)) = length bars.
Proof.
  revert t L; induction bars as [|b bs IH]; intros t L; simpl; [reflexivity|].
  rewrite IH. reflexivity.
Qed.

(** The ledger after one more bar is one step from the ledger before it. *)
Lemma simulate_snoc (t : nat) (bars : list B) (b : B) (L : Ledger) :
  snd (simulate step marks t (bars ++ [b]) L)
  = step (t + length bars) b (snd (simulate step marks t bars L)).
Proof.
  revert t L; induction bars as [|b0 bs IH]; intros t L; cbn [app simulate snd length].
  - f_equal. lia.
  - rewrite IH. f_equal. lia.
Qed.

Lemma simulate_prefix (k t : nat) (bars : list B) (L : Ledger) :
  fst (simulate step marks t (firstn k bars) L) = firstn k (fst (simulate step marks t bars L)).
Proof.
  revert k t L; induction bars as [|b bs IH]; intros [|k] t L; simpl; try reflexivity.
  f_equal. apply IH.
Qed.

(** A property of ledgers kept by every bar holds after the run, and a
    property it implies of the marked value holds at every point of the
    equity curve. *)
Lemma simulate_forall (P : Ledger -> Prop) (R : Q -> Prop) (t : nat) (bars : list B) (L : Ledger) :
  (forall t b L, In b bars -> P L -> P (step t b L)) ->
  (forall b L, In b bars -> P L -> R (value L (marks b))) ->
  P L ->
  Forall R (fst (simulate step marks t bars L)) /\ P (snd (simulate step marks t bars L)).
Proof.
  revert t L; induction bars as [|b bs IH]; intros t L Hs Hr HP; simpl;
    [split; [constructor | exact HP]|].
  assert (HP' : P (step t b L)) by (apply Hs; simpl; auto).
  destruct (IH (S t) (step t b L)) as [H1 H2];
    [intros; apply Hs; simpl; auto | intros; apply Hr; simpl; auto | exact HP' |].
  split; [constructor; [apply Hr; simpl; auto | exact H1] | exact H2].
Qed.

(** The equity curve is the ledger after each bar marked at that bar. *)
Lemma simulate_states (t : nat) (bars : list B) (L : Ledger) :
  fst (simulate step marks t bars L)
  = map (fun '(L', b) => value L' (marks b)) (combine (sim_states step t bars L) bars).
Proof.
  revert t L; induction bars as [|b bs IH]; intros t L; simpl; [reflexivity|].
  rewrite IH. reflexivity.
Qed.

(** A property of ledgers kept by every bar holds after every bar. *)
Lemma sim_states_forall (P : Ledger -> Prop) (t : nat) (bars : list B) (L : Ledger) :
  (forall t b L, In b bars -> P L -> P (step t b L)) -> P L ->
  Forall P (sim_states step t bars L).
Proof.
  revert t L; induction bars as [|b bs IH]; intros t L Hs HP; simpl; [constructor|].
  assert (HP' : P (step t b L)) by (apply Hs; [left; reflexivity | exact HP]).
  constructor; [exact HP'|]. apply IH; [intros; apply Hs; [right; assumption | assumption] | exact HP'].
Qed.

Lemma sim_states_length (t : nat) (bars : list B) (L : Ledger) :
  length (sim_states step t bars L) = length bars.
Proof. revert t L; induction bars; intros; simpl; [reflexivity | f_equal; apply IHbars]. Qed.

End SimulateLemmas.

Lemma init_ledger_ok (cfg : SizingConfig) (c : Q) (n : nat) :
  0 <= c -> ledger_ok cfg (init_ledger c n).
Proof.
  intros Hc. split; [exact Hc|]. split; [constructor|].
  intros _. simpl. induction n as [|n IH]; constructor; [apply Qle_refl | exact IH].
Qed.

Lemma value_init (c : Q) (k : nat) (prices : list Q) : value (init_ledger c k) prices == c.
Proof. unfold value; simpl. rewrite dotQ_repeat_0. ring. Qed.

(** ** Closing a column with a zero target *)

(** A loop over columns that visits column [i] closes it, when the other
    columns leave it alone and the visit of [i] closes it from any state
    of an invariant the loop keeps. *)
Lemma fold_left_close (f : Ledger -> nat -> Ledger) (Inv : Ledger -> Prop) (i : nat)
    (l : list nat) (L : Ledger) :
  (forall L j, Inv L -> Inv (f L j)) ->
  (forall L j, j <> i -> nth i (positions (f L j)) 0 = nth i (positions L) 0) ->
  (forall L, Inv L -> nth i (positions (f L i)) 0 == 0) ->
  Inv L -> In i l -> nth i (positions (fold_left f l L)) 0 == 0.
Proof.
  intros Hinv Hother Hclose. revert L; induction l as [|j l IH]; intros L HL Hin; [destruct Hin|].
  simpl. destruct (decide (j = i)) as [-> | Hne].
  - refine (proj2 (fold_left_inv _ (fun L' => Inv L' /\ nth i (positions L') 0 == 0) _ _ _
                      (conj (Hinv L i HL) (Hclose L HL)))).
    intros L' j' _ [HI H0]. split; [auto|].
    destruct (decide (j' = i)) as [-> | Hne']; [auto | rewrite Hother by exact Hne'; exact H0].
  - destruct Hin as [-> | Hin]; [congruence|]. apply IH; auto.
Qed.

Section CloseColumn.
Context (cfg : SizingConfig) (fm : FeeModel).
Hypothesis Hst : size_type cfg = SizeTargetPercent.
Hypothesis Hg : size_granularity cfg = 1.
Hypothesis Hmin : min_size cfg <= 1.
Hypothesis Hdir : direction cfg = Both.
Hypothesis Hfee : 0 <= fees fm <= 1.
Hypothesis Hfix : fixed_fees fm == 0.
Hypothesis Hslip : slippage fm == 0.

(** An order for minus a whole position closes it: a positive position
    is sold entirely, a zero one is left alone. *)
Lemma size_order_close (x cash pos p : Q) :
  0 <= cash -> 0 < p -> 0 <= pos -> is_lot 1 pos -> x == - pos ->
  outcome_qty (size_order cfg fm (Qty x) cash pos p) == - pos.
Proof.
  intros Hc Hp Hpos Hlot Hx.
  assert (Hr : round_lot 1 x == - pos).
  { destruct Hlot as [k Hk]. rewrite (round_lot_comp 1 x (inject_Z (- k))).
    - rewrite round_lot_unit, inject_Z_opp, Hk. ring.
    - rewrite Hx, Hk, inject_Z_opp. ring. }
  unfold size_order, is_sell_req. destruct (Qlt_le_dec 0 pos) as [Hpos' | Hpos'].
  - rewrite (proj2 (Qltb_iff _ _)) by lra. unfold sell_qty. rewrite Hdir, Hg.
    assert (Hu : - round_lot 1 x == pos) by (rewrite Hr; ring).
    assert (Hpx : 0 < sell_price fm p) by (unfold sell_price; rewrite Hslip; lra).
    pose proof (is_lot_pos_ge1 pos Hlot Hpos').
    rewrite settle_sell_executes by (try assumption; rewrite Hu; lra).
    cbn [outcome_qty]. rewrite Hu. reflexivity.
  - rewrite (proj2 (Qltb_false _ _)) by lra. unfold settle, buy_qty. rewrite Hg.
    rewrite (proj2 (Qle_bool_iff (round_lot 1 x * _ + _) _))
      by (unfold order_fee; rewrite Hr, Hfix; assert (E : - pos == 0) by lra; rewrite E; lra).
    rewrite (proj2 (Qle_bool_iff (round_lot 1 x) 0)) by lra. cbn [orb outcome_qty]. lra.
Qed.

Lemma exec_col_target_zero (t : nat) (b : Bar) (L : Ledger) (i : nat) :
  nth i (bar_size b) NaN = Num 0 -> 0 < nth i (bar_price b) 0 ->
  0 <= cash L -> 0 <= nth i (positions L) 0 -> is_lot 1 (nth i (positions L) 0) ->
  (i < length (positions L))%nat ->
  nth i (positions (exec_col cfg fm t b L i)) 0 == 0.
Proof.
  intros Hs Hp Hc Hpos Hlot Hi. unfold exec_col.
  rewrite apply_outcome_position by exact Hi.
  unfold col_req. rewrite Hs, Hst. simpl requested.
  rewrite size_order_close; [ring | assumption.. |].
  field. lra.
Qed.

(** A bar whose size for column [i] is a zero target closes column [i],
    from any ledger whose position there is a non-negative whole number
    of units: every other order of the bar leaves column [i] alone. *)
Lemma bar_step_target_zero (t : nat) (b : Bar) (L : Ledger) (i : nat) :
  nth i (bar_size b) NaN = Num 0 -> 0 < nth i (bar_price b) 0 ->
  ledger_ok cfg L -> 0 <= nth i (positions L) 0 -> is_lot 1 (nth i (positions L) 0) ->
  length (positions L) = length (bar_price b) -> (i < length (bar_price b))%nat ->
  nth i (positions (bar_step cfg fm t b L)) 0 == 0.
Proof.
  intros Hs Hp HL Hpos Hlot Hlen Hi. unfold bar_step.
  apply (fold_left_close _
    (fun L' => ledger_ok cfg L' /\ length (positions L') = length (bar_price b) /\
               0 <= nth i (positions L') 0 /\ is_lot 1 (nth i (positions L') 0))).
  - intros L' j (HL' & Hl & Hq & Hk). split; [apply exec_col_ok, HL'|].
    split; [rewrite exec_col_length; exact Hl|].
    destruct (decide (j = i)) as [-> | Hne].
    + assert (H0 := exec_col_target_zero t b L' i Hs Hp (proj1 HL') Hq Hk ltac:(lia)).
      split; [rewrite H0; lra|]. exists 0%Z. rewrite H0. reflexivity.
    + rewrite exec_col_other by exact Hne. split; assumption.
  - intros L' j Hne. apply exec_col_other. exact Hne.
  - intros L' (HL' & Hl & Hq & Hk). apply exec_col_target_zero; try assumption.
    + exact (proj1 HL').
    + lia.
  - exact (conj HL (conj Hlen (conj Hpos Hlot))).
  - unfold call_seq_auto. apply in_app_iff.
    destruct (is_sell_req (col_req cfg b L i)) eqn:E; [left | right]; apply filter_In;
      (split; [apply in_seq; lia | rewrite E; reflexivity]).
Qed.

End CloseColumn.

(** ** Where fills come from *)

(** A fill is logged by an order of a column whose size on the bar is not
    NaN, at the bar it is executed on. *)
Lemma exec_col_fills (cfg : SizingConfig) (fm : FeeModel) (t : nat) (b : Bar) (L : Ledger)
    (i : nat) (f : Fill) :
  In f (fills (exec_col cfg fm t b L i)) ->
  In f (fills L) \/ (fill_bar f = t /\ nth i (bar_size b) NaN <> NaN).
Proof.
  unfold exec_col. destruct (size_order _ _ _ _ _ _) as [|e|q px fee] eqn:E; simpl; auto.
  rewrite in_app_iff. intros [H | [<- | []]]; [left; exact H | right; split; [reflexivity|]].
  intros Hn. unfold col_req in E. rewrite Hn in E. discriminate.
Qed.

Lemma bar_step_fills (cfg : SizingConfig) (fm : FeeModel) (t : nat) (b : Bar) (L : Ledger)
    (f : Fill) :
  In f (fills (bar_step cfg fm t b L)) ->
  In f (fills L) \/ (fill_bar f = t /\ exists i, nth i (bar_size b) NaN <> NaN).
Proof.
  unfold bar_step. revert f.
  apply (fold_left_inv _ (fun L' => forall f, In f (fills L') ->
           In f (fills L) \/ (fill_bar f = t /\ exists i, nth i (bar_size b) NaN <> NaN)));
    [|auto].
  intros L' i _ IH f Hf. apply exec_col_fills in Hf as [Hf | [Ht Hn]]; [exact (IH f Hf)|].
  right. split; [exact Ht | exists i; exact Hn].
Qed.

Lemma simulate_fills {B} (marks : B -> list Q) (step : nat -> B -> Ledger -> Ledger)
    (sizes : B -> list Size) (t : nat) (bars : list B) (L : Ledger) (f : Fill) :
  (forall t b L f, In f (fills (step t b L)) ->
     In f (fills L) \/ (fill_bar f = t /\ exists i, nth i (sizes b) NaN <> NaN)) ->
  In f (fills (snd (simulate step marks t bars L))) ->
  In f (fills L) \/ exists k b, nth_error bars k = Some b /\ fill_bar f = (t + k)%nat /\
                               exists i, nth i (sizes b) NaN <> NaN.
Proof.
  intros Hstep. revert t L; induction bars as [|b bs IH]; intros t L Hf; simpl in Hf; [left; exact Hf|].
  destruct (IH (S t) _ Hf) as [H | (k & b' & Hk & Ht & Hi)].
  - destruct (Hstep t b L f H) as [H' | [Ht Hi]]; [left; exact H'|].
    right. exists 0%nat, b. split; [reflexivity|]. split; [lia | exact Hi].
  - right. exists (S k), b'. split; [exact Hk|]. split; [lia | exact Hi].
Qed.

(** Every fill of a [from_orders] run is on a bar that sizes an order. *)
Lemma from_orders_fills (cfg : SizingConfig) (fm : FeeModel) (init : Q) (bars : list Bar)
    (f : Fill) :
  In f (fills (snd (from_orders cfg fm init bars))) ->
  exists b, nth_error bars (fill_bar f) = Some b /\ exists i, nth i (bar_size b) NaN <> NaN.
Proof.
  unfold from_orders. intros Hf.
  destruct (simulate_fills bar_price (bar_step cfg fm) bar_size 0 bars _ f
              (bar_step_fills cfg fm) Hf) as [[] | (k & b & Hk & Ht & Hi)].
  exists b. rewrite Ht. split; [exact Hk | exact Hi].
Qed.

(** ** Fees of a zero-fee model *)

Lemma size_order_fee (cfg : SizingConfig) (fm : FeeModel) (r : Req) (c pos p q px fee : Q) :
  size_order cfg fm r c pos p = Executed q px fee -> exists u, fee = order_fee fm u px.
Proof.
  unfold size_order. intros H.
  destruct r; [discriminate| | |]; destruct (is_sell_req _);
    apply settle_executed in H as (_ & _ & _ & -> & -> & _); eauto.
Qed.

Lemma exec_col_fees_zero (cfg : SizingConfig) (fm : FeeModel) (t : nat) (b : Bar)
    (L : Ledger) (i : nat) :
  fees fm == 0 -> fixed_fees fm == 0 ->
  fees_paid (exec_col cfg fm t b L i) == fees_paid L.
Proof.
  intros Hf Hx. unfold exec_col.
  destruct (size_order _ _ _ _ _ _) as [|e|q px fee] eqn:E; [reflexivity|reflexivity|].
  rewrite apply_outcome_fees.
  apply size_order_fee in E as [u ->]. unfold order_fee. rewrite Hf, Hx. ring.
Qed.

Lemma bar_step_fees_zero (cfg : SizingConfig) (fm : FeeModel) (t : nat) (b : Bar) (L : Ledger) :
  fees fm == 0 -> fixed_fees fm == 0 ->
  fees_paid (bar_step cfg fm t b L) == fees_paid L.
Proof.
  intros Hf Hx. unfold bar_step.
  apply (fold_left_inv _ (fun L' => fees_paid L' == fees_paid L)); [|reflexivity].
  intros L' i _ H. rewrite exec_col_fees_zero by assumption. exact H.
Qed.

Lemma from_orders_prefix (cfg : SizingConfig) (fm : FeeModel) (init : Q) (k : nat)
    (bars : list Bar) :
  fst (from_orders cfg fm init (firstn k bars)) = firstn k (fst (from_orders cfg fm init bars)).
Proof.
  unfold from_orders. destruct k as [|k]; [destruct bars; reflexivity|].
  replace (ncols_of (firstn (S k) bars)) with (ncols_of bars) by (destruct bars; reflexivity).
  apply simulate_prefix.
Qed.

Lemma value_nonneg (L : Ledger) (prices : list Q) :
  0 <= cash L -> Forall (fun q => 0 <= q) (positions L) -> Forall (fun p => 0 <= p) prices ->
  0 <= value L prices.
Proof.
  intros Hc Hp Hq. unfold value.
  pose proof (dotQ_nonneg _ _ Hp Hq). lra.
Qed.

(** ** Runs: safety, accounting, ordering *)

(** In every [from_orders] run from a non-negative initial cash, the
    cash of the group is never negative: not at the end, not after any
    fill (the log records the balance after each one); long only, no
    position is ever negative and, at non-negative prices, every point of
    the equity curve is non-negative. *)
Lemma from_orders_run_safe (cfg : SizingConfig) (fm : FeeModel) (init : Q) (bars : list Bar) :
  0 <= init ->
  ledger_ok cfg (snd (from_orders cfg fm init bars)) /\
  (direction cfg = LongOnly ->
   Forall (fun b => Forall (fun p => 0 <= p) (bar_price b)) bars ->
   Forall (fun e => 0 <= e) (fst (from_orders cfg fm init bars))).
Proof.
  intros H0. unfold from_orders.
  assert (Hstep : forall t b L, In b bars -> ledger_ok cfg L -> ledger_ok cfg (bar_step cfg fm t b L))
    by (intros; apply bar_step_ok; assumption).
  split.
  - apply (simulate_forall _ _ (ledger_ok cfg) (fun _ => True));
      auto using init_ledger_ok.
  - intros Hd Hb. apply (simulate_forall _ _ (ledger_ok cfg) (fun e => 0 <= e));
      auto using init_ledger_ok.
    intros b L Hin (Hc & _ & Hp). apply value_nonneg; auto.
    exact (proj1 (List.Forall_forall _ _) Hb b Hin).
Qed.

(** The same safety for [from_signals] runs, the engine call of the
    SBIN and RSI scripts. *)
Lemma from_signals_run_safe (cfg : SizingConfig) (fm : FeeModel) (acc : bool) (init : Q)
    (bars : list SigBar) :
  0 <= init ->
  ledger_ok cfg (snd (from_signals cfg fm acc init bars)) /\
  (direction cfg = LongOnly -> Forall (fun b => 0 <= sb_price b) bars ->
   Forall (fun e => 0 <= e) (fst (from_signals cfg fm acc init bars))).
Proof.
  intros H0. unfold from_signals.
  assert (Hstep : forall t b L, In b bars -> ledger_ok cfg L ->
                  ledger_ok cfg (signal_step cfg fm acc t b L))
    by (intros; unfold signal_step; apply exec_col_ok; assumption).
  split.
  - apply (simulate_forall _ _ (ledger_ok cfg) (fun _ => True));
      auto using init_ledger_ok.
  - intros Hd Hb. apply (simulate_forall _ _ (ledger_ok cfg) (fun e => 0 <= e));
      auto using init_ledger_ok.
    intros b L Hin (Hc & _ & Hp). apply value_nonneg; auto.
    repeat constructor. exact (proj1 (List.Forall_forall _ _) Hb b Hin).
Qed.

(** Accounting of a bar without slippage: whatever orders the bar
    executes, the group's value at the bar's prices plus the fees paid so
    far is unchanged (fees are the only leak). *)
Lemma bar_step_conservation (cfg : SizingConfig) (fm : FeeModel) (t : nat) (b : Bar)
    (L : Ledger) :
  slippage fm == 0 -> length (positions L) = length (bar_price b) ->
  value (bar_step cfg fm t b L) (bar_price b) + fees_paid (bar_step cfg fm t b L)
  == value L (bar_price b) + fees_paid L.
Proof.
  intros Hs Hn. unfold bar_step.
  refine (proj2 (fold_left_inv _
    (fun L' => length (positions L') = length (bar_price b) /\
               value L' (bar_price b) + fees_paid L' == value L (bar_price b) + fees_paid L)
    _ L _ (conj Hn (Qeq_refl _)))).
  intros L' i Hin [Hl Hv]. split; [rewrite exec_col_length; exact Hl|].
  rewrite exec_col_value_fees; [exact Hv | exact Hs |].
  rewrite Hl. exact (call_seq_auto_in cfg b L i Hin).
Qed.

(** With no fees, no slippage and prices that do not move, every point
    of a [from_orders] equity curve equals the initial cash, whatever the
    orders (the spec's scenario A is the instance below). *)
Lemma from_orders_flat_zero_fee (cfg : SizingConfig) (fm : FeeModel) (init : Q)
    (ps : list Q) (bars : list Bar) :
  fees fm == 0 -> fixed_fees fm == 0 -> slippage fm == 0 ->
  Forall (fun b => bar_price b = ps) bars ->
  Forall (fun e => e == init) (fst (from_orders cfg fm init bars)).
Proof.
  intros Hf Hx Hs Hb. unfold from_orders.
  assert (Hn : ncols_of bars = length ps \/ bars = []).
  { destruct bars as [|b bs]; [right; reflexivity|left]. inversion Hb; subst; reflexivity. }
  destruct Hn as [Hn | ->]; [|constructor].
  apply (simulate_forall _ _
    (fun L => length (positions L) = length ps /\ value L ps == init /\ fees_paid L == 0)).
  - intros t b L Hin (Hl & Hv & Hfp).
    rewrite List.Forall_forall in Hb. specialize (Hb b Hin). subst ps.
    pose proof (bar_step_conservation cfg fm t b L Hs Hl) as Hc.
    pose proof (bar_step_fees_zero cfg fm t b L Hf Hx) as Hz.
    split; [rewrite bar_step_length; exact Hl|]. split; [|rewrite Hz; exact Hfp].
    rewrite Hz in Hc. lra.
  - intros b L Hin (_ & Hv & _). rewrite List.Forall_forall in Hb.
    rewrite (Hb b Hin). exact Hv.
  - simpl. rewrite repeat_length. split; [exact Hn|]. split; [|reflexivity].
    unfold value; simpl. rewrite dotQ_repeat_0. ring.
Qed.

(** Scenario A: price 100 for 10 bars, one full-equity buy at bar 0, no
    fees: the equity stays at 100 on every bar. *)
Example scenario_A :
  let cfg := mkSizingConfig SizePercent 1 1 LongOnly in
  let fm := mkFeeModel 0 0 0 in
  let bars := mkBar [100] [Num 1] :: repeat (mkBar [100] [NaN]) 9 in
  length (fst (from_orders cfg fm 100 bars)) = 10%nat /\
  (positions (snd (from_orders cfg fm 100 bars)) = [1]) /\
  Forall (fun e => e == 100) (fst (from_orders cfg fm 100 bars)).
Proof.
  intros cfg fm bars. split; [reflexivity|]. split; [vm_compute; reflexivity|].
  apply (from_orders_flat_zero_fee cfg fm 100 [100] bars); try reflexivity.
  repeat constructor.
Qed.

(** No lookahead: the first [k] points of the equity curve depend
    only on the first [k] bars; bars after them, whatever they hold, do
    not change them. *)
Lemma from_orders_no_lookahead (cfg : SizingConfig) (fm : FeeModel) (init : Q) (k : nat)
    (bars1 bars2 : list Bar) :
  firstn k bars1 = firstn k bars2 ->
  firstn k (fst (from_orders cfg fm init bars1)) = firstn k (fst (from_orders cfg fm init bars2)).
Proof.
  intros H. rewrite <- !from_orders_prefix, H. reflexivity.
Qed.

(** The "auto" call order of a shared-cash bar processes every
    column exactly once, all the selling columns before any buying one. *)
Lemma call_seq_auto_spec (cfg : SizingConfig) (b : Bar) (L : Ledger) :
  Permutation (call_seq_auto cfg b L) (seq 0 (length (bar_price b))) /\
  exists sells buys,
    call_seq_auto cfg b L = sells ++ buys /\
    Forall (fun i => is_sell_req (col_req cfg b L i) = true) sells /\
    Forall (fun i => is_sell_req (col_req cfg b L i) = false) buys.
Proof.
  split.
  - symmetry. apply Permutation_filter_split.
  - do 2 eexists. split; [reflexivity|].
    split; apply List.Forall_forall; intros i Hi; apply filter_In in Hi as [_ Hi];
      [exact Hi | apply Bool.negb_true_iff, Hi].
Qed.

(** The spec's zero-fee dominance does not hold for the engine: when
    the fee makes the rounded order unaffordable, the sizer buys one lot
    less, and if the price then falls the run with fees ends richer. *)
Example zero_fee_dominance_fails_engine :
  let cfg := mkSizingConfig SizePercent 1 1 LongOnly in
  let bars := [mkBar [50] [Num 1]; mkBar [10] [NaN]] in
  List.last (fst (from_orders cfg (mkFeeModel 0 0 0) 100 bars)) 0 == 20 /\
  List.last (fst (from_orders cfg (mkFeeModel (1 # 100) 0 0) 100 bars)) 0 == 119 # 2.
Proof. split; vm_compute; reflexivity. Qed.

(** ** Counting orders *)

Lemma exec_col_fills_length (cfg : SizingConfig) (fm : FeeModel) (t : nat) (b : Bar) (L : Ledger)
    (i : nat) :
  (length (fills (exec_col cfg fm t b L i)) <= S (length (fills L)))%nat /\
  (nth i (bar_size b) NaN = NaN -> fills (exec_col cfg fm t b L i) = fills L).
Proof.
  unfold exec_col. destruct (size_order _ _ _ _ _ _) as [|e|q px fee] eqn:E; cbn [apply_outcome fills];
    (split; [rewrite ?length_app; cbn [length]; lia | intros Hn; try reflexivity]).
  unfold col_req in E. rewrite Hn in E. discriminate.
Qed.

(** A signal bar places at most one order, and none without a signal. *)
Lemma signal_step_fills_length (cfg : SizingConfig) (fm : FeeModel) (acc : bool) (t : nat)
    (sb : SigBar) (L : Ledger) :
  (length (fills (signal_step cfg fm acc t sb L))
   <= length (fills L) + (if sb_entry sb || sb_exit sb then 1 else 0))%nat.
Proof.
  unfold signal_step. destruct (exec_col_fills_length cfg fm t
    (mkBar [sb_price sb] [signal_size acc (sb_entry sb) (sb_exit sb) (sb_size sb) (nth 0 (positions L) 0)])
    L 0) as [H1 H2].
  destruct (sb_entry sb), (sb_exit sb); cbn [orb]; try lia.
  rewrite H2 by reflexivity. lia.
Qed.

Lemma simulate_fills_count {B} (step : nat -> B -> Ledger -> Ledger) (marks : B -> list Q)
    (sig : B -> bool) (t : nat) (bars : list B) (L : Ledger) :
  (forall t b L, length (fills (step t b L)) <= length (fills L) + (if sig b then 1 else 0))%nat ->
  (length (fills (snd (simulate step marks t bars L)))
   <= length (fills L) + length (List.filter sig bars))%nat.
Proof.
  intros Hs. revert t L. induction bars as [|b bs IH]; intros t L; cbn [simulate snd List.filter];
    [lia|]. specialize (IH (S t) (step t b L)). specialize (Hs t b L).
  destruct (sig b); cbn [length]; lia.
Qed.

(** [pf.orders.count()] of a [from_signals] run is at most the number of
    bars with a signal. *)
Lemma from_signals_orders (cfg : SizingConfig) (fm : FeeModel) (acc : bool) (init : Q)
    (bars : list SigBar) :
  (length (fills (snd (from_signals cfg fm acc init bars)))
   <= length (List.filter (fun sb => sb_entry sb || sb_exit sb) bars))%nat.
Proof.
  unfold from_signals. etransitivity;
    [apply (simulate_fills_count _ _ (fun sb => sb_entry sb || sb_exit sb)),
           signal_step_fills_length|].
  cbn [init_ledger fills length]. lia.
Qed.

(** ** Well-formed fill logs *)

(** The fills of a run before bar [t] over [n] columns: in time order, each
    on an earlier bar and on an existing column. *)
Definition fills_wf (n t : nat) (fs : list Fill) : Prop :=
  StronglySorted (fun f g => (fill_bar f <= fill_bar g)%nat) fs /\
  Forall (fun f => (fill_bar f < t)%nat /\ (fill_col f < n)%nat) fs.

Lemma StronglySorted_app {A} (R : A -> A -> Prop) (l1 l2 : list A) :
  StronglySorted R l1 -> StronglySorted R l2 ->
  (forall x y, In x l1 -> In y l2 -> R x y) -> StronglySorted R (l1 ++ l2).
Proof.
  intros H1 H2 H12. induction H1 as [|a l1 Hs IH Ha]; [exact H2|]. cbn [app].
  constructor; [apply IH; intros x y Hx Hy; apply H12; [right|]; assumption|].
  apply List.Forall_app. split; [exact Ha|]. apply List.Forall_forall. intros y Hy. apply H12; [left|]; auto.
Qed.

Lemma exec_col_fills_app (cfg : SizingConfig) (fm : FeeModel) (t : nat) (b : Bar) (L : Ledger)
    (i : nat) :
  exists new, fills (exec_col cfg fm t b L i) = fills L ++ new /\
              Forall (fun f => fill_bar f = t /\ fill_col f = i) new.
Proof.
  unfold exec_col. destruct (size_order _ _ _ _ _ _); cbn [apply_outcome fills];
    try (exists []; split; [symmetry; apply app_nil_r | constructor]).
  eexists. split; [reflexivity|]. repeat constructor.
Qed.

(** The fills a bar adds are on that bar and on its columns. *)
Lemma bar_step_fills_app (cfg : SizingConfig) (fm : FeeModel) (t : nat) (b : Bar) (L : Ledger) :
  exists new, fills (bar_step cfg fm t b L) = fills L ++ new /\
              Forall (fun f => fill_bar f = t /\ (fill_col f < length (bar_price b))%nat) new.
Proof.
  unfold bar_step. apply fold_left_inv; [| exists []; split; [symmetry; apply app_nil_r | constructor]].
  intros L' i Hi (new & Hn & Hf). destruct (exec_col_fills_app cfg fm t b L' i) as (new' & Hn' & Hf').
  exists (new ++ new'). rewrite Hn', Hn, app_assoc. split; [reflexivity|].
  apply List.Forall_app. split; [exact Hf|]. refine (List.Forall_impl _ _ Hf').
  intros f [-> ->]. split; [reflexivity | exact (call_seq_auto_in cfg b L i Hi)].
Qed.

Lemma bar_step_wf (cfg : SizingConfig) (fm : FeeModel) (n t : nat) (b : Bar) (L : Ledger) :
  (length (bar_price b) <= n)%nat -> fills_wf n t (fills L) ->
  fills_wf n (S t) (fills (bar_step cfg fm t b L)).
Proof.
  intros Hb [Hs Hf]. destruct (bar_step_fills_app cfg fm t b L) as (new & -> & Hn). split.
  - apply StronglySorted_app; [exact Hs | |].
    + clear Hs Hf. induction Hn as [|f new [Hf _] Hrest IH]; constructor; [exact IH|].
      refine (List.Forall_impl _ _ Hrest). intros g [Hg _]. lia.
    + intros x y Hx Hy. rewrite List.Forall_forall in Hf, Hn.
      destruct (Hf x Hx), (Hn y Hy). lia.
  - apply List.Forall_app. split.
    + refine (List.Forall_impl _ _ Hf). intros f [? ?]. split; lia.
    + refine (List.Forall_impl _ _ Hn). intros f [-> ?]. split; lia.
Qed.

(** A [from_orders] run whose bars all have [n] prices ends with [n]
    positions and a well-formed fill log over its bars. *)
Lemma from_orders_wf (cfg : SizingConfig) (fm : FeeModel) (init : Q) (bars : list Bar) :
  Forall (fun b => length (bar_price b) = ncols_of bars) bars ->
  length (positions (snd (from_orders cfg fm init bars))) = ncols_of bars /\
  fills_wf (ncols_of bars) (length bars) (fills (snd (from_orders cfg fm init bars))).
Proof.
  unfold from_orders. generalize (ncols_of bars) as n. intros n Hb.
  enough (H : forall t L, length (positions L) = n -> fills_wf n t (fills L) ->
            length (positions (snd (simulate (bar_step cfg fm) bar_price t bars L))) = n /\
            fills_wf n (t + length bars) (fills (snd (simulate (bar_step cfg fm) bar_price t bars L)))).
  { apply H; [cbn; apply repeat_length | split; constructor]. }
  induction Hb as [|b bs Hb _ IH]; intros t L Hl Hw; cbn [simulate snd length].
  - rewrite Nat.add_0_r. split; assumption.
  - replace (t + S (length bs))%nat with (S t + length bs)%nat by lia.
    apply IH; [rewrite bar_step_length; exact Hl | apply bar_step_wf; [lia | exact Hw]].
Qed.

(** ** Whole lots and the states of a run *)

(** An order keeps a column's position a whole number of lots. *)
Lemma exec_col_lot (cfg : SizingConfig) (fm : FeeModel) (t : nat) (b : Bar) (L : Ledger) (i : nat) :
  (i < length (positions L))%nat ->
  is_lot (size_granularity cfg) (nth i (positions L) 0) ->
  is_lot (size_granularity cfg) (nth i (positions (exec_col cfg fm t b L i)) 0).
Proof.
  intros Hi Hl. unfold exec_col.
  destruct (size_order _ _ _ _ _ _) as [|e|q px fee] eqn:E;
    (eapply is_lot_eq; [apply apply_outcome_position, Hi|]); cbn [outcome_qty];
    try (apply (is_lot_eq _ _ (nth i (positions L) 0)); [ring | exact Hl]).
  apply is_lot_add; [exact Hl | exact (size_order_lot cfg fm _ _ _ _ _ _ _ Hl E)].
Qed.

(** The state after bar [k] of a run is one step from the state before it,
    which is the initial state or one of the run's states. *)
Lemma sim_states_step {B} (step : nat -> B -> Ledger -> Ledger) (t : nat) (bars : list B)
    (L0 : Ledger) (k : nat) (b : B) (d : Ledger) :
  nth_error bars k = Some b ->
  exists Lp, (Lp = L0 \/ In Lp (sim_states step t bars L0)) /\
             nth k (sim_states step t bars L0) d = step (t + k)%nat b Lp.
Proof.
  revert t L0 k. induction bars as [|b0 bs IH]; intros t L0 [|k] Hk; try discriminate.
  - injection Hk as <-. exists L0. split; [left; reflexivity|]. cbn. f_equal. lia.
  - destruct (IH (S t) (step t b0 L0) k Hk) as (Lp & HLp & Heq). exists Lp. split.
    + right. cbn [sim_states]. destruct HLp as [-> | HLp]; [left; reflexivity | right; exact HLp].
    + cbn [sim_states nth]. rewrite Heq. f_equal. lia.
Qed.
