(* ===== verification/Growth.v ===== *)
(** * Growth: compound annual growth and the fixed-deposit benchmark

    [calc_cagr] is the helper that buy_hold_75_25_backtest.py (lines
    24-28) and niftybees_rsi_accumulation_backtest.py (lines 36-39)
    define identically; Python's [x ** y] on a positive float is
    [Rpower x y] = exp (y ln x). [calc_cagr_nan] is the same helper on
    values that may be NaN, as the NIFTY 50 benchmark calls it. [years_between] is [n_days / 365.25].
    [fd_final], [fd_daily_rate] and [fd_equity] are the fixed-deposit
    benchmark of both scripts: a final value compounded over the
    calendar years, and a curve compounded once per bar of the price
    series at the calendar-day rate. The theorems: the CAGR round trip
    (spec section 8), the guarded degenerate cases, and the finding that
    the curve's last point is not the tabulated final value when the bars
    are trading days. *)

From Stdlib Require Import Reals Rpower Lra.
From S2P Require Import Prelude.
Open Scope R_scope.

Definition FD_CAGR : R := 0.0645.

Definition days_per_year : R := 365.25.

(** [n_years = n_days / 365.25] *)
Definition years_between (n_days : nat) : R := INR n_days / days_per_year.

(** [if start_val <= 0 or end_val <= 0 or years <= 0: return 0.0;
     return (end_val / start_val) ** (1 / years) - 1] *)
Definition calc_cagr (start_val end_val years : R) : R :=
  if Rle_dec start_val 0 then 0
  else if Rle_dec end_val 0 then 0
  else if Rle_dec years 0 then 0
  else Rpower (end_val / start_val) (1 / years) - 1.

(** [calc_cagr] on values that may be NaN ([None]): a NaN fails every
    comparison of the guard, so the guard returns 0.0 only on a number
    that is [<= 0]; past it, any NaN makes the result NaN. *)
Definition le0_nan (v : option R) : bool :=
  match v with Some x => if Rle_dec x 0 then true else false | None => false end.

Definition calc_cagr_nan (start_val end_val : option R) (years : R) : option R :=
  if (le0_nan start_val || le0_nan end_val || le0_nan (Some years))%bool then Some 0
  else match start_val, end_val with
       | Some s, Some e => Some (Rpower (e / s) (1 / years) - 1)
       | _, _ => None
       end.

(** [fd_final = INIT_CASH * (1 + FD_CAGR) ** n_years] *)
Definition fd_final (init_cash n_years : R) : R :=
  init_cash * Rpower (1 + FD_CAGR) n_years.

(** [fd_daily_rate = (1 + FD_CAGR) ** (1 / 365.25) - 1] *)
Definition fd_daily_rate : R := Rpower (1 + FD_CAGR) (1 / days_per_year) - 1.

(** [fd_equity = INIT_CASH * (1 + fd_daily_rate) ** np.arange(n_bars)]:
    point [k] of the curve. *)
Definition fd_equity_at (init_cash : R) (k : nat) : R :=
  init_cash * (1 + fd_daily_rate) ^ k.

Definition fd_equity (init_cash : R) (n_bars : nat) : list R :=
  List.map (fd_equity_at init_cash) (List.seq 0 n_bars).

(** ** Lemmas *)

(** On numbers, the NaN-aware helper is [calc_cagr]. *)
Lemma calc_cagr_nan_some (s e y : R) : calc_cagr_nan (Some s) (Some e) y = Some (calc_cagr s e y).
Proof.
  unfold calc_cagr_nan, le0_nan, calc_cagr.
  destruct (Rle_dec s 0), (Rle_dec e 0), (Rle_dec y 0); reflexivity.
Qed.

Lemma fd_equity_length (init_cash : R) (n : nat) : length (fd_equity init_cash n) = n.
Proof. unfold fd_equity. now rewrite List.length_map, List.length_seq. Qed.

Lemma days_per_year_pos : 0 < days_per_year.
Proof. unfold days_per_year. lra. Qed.

Lemma one_plus_fd_pos : 0 < 1 + FD_CAGR.
Proof. unfold FD_CAGR. lra. Qed.

Lemma one_plus_fd_gt1 : 1 < 1 + FD_CAGR.
Proof. unfold FD_CAGR. lra. Qed.

(** A day count below [yrs * 365.25] is fewer than [yrs] years. *)
Lemma years_of_days_lt (k y : R) : 100 * k < 36525 * y -> k / days_per_year < y.
Proof. intros H. unfold days_per_year. lra. Qed.

Lemma Rpower_pos (x y : R) : 0 < Rpower x y.
Proof. unfold Rpower. apply exp_pos. Qed.

(** One plus the daily rate, raised to [k] bars, is the annual factor
    raised to [k / 365.25] years. *)
Lemma fd_daily_pow (k : nat) :
  (1 + fd_daily_rate) ^ k = Rpower (1 + FD_CAGR) (INR k / days_per_year).
Proof.
  unfold fd_daily_rate.
  replace (1 + (Rpower (1 + FD_CAGR) (1 / days_per_year) - 1))
    with (Rpower (1 + FD_CAGR) (1 / days_per_year)) by ring.
  rewrite <- Rpower_pow by apply Rpower_pos.
  rewrite Rpower_mult. f_equal. field. apply Rgt_not_eq, days_per_year_pos.
Qed.

Lemma years_between_pos (n : nat) : (0 < n)%nat -> 0 < years_between n.
Proof.
  intros Hn. unfold years_between. apply Rdiv_lt_0_compat; [apply lt_0_INR, Hn | apply days_per_year_pos].
Qed.

(** [calc_cagr] is the rate that compounds the start value into the end
    value over the years. *)
Lemma calc_cagr_compounds (v0 v1 y : R) :
  0 < v0 -> 0 < v1 -> 0 < y -> Rpower (1 + calc_cagr v0 v1 y) y = v1 / v0.
Proof.
  intros H0 H1 Hy. unfold calc_cagr.
  destruct (Rle_dec v0 0); [lra|]. destruct (Rle_dec v1 0); [lra|]. destruct (Rle_dec y 0); [lra|].
  replace (1 + (Rpower (v1 / v0) (1 / y) - 1)) with (Rpower (v1 / v0) (1 / y)) by ring.
  rewrite Rpower_mult. replace (1 / y * y) with 1 by (field; lra).
  apply Rpower_1. apply Rdiv_lt_0_compat; assumption.
Qed.

(** ** Theorems *)

(** C27: CAGR round trip (spec section 8): growing [v0] at rate [g] for
    [y] years and asking [calc_cagr] for the rate gives back [g]. *)
Theorem calc_cagr_roundtrip (v0 g y : R) :
  0 < v0 -> -1 < g -> 0 < y ->
  calc_cagr v0 (v0 * Rpower (1 + g) y) y = g.
Proof.
  intros Hv Hg Hy. unfold calc_cagr.
  pose proof (Rpower_pos (1 + g) y) as HP.
  destruct (Rle_dec v0 0); [lra|].
  destruct (Rle_dec (v0 * Rpower (1 + g) y) 0) as [Hc|_];
    [exfalso; pose proof (Rmult_lt_0_compat _ _ Hv HP); lra|].
  destruct (Rle_dec y 0); [lra|].
  replace (v0 * Rpower (1 + g) y / v0) with (Rpower (1 + g) y) by (field; lra).
  rewrite Rpower_mult.
  replace (y * (1 / y)) with 1 by (field; lra).
  rewrite Rpower_1 by lra. ring.
Qed.

Lemma calc_cagr_roundtrip_witness :
  0 < 100 /\ -1 < 0.1 /\ 0 < 3 /\
  calc_cagr 100 (100 * Rpower (1 + 0.1) 3) 3 = 0.1.
Proof.
  assert (H1 : 0 < 100) by lra. assert (H2 : -1 < 0.1) by lra.
  assert (H3 : 0 < 3) by lra.
  split; [exact H1|]. split; [exact H2|]. split; [exact H3|].
  exact (calc_cagr_roundtrip 100 0.1 3 H1 H2 H3).
Defined.

(** The degenerate inputs the scripts guard against (a non-positive
    start or end value, no elapsed time) give a CAGR of 0, not an
    exception. *)
Theorem calc_cagr_guard (start_val end_val years : R) :
  start_val <= 0 \/ end_val <= 0 \/ years <= 0 ->
  calc_cagr start_val end_val years = 0.
Proof.
  intros H. unfold calc_cagr.
  destruct (Rle_dec start_val 0); [reflexivity|].
  destruct (Rle_dec end_val 0); [reflexivity|].
  destruct (Rle_dec years 0); [reflexivity|]. lra.
Qed.

Lemma calc_cagr_guard_witness :
  (0 <= 0 \/ 150 <= 0 \/ 2 <= 0) /\ calc_cagr 0 150 2 = 0.
Proof.
  assert (H : 0 <= 0 \/ 150 <= 0 \/ 2 <= 0) by (left; lra).
  split; [exact H | exact (calc_cagr_guard 0 150 2 H)].
Defined.

(** C28: the fixed-deposit curve and the fixed-deposit final value
    disagree. The curve compounds the calendar-day rate once per bar,
    and the bars are trading days. So, as soon as the series has fewer
    bars than calendar days, its last point lies strictly below the
    [fd_final] of the benchmark table. *)
Theorem fd_curve_below_final (init : R) (n_bars n_days : nat) :
  0 < init -> (0 < n_bars)%nat -> (n_bars - 1 < n_days)%nat ->
  fd_equity_at init (n_bars - 1) < fd_final init (years_between n_days).
Proof.
  intros Hi Hb Hd. unfold fd_equity_at, fd_final, years_between.
  rewrite fd_daily_pow.
  apply Rmult_lt_compat_l; [exact Hi|].
  apply Rpower_lt; [apply one_plus_fd_gt1|].
  unfold Rdiv. apply Rmult_lt_compat_r.
  - apply Rinv_0_lt_compat, days_per_year_pos.
  - apply lt_INR. exact Hd.
Qed.

(** One calendar year of daily NSE bars: 248 trading days spanning 365
    calendar days. *)
Lemma fd_curve_below_final_witness :
  (0 < 1000000)%R /\ (0 < 248)%nat /\ (248 - 1 < 365)%nat /\
  fd_equity_at 1000000 (248 - 1) < fd_final 1000000 (years_between 365).
Proof.
  assert (H1 : (0 < 1000000)%R) by lra.
  assert (H2 : (0 < 248)%nat) by (apply Nat.ltb_lt; reflexivity).
  assert (H3 : (248 - 1 < 365)%nat) by (apply Nat.ltb_lt; reflexivity).
  split; [exact H1|]. split; [exact H2|]. split; [exact H3|].
  exact (fd_curve_below_final 1000000 248 365 H1 H2 H3).
Defined.
