(* ===== verification/Analytics.v ===== *)
(** * Analytics: returns, drawdown and trade statistics of an equity curve

    The scripts compute two series themselves: the cumulative return
    [cum_strat = equity / equity.iloc[0] - 1] (buy_hold_75_25_backtest.py
    line 189, dual_momentum_backtest.py line 200; [cum_returns_nan] is
    the same on the NIFTY 50 closes, which may be NaN) and the drawdown
    [running_max = equity.cummax(); drawdown = equity / running_max - 1]
    (buy_hold lines 195-196, dual_momentum lines 206-207, niftybees lines
    269-270). The summary numbers they print come from vectorbt and are
    modelled from the spec (4.4): total return, maximum drawdown, the
    Sharpe and Sortino ratios of the periodic returns, win rate and
    profit factor over the realized P&L of closed trades, with [None]
    for the non-finite results. *)

From Stdlib Require Import QArith Qround Lqa List Lia Reals Qreals.
From S2P Require Import Prelude.
Import ListNotations.
Open Scope Q_scope.
Open Scope bt_scope.

(** [equity / equity.iloc[0] - 1] *)
Definition cum_returns (equity : list Q) : list Q :=
  match equity with
  | [] => []
  | e0 :: _ => map (fun e => e / e0 - 1) equity
  end.

(** [series / series.iloc[0] - 1] on a series that may hold NaN: NaN
    where the point or the first point is NaN. *)
Definition cum_returns_nan (l : list (option Q)) : list (option Q) :=
  match l with
  | [] => []
  | x0 :: _ => map (fun x => match x0, x with Some a, Some b => Some (b / a - 1) | _, _ => None end) l
  end.

(** [Series.cummax()]: the running maximum, from the running value [m]. *)
Fixpoint cummax_from (m : Q) (l : list Q) : list Q :=
  match l with
  | [] => []
  | x :: t => let m' := if m <=? x then x else m in m' :: cummax_from m' t
  end.

Definition cummax (l : list Q) : list Q :=
  match l with
  | [] => []
  | x :: t => x :: cummax_from x t
  end.

(** [equity / running_max - 1] *)
Definition drawdown (equity : list Q) : list Q :=
  map (fun '(e, m) => e / m - 1) (combine equity (cummax equity)).

Fixpoint min_from (m : Q) (l : list Q) : Q :=
  match l with
  | [] => m
  | x :: t => min_from (if x <=? m then x else m) t
  end.

(** Maximum drawdown: the least point of the drawdown series (the first
    point is always 0, so starting from 0 changes nothing). *)
Definition max_drawdown (equity : list Q) : Q := min_from 0 (drawdown equity).

(** Total return: last point over first point, minus one. *)
Definition total_return (equity : list Q) : Q :=
  match equity with
  | [] => 0
  | e0 :: _ => List.last equity e0 / e0 - 1
  end.

(** Trade statistics over the realized P&L of closed trades. *)
Definition gross_profit (pnl : list Q) : Q := Σ (filter (fun p => 0 <? p) pnl).
Definition gross_loss (pnl : list Q) : Q := - Σ (filter (fun p => p <? 0) pnl).

Definition win_rate (pnl : list Q) : option Q :=
  match pnl with
  | [] => None
  | _ => Some (inject_Z (Z.of_nat (length (filter (fun p => 0 <? p) pnl)))
               / inject_Z (Z.of_nat (length pnl)))
  end.

Definition profit_factor (pnl : list Q) : option Q :=
  if gross_loss pnl =?= 0 then None else Some (gross_profit pnl / gross_loss pnl).

(** Periodic returns [r_t = equity_t / equity_{t-1} - 1]. *)
Fixpoint returns_from (prev : Q) (l : list Q) : list Q :=
  match l with
  | [] => []
  | x :: t => (x / prev - 1) :: returns_from x t
  end.

Definition returns (equity : list Q) : list Q :=
  match equity with [] => [] | e0 :: t => returns_from e0 t end.

(** Mean and sample variance (one degree of freedom, pandas' [std]). *)
Definition meanQ (l : list Q) : Q := Σ l / inject_Z (Z.of_nat (length l)).

Definition varQ (l : list Q) : Q :=
  let m := meanQ l in
  Σ (map (fun x => (x - m) * (x - m)) l) / inject_Z (Z.of_nat (length l) - 1).

(** [mean / std * sqrt(periods_per_year)], [None] when the deviation is
    zero or undefined (fewer than two returns): the non-finite ratio. *)
Definition ann_ratio (ppy : R) (m v : Q) : option R :=
  if v <=? 0 then None else Some (Q2R m / sqrt (Q2R v) * sqrt ppy)%R.

(** The annualisation factor of a [freq] given in minutes: vectorbt's
    year of 365 days over the period. *)
Definition ann_factor (freq_minutes : Z) : R := (365 * 1440 / IZR freq_minutes)%R.

(** Sharpe: over the deviation of all returns; Sortino: over the
    deviation of the negative returns only (spec 4.4). *)
Definition sharpe (ppy : R) (equity : list Q) : option R :=
  let r := returns equity in ann_ratio ppy (meanQ r) (varQ r).

Definition sortino (ppy : R) (equity : list Q) : option R :=
  let r := returns equity in ann_ratio ppy (meanQ r) (varQ (filter (fun x => x <? 0) r)).

(** The rows [pf.total_return()], [pf.sharpe_ratio()],
    [pf.sortino_ratio()] and [pf.max_drawdown()] the scripts print. *)
Definition perf_row (ppy : R) (e : list Q) : Q * option R * option R * Q :=
  (total_return e, sharpe ppy e, sortino ppy e, max_drawdown e).

(** ** Lemmas *)

(** The series the scripts derive from an equity curve keep its index:
    one point per point of the curve. *)
Lemma cum_returns_length (l : list Q) : length (cum_returns l) = length l.
Proof. destruct l; [reflexivity | apply length_map]. Qed.

Lemma cum_returns_nan_length (l : list (option Q)) : length (cum_returns_nan l) = length l.
Proof. destruct l; [reflexivity | apply length_map]. Qed.

Lemma cummax_from_length (m : Q) (l : list Q) : length (cummax_from m l) = length l.
Proof. revert m; induction l as [|x l IH]; intros m; cbn; [reflexivity | now rewrite IH]. Qed.

Lemma drawdown_length (l : list Q) : length (drawdown l) = length l.
Proof.
  unfold drawdown. rewrite length_map, length_combine.
  destruct l as [|x l]; cbn; [reflexivity|]. rewrite cummax_from_length. f_equal. apply PeanoNat.Nat.min_id.
Qed.

Lemma cummax_from_ge_start (m : Q) (l : list Q) :
  Forall (fun y => m <= y) (cummax_from m l).
Proof.
  revert m; induction l as [|x t IH]; intros m; simpl; constructor.
  - case_cmp; lra.
  - eapply Forall_impl; [|apply IH]. simpl. intros y Hy. case_cmp; lra.
Qed.

Lemma cummax_from_ge (m : Q) (l : list Q) :
  Forall2 Qle l (cummax_from m l).
Proof.
  revert m; induction l as [|x t IH]; intros m; simpl; constructor; [case_cmp; lra | apply IH].
Qed.

Lemma cummax_ge (l : list Q) : Forall2 Qle l (cummax l).
Proof. destruct l as [|x t]; simpl; constructor; [apply Qle_refl | apply cummax_from_ge]. Qed.

Lemma cummax_pos (l : list Q) :
  0 < hd 0 l -> Forall (fun y => 0 < y) (cummax l).
Proof.
  destruct l as [|x t]; simpl; intros Hx; constructor; [exact Hx|].
  eapply Forall_impl; [|apply cummax_from_ge_start]. simpl. intros y Hy. lra.
Qed.

Lemma Forall2_combine_map {A B C} (P : A -> B -> Prop) (f : A * B -> C) (R : C -> Prop)
    (l1 : list A) (l2 : list B) :
  Forall2 P l1 l2 -> (forall a b, P a b -> R (f (a, b))) ->
  Forall R (map f (combine l1 l2)).
Proof. induction 1; intros Hf; simpl; constructor; auto. Qed.

Lemma min_from_le_start (m : Q) (l : list Q) : min_from m l <= m.
Proof.
  revert m; induction l as [|x t IH]; intros m; simpl; [apply Qle_refl|].
  specialize (IH (if x <=? m then x else m)). case_cmp; lra.
Qed.

Lemma min_from_bound (lo m : Q) (l : list Q) :
  lo < m -> Forall (fun d => lo < d) l -> lo < min_from m l.
Proof.
  intros Hm Hl. revert m Hm; induction Hl as [|x t Hx Ht IH]; intros m Hm; simpl; [exact Hm|].
  apply IH. case_cmp; assumption.
Qed.

Lemma Forall2_le_pos (l1 l2 : list Q) :
  Forall2 Qle l1 l2 -> Forall (fun x => 0 < x) l1 -> Forall (fun y => 0 < y) l2 ->
  Forall2 (fun e m => 0 < e /\ e <= m /\ 0 < m) l1 l2.
Proof.
  induction 1 as [|x y l1 l2 Hxy _ IH]; intros H1 H2; constructor;
    inversion H1; inversion H2; subst; auto.
Qed.

(** A point of a curve over a running maximum above it is a drawdown in
    (-1, 0]. *)
Lemma ratio_drawdown (e m : Q) : 0 < e -> e <= m -> 0 < m -> -1 < e / m - 1 /\ e / m - 1 <= 0.
Proof.
  intros He Hle Hm. split.
  - assert (0 < e / m) by (apply Qlt_shift_div_l; lra). lra.
  - assert (e / m <= 1) by (apply Qle_shift_div_r; lra). lra.
Qed.

Lemma filter_neg_sum (pnl : list Q) :
  Σ (filter (fun p => p <? 0) pnl) == 0 <-> Forall (fun p => 0 <= p) pnl.
Proof.
  induction pnl as [|p t IH]; simpl; [split; [constructor | reflexivity]|].
  assert (Hs : Σ (filter (fun p => p <? 0) t) <= 0).
  { clear IH. induction t as [|q t IHt]; simpl; [apply Qle_refl|]. case_cmp; simpl; lra. }
  case_cmp; simpl.
  - split; [intros H; lra | intros H; inversion H; lra].
  - rewrite IH. split; [intros H; constructor; assumption | intros H; inversion H; assumption].
Qed.

(** ** Theorems *)

(** on a curve of positive values, every point of the drawdown
    series, and the maximum drawdown, lies in (-1, 0]. *)
Theorem drawdown_bounds (equity : list Q) :
  Forall (fun e => 0 < e) equity ->
  Forall (fun d => -1 < d /\ d <= 0) (drawdown equity) /\
  -1 < max_drawdown equity /\ max_drawdown equity <= 0.
Proof.
  intros Hpos.
  assert (Hd : Forall (fun d => -1 < d /\ d <= 0) (drawdown equity)).
  { unfold drawdown. apply (Forall2_combine_map (fun e m => 0 < e /\ e <= m /\ 0 < m)).
    - apply Forall2_le_pos; [apply cummax_ge | exact Hpos |].
      destruct equity as [|e0 t]; [constructor|].
      apply cummax_pos. simpl. inversion Hpos; assumption.
    - intros e m (? & ? & ?). apply ratio_drawdown; assumption. }
  split; [exact Hd|]. unfold max_drawdown. split.
  - apply min_from_bound; [lra|]. eapply Forall_impl; [|exact Hd]. simpl. tauto.
  - apply min_from_le_start.
Qed.

Lemma drawdown_bounds_witness :
  Forall (fun e => 0 < e) [100; 120; 90; 150] /\
  -1 < max_drawdown [100; 120; 90; 150] /\ max_drawdown [100; 120; 90; 150] <= 0.
Proof.
  assert (H : Forall (fun e => 0 < e) [100; 120; 90; 150])
    by (repeat constructor; apply Qltb_iff; reflexivity).
  split; [exact H|]. apply (drawdown_bounds _ H).
Defined.

(** Scenario B of the spec: the curve 100, 120, 90, 150 has a
    maximum drawdown of (90 - 120) / 120 = -25%. *)
Theorem max_drawdown_scenario_B : max_drawdown [100; 120; 90; 150] == - (1 # 4).
Proof. vm_compute. reflexivity. Qed.

(** Scenario C of the spec: two trades of +50 and -20 give a profit
    factor of 2.5 and a win rate of 50%. *)
Theorem trade_stats_scenario_C :
  match profit_factor [50; -20], win_rate [50; -20] with
  | Some pf, Some wr => pf == 5 # 2 /\ wr == 1 # 2
  | _, _ => False
  end.
Proof. vm_compute. split; reflexivity. Qed.

(** The profit factor is reported as non-finite exactly when no
    trade lost money. *)
Theorem profit_factor_nonfinite (pnl : list Q) :
  profit_factor pnl = None <-> Forall (fun p => 0 <= p) pnl.
Proof.
  unfold profit_factor, gross_loss. rewrite <- filter_neg_sum.
  destruct (Qeq_bool _ 0) eqn:E.
  - apply Qeq_bool_iff in E. split; [intros _; lra | reflexivity].
  - apply Qeq_bool_false in E. split; [discriminate | intros H; exfalso; apply E; lra].
Qed.
