(* ===== verification/Benchmarks.v ===== *)
(** * Benchmarks: buy-and-hold portfolios and the benchmark tables

    Three scripts compare their strategy with buy-and-hold portfolios of
    the ETFs they trade, built with [vbt.Portfolio.from_holding(close,
    init_cash, fees)] (buy_hold_75_25_backtest.py lines 112-117,
    dual_momentum_backtest.py lines 159-168). [from_holding] is library
    code, modelled from the engine's contract: on the first bar it buys
    as many (fractional) units as the cash pays for, fees included
    ([size=np.inf], no [size_granularity]), and holds them; the equity is
    those units marked at each close, the cash being spent entirely.

    The metrics of a curve are compared up to [Qeq] on each point
    ([Qlist_eq], an equivalence with [Proper] instances for [cummax],
    [drawdown], [max_drawdown], [total_return], [meanQ] and [varQ]). The
    lemmas: scaling a curve by a positive factor changes none of its
    returns or drawdowns, so a buy-and-hold benchmark shows exactly the
    total return, maximum drawdown and Sharpe and Sortino ratios of its
    close series. [BenchCol] is one column of a
    printed benchmark table, a [None] cell being the table's "-". *)

From Stdlib Require Import QArith Qround Lqa List Lia Reals Qreals Morphisms Setoid.
From S2P Require Import Prelude Analytics Growth.
Import ListNotations.
Open Scope Q_scope.
Open Scope bt_scope.

(** [vbt.Portfolio.from_holding(close, init_cash, fees)]: the units the
    cash buys on the first bar, and the equity curve they make. *)
Definition holding_units (fees init p0 : Q) : Q := init / (p0 * (1 + fees)).

Definition from_holding (fees init : Q) (close : list Q) : list Q :=
  match close with
  | [] => []
  | p0 :: _ => map (fun p => holding_units fees init p0 * p) close
  end.

(** One column of a benchmark table: CAGR, total return, maximum
    drawdown, final value, Sharpe and Sortino ratios; [None] is a cell
    printed as "-" (or a row the table does not have), and a ratio cell
    holds [None] when the ratio is not finite. *)
Record BenchCol := mkBenchCol {
  bc_cagr : R; bc_total : option R; bc_maxdd : option R; bc_final : option R;
  bc_sharpe : option (option R); bc_sortino : option (option R)
}.

(** The column of a portfolio: its CAGR, and the total return, maximum
    drawdown, final value and ratios of its equity curve. *)
Definition bench_col (ppy c : R) (e : list Q) : BenchCol :=
  mkBenchCol c (Some (Q2R (total_return e))) (Some (Q2R (max_drawdown e)))
    (Some (Q2R (List.last e 0))) (Some (sharpe ppy e)) (Some (sortino ppy e)).

(** ** Curves equal point by point *)

Definition Qlist_eq : list Q -> list Q -> Prop := Forall2 Qeq.

#[export] Instance Qlist_eq_equiv : Equivalence Qlist_eq.
Proof.
  split.
  - intros l. induction l; constructor; [reflexivity | assumption].
  - intros l1 l2 H. induction H; constructor; [symmetry |]; assumption.
  - intros l1 l2 l3 H. revert l3. induction H as [|x y l1 l2 Hxy _ IH]; intros l3 H'.
    + exact H'.
    + inversion H' as [|? z ? l3' Hyz H2]; subst. constructor; [rewrite Hxy | apply IH]; assumption.
Qed.

Lemma Qle_bool_compat (a a' b b' : Q) : a == a' -> b == b' -> (a <=? b) = (a' <=? b').
Proof.
  intros Ha Hb. destruct (a <=? b) eqn:E, (a' <=? b') eqn:E'; try reflexivity; reflect_cmp; lra.
Qed.

#[export] Instance cummax_from_proper : Proper (Qeq ==> Qlist_eq ==> Qlist_eq) cummax_from.
Proof.
  intros m m' Hm l l' Hl. revert m m' Hm. induction Hl as [|x x' l l' Hx _ IH]; intros m m' Hm;
    cbn [cummax_from]; constructor.
  - rewrite (Qle_bool_compat _ _ _ _ Hm Hx). destruct (m' <=? x'); assumption.
  - apply IH. rewrite (Qle_bool_compat _ _ _ _ Hm Hx). destruct (m' <=? x'); assumption.
Qed.

#[export] Instance cummax_proper : Proper (Qlist_eq ==> Qlist_eq) cummax.
Proof.
  intros l l' Hl. destruct Hl as [|x x' l l' Hx Hl]; cbn [cummax]; constructor;
    [exact Hx | apply cummax_from_proper; assumption].
Qed.

Lemma combine_map_proper (f : Q * Q -> Q) (l1 l1' l2 l2' : list Q) :
  (forall a a' b b', a == a' -> b == b' -> f (a, b) == f (a', b')) ->
  Qlist_eq l1 l1' -> Qlist_eq l2 l2' ->
  Qlist_eq (map f (combine l1 l2)) (map f (combine l1' l2')).
Proof.
  intros Hf H1. revert l2 l2'. induction H1 as [|a a' l1 l1' Ha _ IH]; intros l2 l2' H2;
    [constructor|]. destruct H2 as [|b b' l2 l2' Hb H2]; [constructor|].
  cbn. constructor; [apply Hf; assumption | apply IH; assumption].
Qed.

#[export] Instance drawdown_proper : Proper (Qlist_eq ==> Qlist_eq) drawdown.
Proof.
  intros l l' Hl. unfold drawdown. apply combine_map_proper; [| exact Hl | now rewrite Hl].
  intros a a' b b' Ha Hb. cbn. rewrite Ha, Hb. reflexivity.
Qed.

#[export] Instance min_from_proper : Proper (Qeq ==> Qlist_eq ==> Qeq) min_from.
Proof.
  intros m m' Hm l l' Hl. revert m m' Hm. induction Hl as [|x x' l l' Hx _ IH]; intros m m' Hm;
    [exact Hm|]. cbn [min_from]. apply IH.
  rewrite (Qle_bool_compat _ _ _ _ Hx Hm). destruct (x' <=? m'); assumption.
Qed.

#[export] Instance max_drawdown_proper : Proper (Qlist_eq ==> Qeq) max_drawdown.
Proof. intros l l' Hl. unfold max_drawdown. now rewrite Hl. Qed.

Lemma last_proper (l l' : list Q) (d d' : Q) :
  d == d' -> Qlist_eq l l' -> List.last l d == List.last l' d'.
Proof.
  intros Hd Hl. revert d d' Hd. induction Hl as [|x x' l l' Hx Hl IH]; intros d d' Hd; [exact Hd|].
  destruct Hl as [|y y' l l' Hy Hl].
  - exact Hx.
  - exact (IH d d' Hd).
Qed.

#[export] Instance total_return_proper : Proper (Qlist_eq ==> Qeq) total_return.
Proof.
  intros l l' Hl. destruct Hl as [|x x' l l' Hx Hl]; [reflexivity|]. unfold total_return.
  rewrite (last_proper (x :: l) (x' :: l') x x' Hx (Forall2_cons _ _ Hx Hl)), Hx. reflexivity.
Qed.

(** The ratios read the returns through their mean and deviation, which
    respect [Qeq]: two curves with the same returns have the same Sharpe
    and Sortino ratios. *)
Lemma map_Qlist_eq (f g : Q -> Q) (l l' : list Q) :
  (forall x y, x == y -> f x == g y) -> Qlist_eq l l' -> Qlist_eq (map f l) (map g l').
Proof. intros Hf Hl. induction Hl; constructor; auto. Qed.

Lemma filter_Qlist_eq (p : Q -> bool) (l l' : list Q) :
  (forall x y, x == y -> p x = p y) -> Qlist_eq l l' -> Qlist_eq (filter p l) (filter p l').
Proof.
  intros Hp Hl. induction Hl as [|x y l l' Hxy _ IH]; cbn; [constructor|].
  rewrite (Hp x y Hxy). destruct (p y); [constructor|]; assumption.
Qed.

#[export] Instance meanQ_proper : Proper (Qlist_eq ==> Qeq) meanQ.
Proof.
  intros l l' Hl. unfold meanQ. rewrite (sumQ_Forall2 _ _ Hl), (Forall2_length Hl). reflexivity.
Qed.

#[export] Instance varQ_proper : Proper (Qlist_eq ==> Qeq) varQ.
Proof.
  intros l l' Hl. unfold varQ. rewrite (Forall2_length Hl).
  assert (Hd : Qlist_eq (map (fun x => (x - meanQ l) * (x - meanQ l)) l)
                        (map (fun x => (x - meanQ l') * (x - meanQ l')) l'))
    by (apply map_Qlist_eq; [intros x y Hxy; rewrite Hxy, Hl; reflexivity | exact Hl]).
  rewrite (sumQ_Forall2 _ _ Hd). reflexivity.
Qed.

Lemma Qltb_compat (a a' b b' : Q) : a == a' -> b == b' -> (a <? b) = (a' <? b').
Proof. intros Ha Hb. unfold Qltb. now rewrite (Qle_bool_compat b b' a a' Hb Ha). Qed.

Lemma ann_ratio_compat (ppy : R) (m m' v v' : Q) :
  m == m' -> v == v' -> ann_ratio ppy m v = ann_ratio ppy m' v'.
Proof.
  intros Hm Hv. unfold ann_ratio. rewrite (Qle_bool_compat v v' 0 0 Hv (Qeq_refl 0)).
  destruct (v' <=? 0); [reflexivity|]. now rewrite (Qeq_eqR _ _ Hm), (Qeq_eqR _ _ Hv).
Qed.

Lemma sharpe_returns (ppy : R) (l l' : list Q) :
  Qlist_eq (returns l) (returns l') -> sharpe ppy l = sharpe ppy l'.
Proof. intros H. unfold sharpe. apply ann_ratio_compat; now rewrite H. Qed.

Lemma sortino_returns (ppy : R) (l l' : list Q) :
  Qlist_eq (returns l) (returns l') -> sortino ppy l = sortino ppy l'.
Proof.
  intros H. unfold sortino. apply ann_ratio_compat; [now rewrite H|].
  apply varQ_proper, filter_Qlist_eq; [|exact H].
  intros x y Hxy. apply Qltb_compat; [exact Hxy | reflexivity].
Qed.

(** ** Scaling a curve *)

Section Scale.
Variable k : Q.
Hypothesis Hk : 0 < k.

Lemma Qle_bool_scale (a b : Q) : (k * a <=? k * b) = (a <=? b).
Proof.
  destruct (a <=? b) eqn:E; reflect_cmp.
  - apply Qle_bool_iff. apply Qmult_le_l; assumption.
  - apply Qle_bool_false. apply Qmult_lt_l; assumption.
Qed.

Lemma cummax_from_scale (m : Q) (l : list Q) :
  Qlist_eq (cummax_from (k * m) (map (Qmult k) l)) (map (Qmult k) (cummax_from m l)).
Proof.
  revert m. induction l as [|x l IH]; intros m; cbn [cummax_from map]; constructor;
    rewrite Qle_bool_scale; destruct (m <=? x); try reflexivity; apply IH.
Qed.

Lemma cummax_scale (l : list Q) : Qlist_eq (cummax (map (Qmult k) l)) (map (Qmult k) (cummax l)).
Proof. destruct l as [|x l]; cbn; constructor; [reflexivity | apply cummax_from_scale]. Qed.

Lemma div_scale (a b : Q) : (k * a) / (k * b) == a / b.
Proof.
  unfold Qdiv. rewrite Qinv_mult_distr.
  setoid_replace (k * a * (/ k * / b)) with ((k * / k) * (a * / b)) by ring.
  rewrite Qmult_inv_r by lra. ring.
Qed.

Lemma drawdown_scale (l : list Q) : Qlist_eq (drawdown (map (Qmult k) l)) (drawdown l).
Proof.
  unfold drawdown.
  transitivity (map (fun '(e, m) => e / m - 1)
                  (combine (map (Qmult k) l) (map (Qmult k) (cummax l)))).
  { apply combine_map_proper; [| reflexivity | apply cummax_scale].
    intros a a' b b' Ha Hb. cbn. rewrite Ha, Hb. reflexivity. }
  generalize (cummax l). induction l as [|x l IH]; intros [|m ms]; cbn; constructor;
    [rewrite div_scale; reflexivity | apply IH].
Qed.

Lemma max_drawdown_scale (l : list Q) : max_drawdown (map (Qmult k) l) == max_drawdown l.
Proof. unfold max_drawdown. now rewrite drawdown_scale. Qed.

Lemma last_scale (l : list Q) (d : Q) : List.last (map (Qmult k) l) (k * d) == k * List.last l d.
Proof.
  induction l as [|x l IH]; [reflexivity|]. destruct l as [|y l]; [reflexivity | exact IH].
Qed.

Lemma total_return_scale (l : list Q) : total_return (map (Qmult k) l) == total_return l.
Proof.
  destruct l as [|x l]; [reflexivity|]. unfold total_return. cbn [map].
  rewrite (last_scale (x :: l) x), div_scale. reflexivity.
Qed.

Lemma returns_from_scale (p : Q) (l : list Q) :
  Qlist_eq (returns_from (k * p) (map (Qmult k) l)) (returns_from p l).
Proof.
  revert p. induction l as [|x l IH]; intros p; cbn; constructor;
    [rewrite div_scale; reflexivity | apply IH].
Qed.

Lemma returns_scale (l : list Q) : Qlist_eq (returns (map (Qmult k) l)) (returns l).
Proof. destruct l as [|x l]; [reflexivity|]. apply returns_from_scale. Qed.

Lemma sharpe_scale (ppy : R) (l : list Q) : sharpe ppy (map (Qmult k) l) = sharpe ppy l.
Proof. apply sharpe_returns, returns_scale. Qed.

Lemma sortino_scale (ppy : R) (l : list Q) : sortino ppy (map (Qmult k) l) = sortino ppy l.
Proof. apply sortino_returns, returns_scale. Qed.

End Scale.

(** ** The buy-and-hold curve *)

Lemma holding_units_pos (fees init p0 : Q) :
  0 < init -> 0 < p0 -> -1 < fees -> 0 < holding_units fees init p0.
Proof.
  intros Hi Hp Hf. unfold holding_units. apply Qlt_shift_div_l; [|lra].
  apply Qmult_lt_0_compat; lra.
Qed.

(** A buy-and-hold benchmark has the total return, the drawdowns and the
    maximum drawdown of its close series; its final value is the units
    bought at the last close. *)
Lemma from_holding_metrics (fees init p0 : Q) (ps : list Q) :
  0 < init -> 0 < p0 -> -1 < fees ->
  total_return (from_holding fees init (p0 :: ps)) == total_return (p0 :: ps) /\
  Qlist_eq (drawdown (from_holding fees init (p0 :: ps))) (drawdown (p0 :: ps)) /\
  max_drawdown (from_holding fees init (p0 :: ps)) == max_drawdown (p0 :: ps) /\
  List.last (from_holding fees init (p0 :: ps)) 0
    == holding_units fees init p0 * List.last (p0 :: ps) 0.
Proof.
  intros Hi Hp Hf. pose proof (holding_units_pos fees init p0 Hi Hp Hf) as Hu.
  change (from_holding fees init (p0 :: ps)) with (map (Qmult (holding_units fees init p0)) (p0 :: ps)).
  split; [apply total_return_scale; exact Hu|]. split; [apply drawdown_scale; exact Hu|].
  split; [apply max_drawdown_scale; exact Hu|].
  rewrite <- last_scale. apply last_proper; [ring | reflexivity].
Qed.

(** ... and the Sharpe and Sortino ratios of its close series. *)
Lemma from_holding_ratios (fees init p0 : Q) (ps : list Q) (ppy : R) :
  0 < init -> 0 < p0 -> -1 < fees ->
  sharpe ppy (from_holding fees init (p0 :: ps)) = sharpe ppy (p0 :: ps) /\
  sortino ppy (from_holding fees init (p0 :: ps)) = sortino ppy (p0 :: ps).
Proof.
  intros Hi Hp Hf. pose proof (holding_units_pos fees init p0 Hi Hp Hf) as Hu.
  change (from_holding fees init (p0 :: ps)) with (map (Qmult (holding_units fees init p0)) (p0 :: ps)).
  split; [apply sharpe_scale | apply sortino_scale]; exact Hu.
Qed.

(** The four rows [total_return], [sharpe_ratio], [sortino_ratio] and
    [max_drawdown] of a buy-and-hold benchmark are those of its closes. *)
Lemma from_holding_perf_row (fees init p0 : Q) (ps : list Q) (ppy : R) :
  0 < init -> 0 < p0 -> -1 < fees ->
  let '(t, s, o, d) := perf_row ppy (from_holding fees init (p0 :: ps)) in
  t == total_return (p0 :: ps) /\ s = sharpe ppy (p0 :: ps) /\ o = sortino ppy (p0 :: ps) /\
  d == max_drawdown (p0 :: ps).
Proof.
  intros Hi Hp Hf.
  destruct (from_holding_metrics fees init p0 ps Hi Hp Hf) as (Ht & _ & Hm & _).
  destruct (from_holding_ratios fees init p0 ps ppy Hi Hp Hf) as [Hs Ho].
  unfold perf_row. rewrite Hs, Ho. auto.
Qed.

Lemma Q2R_pos (q : Q) : 0 < q -> (0 < Q2R q)%R.
Proof. intros H. apply Qlt_Rlt in H. unfold Q2R in H at 1. simpl in H. rewrite Rmult_0_l in H. exact H. Qed.

(** A CAGR and a total return read off the same two values agree: the
    CAGR compounds over the years to the total return. *)
Lemma cagr_ratio_total (v0 v1 : Q) (y : R) :
  0 < v0 -> 0 < v1 -> (0 < y)%R ->
  Rpower (1 + calc_cagr (Q2R v0) (Q2R v1) y) y = (1 + Q2R (v1 / v0 - 1))%R.
Proof.
  intros H0 H1 Hy. pose proof (Q2R_pos _ H0) as R0.
  rewrite calc_cagr_compounds; [| exact R0 | apply Q2R_pos, H1 | exact Hy].
  rewrite Q2R_minus, Q2R_div by lra.
  replace (Q2R 1) with 1%R by (unfold Q2R; simpl; field). field. exact (Rgt_not_eq _ _ R0).
Qed.

Lemma cagr_total_return (p0 : Q) (ps : list Q) (y : R) :
  0 < p0 -> 0 < List.last (p0 :: ps) p0 -> (0 < y)%R ->
  Rpower (1 + calc_cagr (Q2R p0) (Q2R (List.last (p0 :: ps) p0)) y) y
  = (1 + Q2R (total_return (p0 :: ps)))%R.
Proof. exact (fun H0 H1 Hy => cagr_ratio_total p0 _ y H0 H1 Hy). Qed.

(** The FD column: its total return is its CAGR compounded. *)
Lemma fd_column (init y : R) :
  (0 < init)%R -> (Rpower (1 + FD_CAGR) y = 1 + (fd_final init y / init - 1))%R.
Proof. intros H. unfold fd_final. field. apply Rgt_not_eq, H. Qed.
