(* ===== verification/Trades.v ===== *)
(** * Trades: the positions of a fill log and their realized P&L

    vectorbt groups the fills of a column into positions: a position opens
    with the first fill from flat and closes with the fill that brings the
    size back to zero ([pf.positions], exported by the SBIN script at line
    105; its [pf.trades] statistics, lines 91-93, read the same records
    for a script that never adds to an open position). The realized P&L of
    a closed position is its net cash flow: what its sells brought in less
    what its buys cost, fees included (spec 4.3, step 5, and 4.4). This is
    library code, modelled from the spec.

    [pos_scan] is that grouping, a left-to-right scan carrying the open
    position (its entry bar, size and cash flow so far). The theorems: the
    scan's open size is the column's position and its cash flows are the
    ledger's, so that on a run that ends flat the closed positions' P&L
    adds up exactly to the change of cash. *)

From Stdlib Require Import QArith Qround Lqa List Lia.
From stdpp Require Import base list.
From S2P Require Import Prelude Sizing Ledger.
Import ListNotations.
Open Scope Q_scope.
Open Scope bt_scope.

(** A closed position: the bars of its first and last fill, its P&L. *)
Record Position := mkPosition { pos_entry : nat; pos_exit : nat; pos_pnl : Q }.

(** The cash a fill moves: minus its notional, minus its fee. *)
Definition fill_flow (f : Fill) : Q := - (fill_qty f * fill_price f) - fill_fee f.

(** The scan: the positions closed so far and the open one (entry bar,
    size, cash flow). *)
Fixpoint pos_scan (open : option (nat * Q * Q)) (fs : list Fill)
    : list Position * option (nat * Q * Q) :=
  match fs with
  | [] => ([], open)
  | f :: rest =>
      let '(e, q, c) := match open with Some o => o | None => (fill_bar f, 0, 0) end in
      let q' := q + fill_qty f in
      let c' := c + fill_flow f in
      if q' =?= 0 then
        let r := pos_scan None rest in (mkPosition e (fill_bar f) c' :: fst r, snd r)
      else pos_scan (Some (e, q', c')) rest
  end.

Definition closed_positions (fs : list Fill) : list Position := fst (pos_scan None fs).

(** The realized P&L of the closed positions. *)
Definition closed_pnls (fs : list Fill) : list Q := map pos_pnl (closed_positions fs).

(** [pf.trades.count()]: the closed positions and the open one. *)
Definition trade_count (fs : list Fill) : nat :=
  length (closed_positions fs) + match snd (pos_scan None fs) with Some _ => 1 | None => 0 end.

Definition open_qty (o : option (nat * Q * Q)) : Q :=
  match o with Some (_, q, _) => q | None => 0 end.

Definition open_flow (o : option (nat * Q * Q)) : Q :=
  match o with Some (_, _, c) => c | None => 0 end.

(** ** The scan *)

(** Flows and sizes are conserved by the scan: the flows of the fills are
    the closed P&L plus the open flow, the sizes add up to the open size,
    and an open position is never of size zero. *)
Lemma pos_scan_spec (o : option (nat * Q * Q)) (fs : list Fill) :
  (forall e q c, o = Some (e, q, c) -> ~ q == 0) ->
  open_flow o + Σ (map fill_flow fs)
    == Σ (map pos_pnl (fst (pos_scan o fs))) + open_flow (snd (pos_scan o fs)) /\
  open_qty o + Σ (map fill_qty fs) == open_qty (snd (pos_scan o fs)) /\
  (forall e q c, snd (pos_scan o fs) = Some (e, q, c) -> ~ q == 0).
Proof.
  revert o. induction fs as [|f rest IH]; intros o Ho; cbn [pos_scan fst snd map sumQ].
  - split; [ring|]. split; [ring | exact Ho].
  - assert (Hoc : exists e q c, (match o with Some o => o | None => (fill_bar f, 0, 0) end) = (e, q, c)
                    /\ open_flow o == c /\ open_qty o == q)
      by (destruct o as [[[e q] c]|]; do 3 eexists; (split; [reflexivity | cbn; split; reflexivity])).
    destruct Hoc as (e & q & c & -> & Hc & Hq).
    destruct (q + fill_qty f =?= 0) eqn:E; reflect_cmp.
    + destruct (IH None ltac:(discriminate)) as (H1 & H2 & H3). cbn [fst snd map sumQ pos_pnl].
      cbn [open_flow open_qty] in H1, H2. split; [rewrite Hc; lra|]. split; [lra | exact H3].
    + destruct (IH (Some (e, q + fill_qty f, c + fill_flow f))) as (H1 & H2 & H3);
        [intros ? ? ? [= _ <- _]; exact E|].
      cbn [open_flow open_qty] in H1, H2. split; [rewrite Hc; lra|]. split; [lra | exact H3].
Qed.

(** A log whose sizes add up to zero leaves no position open, and then
    the closed P&L is all its cash flow. *)
Lemma closed_pnls_flat (fs : list Fill) :
  Σ (map fill_qty fs) == 0 ->
  snd (pos_scan None fs) = None /\ Σ (closed_pnls fs) == Σ (map fill_flow fs).
Proof.
  intros H0. destruct (pos_scan_spec None fs ltac:(discriminate)) as (H1 & H2 & H3).
  cbn [open_flow open_qty] in H1, H2. unfold closed_pnls, closed_positions.
  destruct (snd (pos_scan None fs)) as [[[e q] c]|] eqn:E.
  - exfalso. apply (H3 e q c eq_refl). cbn in H2. lra.
  - split; [reflexivity|]. cbn in H1. lra.
Qed.

(** ** The ledger's flows *)

(** Of a one-column ledger: cash is the initial cash plus the flows of
    its fills, and the position is the sum of their sizes. *)
Definition flows_ok (init : Q) (L : Ledger) : Prop :=
  length (positions L) = 1%nat /\
  cash L == init + Σ (map fill_flow (fills L)) /\
  nth 0 (positions L) 0 == Σ (map fill_qty (fills L)).

Lemma exec_col_flows (cfg : SizingConfig) (fm : FeeModel) (init : Q) (t : nat) (b : Bar)
    (L : Ledger) :
  flows_ok init L -> flows_ok init (exec_col cfg fm t b L 0).
Proof.
  intros (Hl & Hc & Hp). unfold exec_col.
  pose proof (apply_outcome_position t 0 L
    (size_order cfg fm (col_req cfg b L 0) (cash L) (nth 0 (positions L) 0) (nth 0 (bar_price b) 0))
    ltac:(rewrite Hl; lia)) as Hpos.
  destruct (size_order _ _ _ _ _ _) as [|e|q px fee]; cbn [outcome_qty] in Hpos.
  - repeat split; assumption.
  - repeat split; assumption.
  - split; [cbn [apply_outcome positions]; rewrite length_insert; exact Hl|].
    cbn [apply_outcome cash fills positions] in Hpos |- *. rewrite !map_app, !sumQ_app.
    cbn [map sumQ]. unfold fill_flow at 2. cbn [fill_qty fill_price fill_fee]. split; [lra|].
    rewrite Hpos, Hp. ring.
Qed.

Lemma simulate_flows {B} (step : nat -> B -> Ledger -> Ledger) (marks : B -> list Q) (init : Q)
    (t : nat) (bars : list B) (L : Ledger) :
  (forall t b L, flows_ok init L -> flows_ok init (step t b L)) ->
  flows_ok init L -> flows_ok init (snd (simulate step marks t bars L)).
Proof.
  intros Hs. revert t L. induction bars as [|b bs IH]; intros t L HL; [exact HL|].
  apply IH, Hs, HL.
Qed.

Lemma from_signals_flows (cfg : SizingConfig) (fm : FeeModel) (acc : bool) (init : Q)
    (bars : list SigBar) :
  flows_ok init (snd (from_signals cfg fm acc init bars)).
Proof.
  apply simulate_flows; [intros t b L H; apply exec_col_flows, H|].
  repeat split; cbn; ring.
Qed.
