(* ===== verification/Sbin.v ===== *)
(** * Sbin: SBIN_ema_crossover_backtest.py

    The script computes two EMAs of the close, their crossovers
    ([ma_crossed_above], [ma_crossed_below], lines 53-57), cleans them
    with [ta.exrem] (lines 60-61) and runs [from_signals] with 75% of the
    equity per entry, 0.1% fees, long only, whole shares (lines 66-78).
    The EMAs and the crossover detection are indicator code, taken as
    given series; what the model needs of them is [crossovers_consistent]:
    a buy crossover only on a bar where the fast EMA is above the slow one,
    a sell crossover only where it is below. The run is [sbin_backtest];
    [sbin_close] sorts the history (lines 41-48) and [sbin_run] goes from
    the history to the run, the EMAs and crossovers as parameters.
    The theorems: the cleaned events alternate and never collide; from
    the ledger after any prefix of the run to the ledger one bar later
    the position opens from flat on a cleaned entry, closes entirely on
    a cleaned exit, or stays as it is; an entry from flat buys the
    nearest whole number of shares to 75% of the cash; and the key
    metrics ([sbin_metrics], lines 86-93) and exported positions
    ([sbin_positions], line 105) account for the cash: it is the initial
    cash plus the realized P&L of the closed positions plus the open
    one's flow. *)

From Stdlib Require Import QArith Qround Lqa List Bool Lia ZArith Permutation Reals.
From stdpp Require Import base list.
From S2P Require Import Prelude Panel Signals Sizing Ledger Analytics Trades.
Import ListNotations.
Open Scope Q_scope.
Open Scope bt_scope.

Module SbinConfig.
(** Lines 16-20. *)
Definition FAST_EMA : nat := 10.
Definition SLOW_EMA : nat := 20.
Definition INIT_CASH : Q := 1000000.
Definition FEES : Q := 1 # 1000.
Definition ALLOCATION : Q := 3 # 4.
(** Line 77: [freq="1D"], in minutes. *)
Definition FREQ : Z := 1440.
End SbinConfig.
Import SbinConfig.

(** [size=ALLOCATION, size_type="percent", direction="longonly",
    min_size=1, size_granularity=1] *)
Definition sbin_cfg : SizingConfig := mkSizingConfig SizePercent 1 1 LongOnly.

(** [fees=FEES] *)
Definition sbin_fees : FeeModel := mkFeeModel FEES 0 0.

Fixpoint crossovers_consistent (fast slow : list Q) (buy_raw sell_raw : list bool) : Prop :=
  match fast, slow, buy_raw, sell_raw with
  | f :: fs, s :: ss, b :: bs, x :: xs =>
      (b = true -> s < f) /\ (x = true -> f < s) /\ crossovers_consistent fs ss bs xs
  | _, _, _, _ => True
  end.

Fixpoint sig_bars (close : list Q) (entries exits : list bool) : list SigBar :=
  match close, entries, exits with
  | c :: cs, e :: es, x :: xs => mkSigBar c e x (Num ALLOCATION) :: sig_bars cs es xs
  | _, _, _ => []
  end.

(** Lines 60-61 and 66-78. *)
Definition sbin_backtest (close : list Q) (buy_raw sell_raw : list bool) : list Q * Ledger :=
  let '(entries, exits) := SbinSignals.sbin_signals buy_raw sell_raw in
  from_signals sbin_cfg sbin_fees false INIT_CASH (sig_bars close entries exits).

(** Lines 41-48: the history indexed and sorted by its timestamps; its
    close series. *)
Definition sbin_close (hist : list (Z * Q)) : list Q := map snd (sort_index hist).

(** Lines 41-78 end to end. The EMAs ([vbt.MA.run(close, n, ewm=True)],
    lines 53-54) and the crossover detection ([ma_crossed_above],
    [ma_crossed_below], lines 56-57) are indicator code, parameters of the
    run. *)
Definition sbin_run (ma : nat -> list Q -> list Q)
    (crossed_above crossed_below : list Q -> list Q -> list bool) (hist : list (Z * Q))
    : list Q * Ledger :=
  let close := sbin_close hist in
  let fast := ma FAST_EMA close in
  let slow := ma SLOW_EMA close in
  sbin_backtest close (crossed_above fast slow) (crossed_below fast slow).

(** Lines 86-93: the key metrics, read off the run: total return,
    Sharpe and Sortino ratios and maximum drawdown of the equity curve,
    win rate, number and profit factor of the trades. *)
Record SbinMetrics := mkSbinMetrics {
  sm_total_return : Q; sm_sharpe : option R; sm_sortino : option R; sm_max_drawdown : Q;
  sm_win_rate : option Q; sm_trades : nat; sm_profit_factor : option Q
}.

Definition sbin_metrics (close : list Q) (buy_raw sell_raw : list bool) : SbinMetrics :=
  let '(equity, L) := sbin_backtest close buy_raw sell_raw in
  let ppy := ann_factor FREQ in
  mkSbinMetrics (total_return equity) (sharpe ppy equity) (sortino ppy equity) (max_drawdown equity)
    (win_rate (closed_pnls (fills L))) (trade_count (fills L)) (profit_factor (closed_pnls (fills L))).

(** Line 105: [pf.positions.records_readable], the closed positions and
    the one still open. *)
Definition sbin_positions (close : list Q) (buy_raw sell_raw : list bool)
    : list Position * option (nat * Q * Q) :=
  pos_scan None (fills (snd (sbin_backtest close buy_raw sell_raw))).

(** ** Lemmas *)

Lemma sig_bars_prices (close : list Q) (es xs : list bool) :
  Forall (fun sb => In (sb_price sb) close) (sig_bars close es xs).
Proof.
  revert es xs; induction close as [|c cs IH]; intros [|e es] [|x xs]; simpl; try constructor.
  - left. reflexivity.
  - refine (List.Forall_impl _ _ (IH es xs)). intros sb H. right. exact H.
Qed.

Lemma crossovers_disjoint (fast slow : list Q) (buy_raw sell_raw : list bool) :
  length fast = length buy_raw -> length slow = length buy_raw ->
  crossovers_consistent fast slow buy_raw sell_raw -> disjoint buy_raw sell_raw.
Proof.
  revert fast slow sell_raw.
  induction buy_raw as [|b bs IH]; intros [|f fs] [|s ss] [|x xs] Hf Hs H; simpl in *;
    try discriminate; auto.
  destruct H as (Hb & Hx & H). split; [|apply (IH fs ss); auto].
  intros [-> ->]. specialize (Hb eq_refl). specialize (Hx eq_refl). lra.
Qed.

(** The SBIN sell order: an exit of a non-accumulating long-only run sells
    the whole position. *)
Lemma sellall_closes (cfg : SizingConfig) (fm : FeeModel) (c pos p q px fee : Q) :
  size_order cfg fm SellAll c pos p = Executed q px fee -> pos + q == 0.
Proof.
  unfold size_order. simpl. intros H.
  apply settle_executed in H as (_ & _ & -> & _). simpl. ring.
Qed.

Lemma sig_bars_firstn (close : list Q) (es xs : list bool) (k : nat) :
  sig_bars (firstn k close) es xs = firstn k (sig_bars close es xs).
Proof.
  revert close es xs; induction k as [|k IH]; intros [|c cs] [|e es] [|x xs]; try reflexivity.
  cbn. rewrite IH. reflexivity.
Qed.

Lemma sig_bars_nth (close : list Q) (es xs : list bool) (k : nat) :
  (k < length close)%nat -> (k < length es)%nat -> (k < length xs)%nat ->
  nth_error (sig_bars close es xs) k
  = Some (mkSigBar (nth k close 0) (nth k es false) (nth k xs false) (Num ALLOCATION)).
Proof.
  revert close es xs; induction k as [|k IH]; intros [|c cs] [|e es] [|x xs] Hc He Hx;
    cbn [length] in *; try lia; [reflexivity|].
  apply IH; lia.
Qed.

Lemma firstn_S_snoc {A} (l : list A) (k : nat) (b : A) :
  nth_error l k = Some b -> firstn (S k) l = firstn k l ++ [b].
Proof.
  revert l; induction k as [|k IH]; intros [|a l] H; try discriminate.
  - injection H as ->. reflexivity.
  - cbn in H |- *. rewrite (IH l H). reflexivity.
Qed.

(** The SBIN run keeps its one column. *)
Lemma sig_run_width (bars : list SigBar) :
  length (positions (snd (simulate (signal_step sbin_cfg sbin_fees false) (fun sb => [sb_price sb])
                            0 bars (init_ledger INIT_CASH 1)))) = 1%nat.
Proof.
  refine (proj2 (simulate_forall _ _ (fun L => length (positions L) = 1%nat) (fun _ => True) 0 bars
                   (init_ledger INIT_CASH 1) _ _ _)).
  - intros t b L _ HL. unfold signal_step. rewrite exec_col_length. exact HL.
  - intros; exact I.
  - reflexivity.
Qed.

(** One step of the SBIN run: the position is unchanged, or it was flat
    and the bar is an entry, or the bar is an exit and the position is
    closed to zero. *)
Lemma sbin_step_cases (t : nat) (sb : SigBar) (L : Ledger) :
  length (positions L) = 1%nat ->
  let pos := nth 0 (positions L) 0 in
  let pos' := nth 0 (positions (signal_step sbin_cfg sbin_fees false t sb L)) 0 in
  pos' == pos \/ (pos == 0 /\ sb_entry sb = true) \/ (pos' == 0 /\ sb_exit sb = true).
Proof.
  intros Hl pos pos'. unfold pos', signal_step, exec_col.
  rewrite apply_outcome_position by (rewrite Hl; lia). fold pos.
  destruct (size_order _ _ _ _ _ _) as [|e|q px fee] eqn:E; simpl; [left; ring | left; ring |].
  unfold col_req in E. simpl in E. fold pos in E.
  unfold signal_size in E.
  destruct (sb_entry sb) eqn:Ee, (sb_exit sb) eqn:Ex; simpl in E;
    try discriminate; repeat case_cmp; try discriminate.
  - right; left. split; [assumption | reflexivity].
  - right; right. split; [|reflexivity]. exact (sellall_closes _ _ _ _ _ _ _ _ E).
Qed.


(** ** Theorems *)

(** C12: the SBIN signals are well formed: on crossovers of two EMA
    series (a buy only where fast > slow, a sell only where fast < slow)
    the cleaned entries and exits never fall on the same bar, so the
    engine never meets a conflict, and their events alternate. *)
Theorem sbin_signals_well_formed (fast slow : list Q) (buy_raw sell_raw : list bool) :
  length fast = length buy_raw -> length slow = length buy_raw ->
  crossovers_consistent fast slow buy_raw sell_raw ->
  disjoint (fst (SbinSignals.sbin_signals buy_raw sell_raw))
           (snd (SbinSignals.sbin_signals buy_raw sell_raw)) /\
  alternating (events (fst (SbinSignals.sbin_signals buy_raw sell_raw))
                      (snd (SbinSignals.sbin_signals buy_raw sell_raw))).
Proof.
  intros Hf Hs Hc. pose proof (crossovers_disjoint _ _ _ _ Hf Hs Hc) as Hd.
  split; [exact (sbin_scan_disjoint None _ _ Hd) | exact (sbin_scan_alt None _ _ Hd)].
Qed.

Lemma sbin_signals_well_formed_witness :
  let fast := [9; 11; 12; 8; 7; 10] in
  let slow := [10; 10; 10; 10; 10; 9] in
  let buy := [false; true; false; false; false; true] in
  let sell := [false; false; false; true; false; false] in
  crossovers_consistent fast slow buy sell /\
  alternating (events (fst (SbinSignals.sbin_signals buy sell))
                      (snd (SbinSignals.sbin_signals buy sell))).
Proof.
  intros fast slow buy sell.
  assert (H : crossovers_consistent fast slow buy sell).
  { simpl. repeat split; intros E; try discriminate; apply Qltb_iff; reflexivity. }
  split; [exact H|].
  exact (proj2 (sbin_signals_well_formed fast slow buy sell eq_refl eq_refl H)).
Defined.

(** An SBIN entry from flat buys the nearest whole number of shares
    to 75% of the cash ([size=ALLOCATION, size_type="percent"]): the
    position it opens is worth [ALLOCATION * cash] within half a share,
    as long as a share costs at most a quarter of the cash. *)
Theorem sbin_entry_buys_allocation (t : nat) (p : Q) (L : Ledger) :
  positions L = [0] -> 0 < p -> 4 * p <= cash L ->
  let L' := signal_step sbin_cfg sbin_fees false t (mkSigBar p true false (Num ALLOCATION)) L in
  nth 0 (positions L') 0 == round_lot 1 (ALLOCATION * cash L / p) /\
  ALLOCATION * cash L - (1 # 2) * p < nth 0 (positions L') 0 * p
    <= ALLOCATION * cash L + (1 # 2) * p.
Proof.
  intros Hpos Hp Hc L'. unfold L', signal_step, signal_size, exec_col.
  rewrite apply_outcome_position by (rewrite Hpos; simpl; lia).
  rewrite Hpos. cbn [sb_entry sb_exit sb_size sb_price andb orb nth].
  replace (0 =?= 0) with true by reflexivity.
  set (y := value L [p] * ALLOCATION / p).
  assert (Hy : y * p == ALLOCATION * cash L)
    by (unfold y, value; rewrite Hpos; simpl; field; lra).
  change (col_req sbin_cfg (mkBar [p] [Num ALLOCATION]) L 0) with (Qty y).
  cbn [bar_price nth].
  pose proof (round_lot_bounds 1 y ltac:(lra)) as [HR1 HR2].
  set (R := round_lot 1 y) in *.
  assert (Hy3 : 3 <= y) by (unfold ALLOCATION in Hy; nra).
  assert (HRp : R * p <= y * p + (1 # 2) * p) by nra.
  rewrite (size_order_buy_exec sbin_cfg sbin_fees y (cash L) 0 p);
    cbn [size_granularity min_size sbin_cfg]; fold R;
    [| lra | lra | lra
     | unfold buy_price, order_fee, sbin_fees, FEES; cbn [fees fixed_fees slippage];
       unfold ALLOCATION in Hy; nra].
  cbn [outcome_qty]. split.
  - rewrite Qplus_0_l. apply round_lot_comp.
    apply (Qmult_inj_r _ _ p); [lra|]. rewrite Hy. field. lra.
  - rewrite Qplus_0_l. nra.
Qed.

Lemma sbin_entry_buys_allocation_witness :
  let L := mkLedger 1000000 [0] [] 0 in
  positions L = [0] /\ 0 < 800 /\ 4 * 800 <= cash L /\
  nth 0 (positions (signal_step sbin_cfg sbin_fees false 0
    (mkSigBar 800 true false (Num ALLOCATION)) L)) 0 == 938.
Proof.
  intros L. assert (H1 : positions L = [0]) by reflexivity.
  assert (H2 : (0 : Q) < 800) by lra. assert (H3 : 4 * 800 <= cash L) by (simpl; lra).
  split; [exact H1|]. split; [exact H2|]. split; [exact H3|].
  rewrite (proj1 (sbin_entry_buys_allocation 0 800 L H1 H2 H3)). reflexivity.
Defined.

(** C11: the SBIN run is a FLAT/OPEN machine on its one position: from
    the ledger after the first [k] bars of the run to the ledger after
    bar [k], the position is unchanged, or it was flat and bar [k] is a
    cleaned entry, or bar [k] is a cleaned exit and the position is
    closed to zero. The run never pyramids and never sells part of a
    position. *)
Theorem sbin_run_flat_or_close (close : list Q) (buy_raw sell_raw : list bool) (k : nat) :
  (k < length close)%nat -> length buy_raw = length close -> length sell_raw = length close ->
  let before := nth 0 (positions (snd (sbin_backtest (firstn k close) buy_raw sell_raw))) 0 in
  let after := nth 0 (positions (snd (sbin_backtest (firstn (S k) close) buy_raw sell_raw))) 0 in
  after == before \/
  (before == 0 /\ nth k (fst (SbinSignals.sbin_signals buy_raw sell_raw)) false = true) \/
  (after == 0 /\ nth k (snd (SbinSignals.sbin_signals buy_raw sell_raw)) false = true).
Proof.
  intros Hk Hb Hs before after. unfold before, after, sbin_backtest.
  pose proof (exrem_from_length false buy_raw sell_raw) as He.
  pose proof (exrem_from_length false sell_raw buy_raw) as Hx.
  unfold SbinSignals.sbin_signals, Exrem.exrem in *. cbn [fst snd].
  set (es := Exrem.exrem_from false buy_raw sell_raw) in *.
  set (xs := Exrem.exrem_from false sell_raw buy_raw) in *.
  rewrite !sig_bars_firstn.
  rewrite (firstn_S_snoc _ k _ (sig_bars_nth close es xs k ltac:(lia) ltac:(lia) ltac:(lia))).
  unfold from_signals. rewrite simulate_snoc.
  apply sbin_step_cases. apply sig_run_width.
Qed.

Lemma sbin_run_flat_or_close_witness :
  let close := [100; 110; 120; 115] in
  let buy := [false; true; false; false] in
  let sell := [false; false; false; true] in
  (3 < length close)%nat /\
  nth 0 (positions (snd (sbin_backtest (firstn 3 close) buy sell))) 0 == 6818 /\
  nth 0 (positions (snd (sbin_backtest (firstn 4 close) buy sell))) 0 == 0 /\
  (let before := nth 0 (positions (snd (sbin_backtest (firstn 3 close) buy sell))) 0 in
   let after := nth 0 (positions (snd (sbin_backtest (firstn 4 close) buy sell))) 0 in
   after == before \/
   (before == 0 /\ nth 3 (fst (SbinSignals.sbin_signals buy sell)) false = true) \/
   (after == 0 /\ nth 3 (snd (SbinSignals.sbin_signals buy sell)) false = true)).
Proof.
  intros close buy sell. split; [cbn; lia|]. split; [vm_compute; reflexivity|].
  split; [vm_compute; reflexivity|].
  exact (sbin_run_flat_or_close close buy sell 3 ltac:(cbn; lia) eq_refl eq_refl).
Defined.

(** C13: the trades the script reports and exports account for all of its
    cash: the cash after the run is the initial cash plus the realized
    P&L of the closed positions plus the cash flow of the open one; and a
    run that ends flat has no open position, and its equity is the initial
    cash plus the P&L of its trades. *)
Theorem sbin_trades_account (close : list Q) (buy_raw sell_raw : list bool) :
  let L := snd (sbin_backtest close buy_raw sell_raw) in
  cash L == INIT_CASH + Σ (closed_pnls (fills L))
            + open_flow (snd (sbin_positions close buy_raw sell_raw)) /\
  (nth 0 (positions L) 0 == 0 ->
   snd (sbin_positions close buy_raw sell_raw) = None /\
   forall p, value L [p] == INIT_CASH + Σ (closed_pnls (fills L))).
Proof.
  unfold sbin_positions, sbin_backtest.
  destruct (SbinSignals.sbin_signals buy_raw sell_raw) as [es xs]. cbv zeta.
  set (L := snd (from_signals _ _ _ _ _)).
  destruct (from_signals_flows sbin_cfg sbin_fees false INIT_CASH (sig_bars close es xs))
    as (Hl & Hc & Hp). fold L in Hl, Hc, Hp.
  destruct (pos_scan_spec None (fills L) ltac:(discriminate)) as (H1 & _ & _).
  cbn [open_flow] in H1. unfold closed_pnls, closed_positions. split; [lra|].
  intros H0. destruct (closed_pnls_flat (fills L) ltac:(lra)) as [Hn Hs].
  unfold closed_pnls, closed_positions in Hs. split; [exact Hn|]. intros p.
  unfold value. destruct (positions L) as [|x [|y ys]]; try discriminate.
  cbn [nth dotQ] in H0 |- *. rewrite H0. lra.
Qed.

Lemma sbin_trades_account_witness :
  let close := [100; 110; 120; 115] in
  let buy := [false; true; false; false] in
  let sell := [false; false; false; true] in
  nth 0 (positions (snd (sbin_backtest close buy sell))) 0 == 0 /\
  value (snd (sbin_backtest close buy sell)) [115]
  == INIT_CASH + Σ (closed_pnls (fills (snd (sbin_backtest close buy sell)))).
Proof.
  intros close buy sell.
  assert (H : nth 0 (positions (snd (sbin_backtest close buy sell))) 0 == 0)
    by (vm_compute; reflexivity).
  split; [exact H|]. exact (proj2 (proj2 (sbin_trades_account close buy sell) H) 115).
Defined.
