(* ===== verification/RsiAccumulation.v ===== *)
(** * RsiAccumulation: niftybees_rsi_accumulation_backtest.py

    Weekly RSI of the NIFTY index ([vbt.RSI], an indicator, taken as the
    given series [rsi_weekly] with its week labels) is shifted by one week
    (line 95), forward-filled onto the 15-minute bars of NIFTYBEES by
    label (line 109), and read on the Friday 15:15 bars (lines 114-119):
    below 68 the bar buys a slab of the initial cash (5%, 10% or 20% by
    RSI band, lines 134-148), above 70 it exits the whole position
    (size [np.inf], lines 133-134, with [accumulate=True], lines 179-192).
    Timestamps are minutes since 1970-01-01 ([Z]); the day of week, hour
    and minute of a bar are computed from them as pandas does.

    The theorems: buy and exit bars are disjoint Friday 15:15 bars; the
    slab sizes; an exit closes the whole position; the RSI a bar reads is
    the one of the week before the latest label not after the bar; and the
    count printed as "No action (RSI 68-70)" also counts the Fridays whose
    RSI is missing. The file also models the loaders ([rsi_bars15],
    [rsi_run]), the weekly resampling ([weekly_close], labels on Fridays),
    what the script prints (the recent RSI markers, slab counts, the
    weekly signal log) and the report series (CAGR figures, daily equity,
    drawdown, the NIFTYBEES and FD benchmarks, the invested amount), with
    theorems that the printed figures agree with the signals: the order
    count is at most the buys plus the exits, each column of the
    benchmark table ([rsi_bench], lines 202-263) reports a total return
    its CAGR compounds to, and every exit signal is acted on at its bar,
    leaving the position flat. The [SLAB_ALLOC] table (lines 27-32),
    which the script declares and never reads, agrees with the amounts
    its sizing loop writes out. *)

From Stdlib Require Import QArith Qround Lqa List Bool Lia ZArith Sorting.Sorted.
From Stdlib Require Import Reals Qreals.
From stdpp Require Import base list.
From S2P Require Import Prelude Panel Sizing Ledger Growth Analytics Benchmarks.
Import ListNotations.
Open Scope Q_scope.
Open Scope bt_scope.

Module RsiConfig.
(** Lines 20-24. *)
Definition INIT_CASH : Q := 1000000.
Definition FEES : Q := 1 # 1000.
Definition RSI_WINDOW : nat := 14.
Definition RSI_BUY_THRESHOLD : Q := 68.
Definition RSI_EXIT_THRESHOLD : Q := 70.
(** Line 189: [freq="15min"], in minutes. *)
Definition FREQ : Z := 15.
End RsiConfig.
Import RsiConfig.

(** A 15-minute bar: its timestamp in minutes since 1970-01-01 00:00
    (pandas' naive [datetime64], the time zone removed at lines 67-68)
    and its close. *)
Record Bar15 := mkBar15 { ts : Z; close15 : Q }.

(** [Timestamp.normalize()] as a day number, [dayofweek] (Monday 0;
    1970-01-01 was a Thursday) and the time of day. *)
Definition day_of (t : Z) : Z := (t / 1440)%Z.
Definition dayofweek (t : Z) : Z := ((day_of t + 3) mod 7)%Z.
Definition hour_of (t : Z) : Z := ((t mod 1440) / 60)%Z.
Definition minute_of (t : Z) : Z := (t mod 60)%Z.

(** [rsi_weekly_prev = rsi_weekly.shift(1)]: same labels, values one week
    later. *)
Definition shift1 {A} (l : list (option A)) : list (option A) :=
  match l with [] => [] | _ => None :: removelast l end.

(** [reindex(index, method="ffill")]: the position of the last label not
    after [t] (labels sorted ascending), none before the first label. *)
Fixpoint asof_from (i : nat) (keys : list Z) (t : Z) (acc : option nat) : option nat :=
  match keys with
  | [] => acc
  | k :: ks => if (k <=? t)%Z then asof_from (S i) ks t (Some i) else acc
  end.

Definition asof (keys : list Z) (t : Z) : option nat := asof_from 0 keys t None.

(** Line 109: the weekly RSI, shifted, read at a bar's time. *)
Definition rsi_at (week_keys : list Z) (rsi_weekly : list (option Q)) (t : Z) : option Q :=
  match asof week_keys t with
  | Some i => nth i (shift1 rsi_weekly) None
  | None => None
  end.

(** Lines 114-119: [is_friday & is_315pm]. *)
Definition friday_315 (b : Bar15) : bool :=
  (dayofweek (ts b) =? 4)%Z && (hour_of (ts b) =? 15)%Z && (minute_of (ts b) =? 15)%Z.

(** Lines 125-131; a comparison with NaN is false. *)
Definition rsi_valid (b : Bar15) (r : option Q) : bool := friday_315 b && negb (is_nan r).

Definition buy_signal (b : Bar15) (r : option Q) : bool :=
  rsi_valid b r && match r with Some v => v <? RSI_BUY_THRESHOLD | None => false end.

Definition exit_signal (b : Bar15) (r : option Q) : bool :=
  rsi_valid b r && match r with Some v => RSI_EXIT_THRESHOLD <? v | None => false end.

(** Lines 138-148: the slab of the initial cash a buy spends. *)
Definition slab_value (v : Q) : Q :=
  if 50 <=? v then INIT_CASH * (5 # 100)
  else if 30 <=? v then INIT_CASH * (10 # 100)
  else INIT_CASH * (20 # 100).

(** Lines 27-32: [SLAB_ALLOC], the dict from RSI bands [(lo, hi)] to the
    fraction of the initial cash a buy spends, in its insertion order.
    The script never reads it: the loop of lines 138-148 writes the
    thresholds and amounts out again. *)
Definition SLAB_ALLOC : list (Z * Z * Q) :=
  [(50, 68, 5 # 100); (30, 50, 10 # 100); (0, 30, 20 # 100)]%Z.

(** The band of a table an RSI value falls in, a band [(lo, hi)] read as
    [lo <= v < hi]: the reading of [SLAB_ALLOC] its comments give. *)
Fixpoint slab_lookup (tbl : list (Z * Z * Q)) (v : Q) : option Q :=
  match tbl with
  | [] => None
  | (lo, hi, f) :: rest =>
      if (inject_Z lo <=? v) && (v <? inject_Z hi) then Some f else slab_lookup rest v
  end.

(** Lines 133-148: [size_arr], [np.inf] except on buy bars. *)
Definition size_at (b : Bar15) (r : option Q) : Size :=
  if buy_signal b r then
    match r with Some v => Num (slab_value v) | None => PosInf end
  else PosInf.

(** The signal bars the script hands to [from_signals]. *)
Definition rsi_sig_bars (week_keys : list Z) (rsi_weekly : list (option Q)) (bars : list Bar15)
    : list SigBar :=
  map (fun b => let r := rsi_at week_keys rsi_weekly (ts b) in
                mkSigBar (close15 b) (buy_signal b r) (exit_signal b r) (size_at b r)) bars.

(** [size_type="value", direction="longonly", min_size=1,
    size_granularity=1], [fees=FEES] *)
Definition rsi_cfg : SizingConfig := mkSizingConfig SizeValue 1 1 LongOnly.
Definition rsi_fees : FeeModel := mkFeeModel FEES 0 0.

(** Lines 179-192 ([accumulate=True]). *)
Definition rsi_backtest (week_keys : list Z) (rsi_weekly : list (option Q)) (bars : list Bar15)
    : list Q * Ledger :=
  from_signals rsi_cfg rsi_fees true INIT_CASH (rsi_sig_bars week_keys rsi_weekly bars).

(** Lines 120-121: [total_fridays = friday_315.sum()]. *)
Definition total_fridays (bars : list Bar15) : nat :=
  length (List.filter friday_315 bars).

(** Lines 150-152: the printed counts. *)
Definition rsi_counts (week_keys : list Z) (rsi_weekly : list (option Q)) (bars : list Bar15)
    : nat * nat * nat :=
  let rs := map (fun b => (b, rsi_at week_keys rsi_weekly (ts b))) bars in
  let fridays := length (List.filter (fun '(b, _) => friday_315 b) rs) in
  let buys := length (List.filter (fun '(b, r) => buy_signal b r) rs) in
  let exits := length (List.filter (fun '(b, r) => exit_signal b r) rs) in
  (buys, exits, fridays - buys - exits)%nat.

(** The signal bar of one 15-minute bar, as [rsi_sig_bars] builds it. *)
Definition rsi_sig_bar (week_keys : list Z) (rsi_weekly : list (option Q)) (b : Bar15) : SigBar :=
  let r := rsi_at week_keys rsi_weekly (ts b) in
  mkSigBar (close15 b) (buy_signal b r) (exit_signal b r) (size_at b r).

(** Fridays with an RSI in the band where nothing is done. *)
Definition hold_band (r : option Q) : bool :=
  match r with Some v => (RSI_BUY_THRESHOLD <=? v) && (v <=? RSI_EXIT_THRESHOLD) | None => false end.

(** The [W-FRI] label of a daily timestamp (midnight): the Friday on or
    after its day, at midnight. *)
Definition week_fri (t : Z) : Z := ((day_of t + (1 - day_of t) mod 7) * 1440)%Z.

(** Line 87: [df_nifty["close"].resample("W-FRI").last().dropna()]. *)
Definition weekly_close (daily : list (Z * Q)) : list (Z * Q) := resample_last week_fri daily.

(** Lines 87-109 end to end: the weekly closes, the RSI indicator
    [rsi_fn] on them (line 90, taken as given) and the run. *)
Definition rsi_pipeline (rsi_fn : list Q -> list (option Q)) (daily : list (Z * Q))
    (bars : list Bar15) : list Q * Ledger :=
  let wc := weekly_close daily in
  rsi_backtest (map fst wc) (rsi_fn (map snd wc)) bars.

(** Lines 54-69 and 111: the 15-minute history indexed and sorted by
    its timestamps (the time zone removed, lines 66-68) and the bars. *)
Definition rsi_bars15 (hist : list (Z * Q)) : list Bar15 :=
  map (fun '(t, c) => mkBar15 t c) (sort_index hist).

(** Lines 71-90 end to end: the daily NIFTY history sorted (line 82),
    the weekly closes, the RSI and the run on the 15-minute bars. *)
Definition rsi_run (rsi_fn : list Q -> list (option Q)) (daily_hist hist15 : list (Z * Q))
    : list Q * Ledger :=
  rsi_pipeline rsi_fn (sort_index daily_hist) (rsi_bars15 hist15).

(** ** What the script prints *)

(** Lines 98-105: the marker of a recent weekly RSI value. *)
Inductive Marker := NoMarker | BuyZone | ExitZone.

Definition rsi_marker (v : Q) : Marker :=
  if v <? RSI_BUY_THRESHOLD then BuyZone
  else if RSI_EXIT_THRESHOLD <? v then ExitZone
  else NoMarker.

(** [rsi_weekly.dropna().tail(10)] with the markers. *)
Definition recent_rsi (wk : list Z) (rs : list (option Q)) : list (Z * Q * Marker) :=
  let vals := flat_map (fun '(k, r) => match r with Some v => [(k, v, rsi_marker v)] | None => [] end)
                       (combine wk rs) in
  skipn (length vals - 10) vals.

(** Lines 137-148: the number of buys in each slab (5%, 10%, 20%). *)
Definition slab_counts (wk : list Z) (rs : list (option Q)) (bars : list Bar15) : nat * nat * nat :=
  fold_left (fun '(a, b, c) bar =>
               let r := rsi_at wk rs (ts bar) in
               if buy_signal bar r then
                 match r with
                 | Some v => if 50 <=? v then (S a, b, c) else if 30 <=? v then (a, S b, c) else (a, b, S c)
                 | None => (a, b, c)
                 end
               else (a, b, c))
            bars (0, 0, 0)%nat.

(** Lines 160-174: the weekly signal log, one row per Friday 15:15 bar
    with an RSI ([continue] on NaN). *)
Inductive Action := ActBuy (pct : Q) | ActExit | ActHold.

Definition log_row (wk : list Z) (rs : list (option Q)) (b : Bar15) : list (Z * Q * Q * Action) :=
  if friday_315 b then
    match rsi_at wk rs (ts b) with
    | None => []
    | Some v =>
        let r := Some v in
        [(ts b, v, close15 b,
          if buy_signal b r then
            ActBuy (match size_at b r with Num q => q / INIT_CASH * 100 | _ => 0 end)
          else if exit_signal b r then ActExit else ActHold)]
    end
  else [].

Definition signal_log (wk : list Z) (rs : list (option Q)) (bars : list Bar15)
    : list (Z * Q * Q * Action) :=
  flat_map (log_row wk rs) bars.

Definition is_hold (row : Z * Q * Q * Action) : bool :=
  match row with (_, _, _, ActHold) => true | _ => false end.

(** ** Benchmarks and daily series (lines 202-231, 268-281, 341-342) *)

(** [(close_15m.index[-1] - close_15m.index[0]).days] *)
Definition span_days15 (bars : list Bar15) : Z :=
  match bars with
  | [] => 0%Z
  | b0 :: _ => ((ts (List.last bars b0) - ts b0) / 1440)%Z
  end.

(** Lines 223-224: [nifty_start], the first daily NIFTY close on or after
    the first bar's day, and [nifty_end], the last one; [None] where the
    selection is empty and [iloc[0]] raises. *)
Definition nifty_ends (daily : list (Z * Q)) (b0 : Bar15) : option (Q * Q) :=
  match List.find (fun '(t, _) => (day_of (ts b0) * 1440 <=? t)%Z) daily with
  | None => None
  | Some (_, n0) => Some (n0, snd (List.last daily (0%Z, 0)))
  end.

(** Lines 202-263: the key metrics and the benchmark table, one column for
    the strategy, the NIFTYBEES buy and hold (its closes, no fee), the
    NIFTY 50 index and the FD ("-" cells are [None], the FD's maximum
    drawdown is the literal "0.00%" of line 260; the strategy's Sortino
    ratio is printed with the key metrics, line 213, the table has no
    Sortino row). [None] where [iloc[0]] of an empty selection raises. *)
Record RsiBench := mkRsiBench {
  rb_strategy : BenchCol; rb_niftybees : BenchCol; rb_nifty50 : BenchCol; rb_fd : BenchCol
}.

Definition rsi_bench (daily : list (Z * Q)) (bars : list Bar15) (equity : list Q)
    : option RsiBench :=
  match bars with
  | [] => None
  | b0 :: _ =>
      let y := years_between (Z.to_nat (span_days15 bars)) in
      let p0 := close15 b0 in
      let p1 := close15 (List.last bars b0) in
      match nifty_ends daily b0 with
      | None => None
      | Some (n0, n1) =>
          let fdf := fd_final (Q2R INIT_CASH) y in
          Some (mkRsiBench
                  (bench_col (ann_factor FREQ)
                     (calc_cagr (Q2R INIT_CASH) (Q2R (List.last equity 0)) y) equity)
                  (mkBenchCol (calc_cagr (Q2R p0) (Q2R p1) y) (Some (Q2R (p1 / p0 - 1))) None None
                     None None)
                  (mkBenchCol (calc_cagr (Q2R n0) (Q2R n1) y) (Some (Q2R (n1 / n0 - 1))) None None
                     None None)
                  (mkBenchCol FD_CAGR (Some (fdf / Q2R INIT_CASH - 1)%R) (Some 0%R) (Some fdf)
                     None None))
      end
  end.

(** Line 216: [pf.orders.count()]. *)
Definition rsi_total_orders (week_keys : list Z) (rsi_weekly : list (option Q))
    (bars : list Bar15) : nat :=
  length (fills (snd (rsi_backtest week_keys rsi_weekly bars))).

(** The day label of [resample("D")]. *)
Definition day_label (t : Z) : Z := (day_of t * 1440)%Z.

(** Line 268: [equity.resample("D").last().dropna()]. *)
Definition equity_daily (bars : list Bar15) (equity : list Q) : list (Z * Q) :=
  resample_last day_label (combine (map ts bars) equity).

(** Lines 269-270. *)
Definition drawdown_daily (bars : list Bar15) (equity : list Q) : list Q :=
  drawdown (map snd (equity_daily bars equity)).

(** Lines 280-281: NIFTYBEES buy and hold, scaled to the initial cash. *)
Definition niftybees_bh_equity (bars : list Bar15) : list (Z * Q) :=
  let nd := resample_last day_label (map (fun b => (ts b, close15 b)) bars) in
  match nd with
  | [] => []
  | (_, p0) :: _ => map (fun '(k, p) => (k, INIT_CASH * (p / p0))) nd
  end.

(** Lines 272-277: the FD curve over the days of [equity_daily]. *)
Definition rsi_fd_equity (bars : list Bar15) (equity : list Q) : list R :=
  fd_equity (Q2R INIT_CASH) (length (equity_daily bars equity)).

(** Lines 317-318: the weekly RSI plotted, from the first 15-minute bar
    on; [None] where [close_15m.index[0]] of no bars raises. *)
Definition rsi_plot (wk : list Z) (rs : list (option Q)) (bars : list Bar15)
    : option (list (Z * Q)) :=
  let vals := flat_map (fun '(k, r) => match r with Some v => [(k, v)] | None => [] end)
                       (combine wk rs) in
  match bars with
  | [] => None
  | b0 :: _ => Some (List.filter (fun '(k, _) => (ts b0 <=? k)%Z) vals)
  end.

(** Line 341: [cash = pf.cash().resample("D").last().dropna()], the cash
    after each bar, resampled to days. *)
Definition cash_daily (wk : list Z) (rs : list (option Q)) (bars : list Bar15) : list (Z * Q) :=
  let states := sim_states (signal_step rsi_cfg rsi_fees true) 0 (rsi_sig_bars wk rs bars)
                  (init_ledger INIT_CASH 1) in
  resample_last day_label (combine (map ts bars) (map cash states)).

(** Line 342: [invested = equity_daily - cash.reindex(equity_daily.index).ffill()];
    both series are resampled from the same bars, so the reindex keeps
    every day. *)
Definition invested_daily (wk : list Z) (rs : list (option Q)) (bars : list Bar15) : list (Z * Q) :=
  let eq := equity_daily bars (fst (rsi_backtest wk rs bars)) in
  map (fun '((k, e), (_, c)) => (k, e - c)) (combine eq (cash_daily wk rs bars)).

(** ** Lemmas *)

Lemma rsi_sig_bars_map (wk : list Z) (rs : list (option Q)) (bars : list Bar15) :
  rsi_sig_bars wk rs bars = map (rsi_sig_bar wk rs) bars.
Proof. reflexivity. Qed.

Lemma buy_exit_exclusive (b : Bar15) (r : option Q) :
  buy_signal b r = true -> exit_signal b r = false.
Proof.
  unfold buy_signal, exit_signal. destruct r as [v|]; [|rewrite andb_false_r; discriminate].
  rewrite !andb_true_iff. intros [_ H]. apply Qltb_iff in H.
  apply andb_false_iff. right. apply Qltb_false. unfold RSI_BUY_THRESHOLD, RSI_EXIT_THRESHOLD in *. lra.
Qed.

Lemma nth_removelast_some {A} (l : list (option A)) (i : nat) (v : A) :
  nth i (removelast l) None = Some v -> nth i l None = Some v.
Proof.
  revert i; induction l as [|x l IH]; intros i H; [destruct i; discriminate|].
  destruct l as [|y l]; [destruct i; discriminate|].
  destruct i; simpl in *; [exact H | apply IH; exact H].
Qed.

Lemma nth_shift1_some {A} (l : list (option A)) (j : nat) (v : A) :
  nth j (shift1 l) None = Some v -> exists i, j = S i /\ nth i l None = Some v.
Proof.
  destruct l as [|x l]; [destruct j; discriminate|].
  destruct j as [|i]; [discriminate|]. intros H. simpl in H. exists i.
  split; [reflexivity | apply nth_removelast_some; exact H].
Qed.

Lemma asof_from_spec (i : nat) (keys : list Z) (t : Z) (acc : option nat) (j : nat) :
  asof_from i keys t acc = Some j ->
  acc = Some j \/ (i <= j /\ (nth (j - i) keys 0 <= t)%Z)%nat.
Proof.
  revert i acc; induction keys as [|k ks IH]; intros i acc H; simpl in H; [left; exact H|].
  destruct (k <=? t)%Z eqn:Ek; [|left; exact H].
  destruct (IH (S i) (Some i) H) as [E | [Hle Hk]].
  - injection E as <-. right. rewrite Nat.sub_diag. split; [lia|]. apply Z.leb_le, Ek.
  - right. split; [lia|]. replace (j - i)%nat with (S (j - S i)) by lia. exact Hk.
Qed.

Lemma asof_label_le (keys : list Z) (t : Z) (j : nat) :
  asof keys t = Some j -> (nth j keys 0 <= t)%Z.
Proof.
  unfold asof. intros H. destruct (asof_from_spec 0 keys t None j H) as [E | [_ Hk]];
    [discriminate | rewrite Nat.sub_0_r in Hk; exact Hk].
Qed.

(** Counting four disjoint kinds of Fridays. *)
Lemma length_filter_split4 {A} (F B E N H : A -> bool) (l : list A) :
  (forall x, Nat.b2n (F x) = (Nat.b2n (B x) + Nat.b2n (E x) + Nat.b2n (N x) + Nat.b2n (H x))%nat) ->
  length (List.filter F l)
  = (length (List.filter B l) + length (List.filter E l)
     + length (List.filter N l) + length (List.filter H l))%nat.
Proof.
  intros Hx. induction l as [|a l IH]; simpl; [reflexivity|].
  specialize (Hx a). destruct (F a), (B a), (E a), (N a), (H a); simpl in *; lia.
Qed.

(** A long-only exit of the whole position, at a positive price, with the
    script's fees, leaves the position at zero. *)
Lemma exit_all_closes (cfg : SizingConfig) (fm : FeeModel) (t : nat) (p : Q) (L : Ledger) :
  length (positions L) = 1%nat -> 0 <= cash L -> 0 < p -> 0 <= fees fm <= 1 ->
  fixed_fees fm == 0 -> slippage fm == 0 -> min_size cfg <= nth 0 (positions L) 0 -> 0 < nth 0 (positions L) 0 ->
  nth 0 (positions (exec_col cfg fm t (mkBar [p] [NegInf]) L 0)) 0 == 0.
Proof.
  intros Hl Hc Hp Hf Hx Hs Hm Hpos. unfold exec_col.
  rewrite apply_outcome_position by (rewrite Hl; lia).
  unfold col_req. simpl. unfold size_order. simpl.
  rewrite settle_sell_executes; try assumption.
  - simpl. ring.
  - unfold sell_price. rewrite Hs. lra.
Qed.

(** ** Theorems *)

(** C10: buy and exit signals of the RSI script fire only on Friday 15:15
    bars and never on the same bar, so [from_signals] never meets an
    entry/exit conflict. *)
Theorem rsi_signals_exclusive (b : Bar15) (r : option Q) :
  buy_signal b r && exit_signal b r = false /\
  (buy_signal b r = true -> friday_315 b = true) /\
  (exit_signal b r = true -> friday_315 b = true).
Proof.
  split; [|split].
  - destruct (buy_signal b r) eqn:E; [apply buy_exit_exclusive, E | reflexivity].
  - unfold buy_signal, rsi_valid. rewrite !andb_true_iff. tauto.
  - unfold exit_signal, rsi_valid. rewrite !andb_true_iff. tauto.
Qed.

(** C9: the slab sizes: a buy bar spends 5% of the initial cash when the
    RSI is in [50, 68), 10% in [30, 50) and 20% below 30, so a lower RSI
    never buys less; every other bar carries the [np.inf] size. *)
Theorem rsi_slab_sizes (b : Bar15) (r : option Q) :
  (buy_signal b r = false -> size_at b r = PosInf) /\
  (buy_signal b r = true ->
   exists v, r = Some v /\ v < RSI_BUY_THRESHOLD /\ size_at b r = Num (slab_value v) /\
     ((50 <= v /\ slab_value v == 50000) \/
      (30 <= v < 50 /\ slab_value v == 100000) \/
      (v < 30 /\ slab_value v == 200000))) /\
  (forall v1 v2, v1 <= v2 -> slab_value v2 <= slab_value v1).
Proof.
  split; [|split].
  - unfold size_at. intros ->. reflexivity.
  - intros H. unfold size_at. rewrite H.
    unfold buy_signal in H. destruct r as [v|]; [|rewrite andb_false_r in H; discriminate].
    apply andb_true_iff in H as [_ H]. apply Qltb_iff in H.
    exists v. split; [reflexivity|]. split; [exact H|]. split; [reflexivity|].
    unfold slab_value, INIT_CASH. case_cmp; [left; split; [assumption|reflexivity]|].
    case_cmp; [right; left; split; [lra|reflexivity] | right; right; split; [lra|reflexivity]].
  - intros v1 v2 Hv. unfold slab_value, INIT_CASH. repeat case_cmp; lra.
Qed.

(** C24: the amounts written out in the sizing loop (lines 138-148) are
    those of the [SLAB_ALLOC] table (lines 27-32): every RSI a buy can
    have, [0 <= v < 68], lies in exactly one band of the table, and the
    loop spends that band's fraction of the initial cash. *)
Theorem slab_alloc_agrees (v : Q) :
  0 <= v < RSI_BUY_THRESHOLD ->
  exists f, slab_lookup SLAB_ALLOC v = Some f /\ slab_value v == INIT_CASH * f /\
    length (List.filter (fun '(lo, hi, _) => (inject_Z lo <=? v) && (v <? inject_Z hi))
              SLAB_ALLOC) = 1%nat.
Proof.
  intros [H0 H1]. unfold RSI_BUY_THRESHOLD in H1.
  unfold slab_lookup, SLAB_ALLOC, slab_value, INIT_CASH; cbv [inject_Z]; cbn [List.filter].
  repeat destruct_cmp; cbn [andb length]; try lra;
    (eexists; split; [reflexivity | split; [ring | reflexivity]]).
Qed.

Lemma slab_alloc_agrees_witness :
  (0 <= 40 < RSI_BUY_THRESHOLD) /\ slab_lookup SLAB_ALLOC 40 = Some (10 # 100) /\
  slab_value 40 == INIT_CASH * (10 # 100).
Proof.
  assert (H : 0 <= 40 < RSI_BUY_THRESHOLD) by (unfold RSI_BUY_THRESHOLD; lra).
  destruct (slab_alloc_agrees 40 H) as (f & Hf & Hv & _).
  assert (E : f = 10 # 100) by (vm_compute in Hf; congruence). subst f.
  split; [exact H | split; [exact Hf | exact Hv]].
Defined.

(** An exit bar leaves the script flat from any state whose position is
    none or at least one share: it sells everything, or has nothing to
    sell. *)
Lemma rsi_exit_step_zero (wk : list Z) (rs : list (option Q)) (b : Bar15) (t : nat) (L : Ledger) :
  exit_signal b (rsi_at wk rs (ts b)) = true ->
  length (positions L) = 1%nat -> 0 <= cash L -> 0 < close15 b ->
  nth 0 (positions L) 0 == 0 \/ 1 <= nth 0 (positions L) 0 ->
  nth 0 (positions (signal_step rsi_cfg rsi_fees true t (rsi_sig_bar wk rs b) L)) 0 == 0.
Proof.
  intros Hx Hl Hc Hp Hpos.
  assert (Hb : buy_signal b (rsi_at wk rs (ts b)) = false).
  { destruct (buy_signal _ _) eqn:E; [|reflexivity].
    rewrite (buy_exit_exclusive _ _ E) in Hx. discriminate. }
  unfold signal_step, rsi_sig_bar. simpl. rewrite Hb, Hx.
  unfold size_at. rewrite Hb. unfold signal_size. simpl.
  destruct (0 <? nth 0 (positions L) 0) eqn:E; apply Qltb_false in E || apply Qltb_iff in E.
  - apply exit_all_closes; try assumption; simpl; try reflexivity; unfold FEES; try lra.
  - unfold exec_col, col_req. simpl. destruct Hpos; lra.
Qed.

(** C7: no lookahead in the RSI a bar reads: a value read at time [t] is
    the RSI of some week [i] while the label of week [i+1] is already at
    or before [t]. On a Friday 15:15 bar that label is the bar's own
    Friday, whose weekly close is still to come, so the RSI used is that
    of the previous, completed week. *)
Theorem rsi_reads_previous_week (wk : list Z) (rs : list (option Q)) (t : Z) (v : Q) :
  rsi_at wk rs t = Some v ->
  exists i, asof wk t = Some (S i) /\ nth i rs None = Some v /\ (nth (S i) wk 0 <= t)%Z.
Proof.
  unfold rsi_at. destruct (asof wk t) as [j|] eqn:E; [|discriminate].
  intros H. destruct (nth_shift1_some rs j v H) as [i [-> Hi]].
  exists i. split; [reflexivity|]. split; [exact Hi|]. exact (asof_label_le _ _ _ E).
Qed.

Lemma rsi_reads_previous_week_witness :
  let wk := [28406880; 28416960; 28427040]%Z in
  let rs := [Some 60; Some 25; Some 75] in
  rsi_at wk rs 28427955%Z = Some 25 /\
  exists i, asof wk 28427955%Z = Some (S i) /\ nth i rs None = Some 25 /\
    (nth (S i) wk 0 <= 28427955)%Z.
Proof.
  intros wk rs.
  assert (H : rsi_at wk rs 28427955%Z = Some 25) by reflexivity.
  split; [exact H | exact (rsi_reads_previous_week wk rs _ _ H)].
Defined.

(** C8: the count the script prints as "No action (RSI 68-70)" is the
    number of Friday 15:15 bars whose RSI is in [68, 70] plus the number
    of those whose RSI is missing (the warm-up weeks), not the first
    alone. *)
Theorem rsi_no_action_counts (wk : list Z) (rs : list (option Q)) (bars : list Bar15) :
  let '(_, _, no_action) := rsi_counts wk rs bars in
  no_action =
    (length (List.filter (fun b => friday_315 b && is_nan (rsi_at wk rs (ts b))) bars)
     + length (List.filter (fun b => friday_315 b && hold_band (rsi_at wk rs (ts b))) bars))%nat.
Proof.
  unfold rsi_counts.
  set (rs' := map (fun b => (b, rsi_at wk rs (ts b))) bars).
  rewrite (length_filter_split4 (fun '(b, _) => friday_315 b) (fun '(b, r) => buy_signal b r)
            (fun '(b, r) => exit_signal b r) (fun '(b, r) => friday_315 b && is_nan r)
            (fun '(b, r) => friday_315 b && hold_band r)).
  - unfold rs'. rewrite !filter_map_swap, !length_map. lia.
  - intros [b r]. unfold buy_signal, exit_signal, rsi_valid, hold_band.
    destruct (friday_315 b), r as [v|]; simpl; try reflexivity.
    unfold RSI_BUY_THRESHOLD, RSI_EXIT_THRESHOLD.
    destruct (v <? 68) eqn:E1, (70 <? v) eqn:E2, (68 <=? v) eqn:E3, (v <=? 70) eqn:E4;
      simpl; try reflexivity; reflect_cmp; lra.
Qed.

Lemma week_fri_spec (t : Z) :
  dayofweek (week_fri t) = 4%Z /\ hour_of (week_fri t) = 0%Z /\ minute_of (week_fri t) = 0%Z /\
  (day_of t <= day_of (week_fri t) < day_of t + 7)%Z.
Proof.
  unfold dayofweek, hour_of, minute_of, week_fri, day_of.
  set (D := (t / 1440)%Z). set (m := ((1 - D) mod 7)%Z).
  assert (Hm : (0 <= m < 7)%Z) by (unfold m; apply Z.mod_pos_bound; lia).
  assert (Hdiv : ((D + m) * 1440 / 1440 = D + m)%Z) by (apply Z.div_mul; lia).
  rewrite Hdiv.
  split.
  { unfold m. pose proof (Z.mod_pos_bound (1 - D) 7 ltac:(lia)).
    pose proof (Z.div_mod (1 - D) 7 ltac:(lia)).
    pose proof (Z.mod_pos_bound (D + (1 - D) mod 7 + 3) 7 ltac:(lia)).
    pose proof (Z.div_mod (D + (1 - D) mod 7 + 3) 7 ltac:(lia)). lia. }
  split; [rewrite Z.mod_mul by lia; reflexivity|].
  split; [|lia].
  replace ((D + m) * 1440)%Z with (((D + m) * 24) * 60)%Z by lia.
  rewrite Z.mod_mul by lia. reflexivity.
Qed.

(** Every row of the weekly close series (line 87) is labelled by a
    Friday at midnight, and every daily close belongs to the week of the
    first Friday on or after its day. *)
Theorem weekly_close_fridays (daily : list (Z * Q)) :
  Forall (fun '(k, _) => dayofweek k = 4%Z /\ hour_of k = 0%Z /\ minute_of k = 0%Z)
    (weekly_close daily) /\
  Forall (fun '(t, _) => (day_of t <= day_of (week_fri t) < day_of t + 7)%Z) daily.
Proof.
  split; apply List.Forall_forall; intros [k v] Hin.
  - apply resample_last_values in Hin as (t & _ & ->).
    destruct (week_fri_spec t) as (H1 & H2 & H3 & _). auto.
  - apply week_fri_spec.
Qed.

(** The weekly RSI table (lines 98-105) marks a value [BUY ZONE]
    exactly when a Friday 15:15 bar reading it buys, and [EXIT ZONE]
    exactly when such a bar exits. *)
Theorem rsi_marker_agrees (b : Bar15) (v : Q) :
  friday_315 b = true ->
  (rsi_marker v = BuyZone <-> buy_signal b (Some v) = true) /\
  (rsi_marker v = ExitZone <-> exit_signal b (Some v) = true).
Proof.
  intros Hf. unfold rsi_marker, buy_signal, exit_signal, rsi_valid. rewrite Hf. simpl.
  unfold RSI_BUY_THRESHOLD, RSI_EXIT_THRESHOLD.
  destruct (v <? 68) eqn:E1, (70 <? v) eqn:E2; reflect_cmp;
    (split; split; intros H; try discriminate; try reflexivity; exfalso; lra).
Qed.

Lemma rsi_marker_agrees_witness :
  friday_315 (mkBar15 28417875 220) = true /\ rsi_marker 25 = BuyZone /\
  buy_signal (mkBar15 28417875 220) (Some 25) = true.
Proof.
  assert (H : friday_315 (mkBar15 28417875 220) = true) by reflexivity.
  split; [exact H|]. split; [reflexivity|].
  apply (proj1 (proj1 (rsi_marker_agrees _ 25 H))). reflexivity.
Defined.

Lemma buy_signal_none (b : Bar15) : buy_signal b None = false.
Proof. unfold buy_signal. apply andb_false_r. Qed.

(** The slab breakdown the script prints (lines 137-158) accounts for
    every buy: the three slab counts add up to the number of buy bars. *)
Theorem slab_counts_total (wk : list Z) (rs : list (option Q)) (bars : list Bar15) :
  let '(a, b, c) := slab_counts wk rs bars in
  (a + b + c = length (List.filter (fun bar => buy_signal bar (rsi_at wk rs (ts bar))) bars))%nat.
Proof.
  unfold slab_counts.
  enough (H : forall a0 b0 c0,
            let '(a, b, c) := fold_left _ bars (a0, b0, c0) in
            (a + b + c = a0 + b0 + c0 +
               length (List.filter (fun bar => buy_signal bar (rsi_at wk rs (ts bar))) bars))%nat)
    by exact (H 0 0 0)%nat.
  induction bars as [|bar bars IH]; intros a0 b0 c0; simpl; [lia|].
  destruct (buy_signal bar (rsi_at wk rs (ts bar))) eqn:E; [|apply IH].
  destruct (rsi_at wk rs (ts bar)) as [v|]; [|rewrite buy_signal_none in E; discriminate].
  simpl. destruct (50 <=? v); [|destruct (30 <=? v)];
    match goal with |- context [fold_left _ bars ?acc] =>
      destruct acc as [[a1 b1] c1] eqn:Eacc end;
    specialize (IH a1 b1 c1); destruct (fold_left _ bars _) as [[a b] c];
    injection Eacc as <- <- <-; lia.
Qed.

Lemma hold_band_signals (b : Bar15) (v : Q) :
  friday_315 b = true ->
  negb (buy_signal b (Some v)) && negb (exit_signal b (Some v)) = hold_band (Some v).
Proof.
  intros Hf. unfold buy_signal, exit_signal, rsi_valid, hold_band. rewrite Hf. simpl.
  unfold RSI_BUY_THRESHOLD, RSI_EXIT_THRESHOLD.
  destruct (v <? 68) eqn:E1, (70 <? v) eqn:E2, (68 <=? v) eqn:E3, (v <=? 70) eqn:E4;
    simpl; try reflexivity; reflect_cmp; lra.
Qed.

(** The weekly signal log (lines 160-174) has one row per Friday 15:15
    bar with an RSI, and its HOLD rows are exactly the Fridays whose RSI
    lies in [68, 70]: the log and the printed "No action" count disagree
    by the Fridays without an RSI. *)
Theorem signal_log_rows (wk : list Z) (rs : list (option Q)) (bars : list Bar15) :
  length (signal_log wk rs bars)
  = length (List.filter (fun b => friday_315 b && negb (is_nan (rsi_at wk rs (ts b)))) bars) /\
  length (List.filter is_hold (signal_log wk rs bars))
  = length (List.filter (fun b => friday_315 b && hold_band (rsi_at wk rs (ts b))) bars).
Proof.
  unfold signal_log. induction bars as [|b bars [IH1 IH2]]; [split; reflexivity|].
  cbn [flat_map List.filter]. rewrite List.filter_app, !length_app, IH1, IH2.
  unfold log_row. destruct (friday_315 b) eqn:Hf; [|split; reflexivity].
  destruct (rsi_at wk rs (ts b)) as [v|] eqn:Hr; [|split; reflexivity].
  rewrite <- (hold_band_signals b v Hf).
  destruct (buy_signal b (Some v)), (exit_signal b (Some v)); simpl; split; reflexivity.
Qed.


Lemma nifty_ends_pos (daily : list (Z * Q)) (b0 : Bar15) (n0 n1 : Q) :
  Forall (fun p => 0 < snd p) daily -> nifty_ends daily b0 = Some (n0, n1) -> 0 < n0 /\ 0 < n1.
Proof.
  intros Hd H. unfold nifty_ends in H.
  destruct (List.find _ daily) as [[t m]|] eqn:E; [|discriminate]. injection H as <- <-.
  apply List.find_some in E as [Hin _]. rewrite List.Forall_forall in Hd.
  split; [exact (Hd _ Hin)|]. destruct daily as [|p ps]; [destruct Hin|].
  rewrite (last_cons_default p ps (0%Z, 0) p). exact (Hd _ (last_In_cons p ps)).
Qed.

(** C23: the benchmark table of the RSI script (lines 218-263) agrees with
    itself: in the NIFTYBEES, NIFTY 50 and FD columns the total return
    printed is the CAGR printed compounded over the table's years. *)
Theorem rsi_bench_consistent (daily : list (Z * Q)) (bars : list Bar15) (equity : list Q)
    (B : RsiBench) :
  rsi_bench daily bars equity = Some B ->
  Forall (fun bar => 0 < close15 bar) bars -> Forall (fun p => 0 < snd p) daily ->
  (0 < span_days15 bars)%Z ->
  forall col, In col [rb_niftybees B; rb_nifty50 B; rb_fd B] ->
  exists tr, bc_total col = Some tr /\
    Rpower (1 + bc_cagr col) (years_between (Z.to_nat (span_days15 bars))) = (1 + tr)%R.
Proof.
  intros H Hp Hd Hs col Hcol. destruct bars as [|b0 bs]; [discriminate|].
  assert (Hy : (0 < years_between (Z.to_nat (span_days15 (b0 :: bs))))%R)
    by (apply years_between_pos; lia).
  unfold rsi_bench in H. destruct (nifty_ends daily b0) as [[n0 n1]|] eqn:En; [|discriminate].
  destruct (nifty_ends_pos daily b0 n0 n1 Hd En) as [Hn0 Hn1].
  injection H as <-. rewrite List.Forall_forall in Hp.
  cbn [rb_niftybees rb_nifty50 rb_fd In] in Hcol.
  destruct Hcol as [<- | [<- | [<- | []]]]; eexists; (split; [reflexivity|]); cbn [bc_cagr].
  - apply cagr_ratio_total; [apply Hp; now left | apply Hp, last_In_cons | exact Hy].
  - apply cagr_ratio_total; assumption.
  - apply fd_column. apply Q2R_pos. unfold INIT_CASH. lra.
Qed.

Lemma rsi_bench_consistent_witness :
  let daily : list (Z * Q) := [(28416960%Z, 21000); (28437120%Z, 21500)] in
  let bars := [mkBar15 28417875 220; mkBar15 28438035 230] in
  exists B, rsi_bench daily bars [1000000; 1010000] = Some B /\
    Forall (fun bar => 0 < close15 bar) bars /\ Forall (fun p => 0 < snd p) daily /\
    (0 < span_days15 bars)%Z /\
    exists tr, bc_total (rb_nifty50 B) = Some tr /\
      Rpower (1 + bc_cagr (rb_nifty50 B)) (years_between (Z.to_nat (span_days15 bars))) = (1 + tr)%R.
Proof.
  intros daily bars. eexists. split; [reflexivity|].
  assert (Hf : Forall (fun bar => 0 < close15 bar) bars)
    by (repeat constructor; apply Qltb_iff; reflexivity).
  assert (Hd : Forall (fun p => 0 < snd p) daily)
    by (repeat constructor; apply Qltb_iff; reflexivity).
  assert (Hs : (0 < span_days15 bars)%Z) by reflexivity.
  split; [exact Hf|]. split; [exact Hd|]. split; [exact Hs|].
  apply (rsi_bench_consistent daily bars [1000000; 1010000] _ eq_refl Hf Hd Hs).
  right; left; reflexivity.
Defined.

(** The "Total Orders" of the key metrics (line 216) never exceeds
    the buy and exit signals the script counts and prints (lines 150-152):
    every order of the run comes from one signal bar, and a signal bar
    places at most one order. *)
Theorem rsi_orders_bounded (wk : list Z) (rs : list (option Q)) (bars : list Bar15) :
  let '(buys, exits, _) := rsi_counts wk rs bars in
  (rsi_total_orders wk rs bars <= buys + exits)%nat.
Proof.
  unfold rsi_counts, rsi_total_orders, rsi_backtest. cbv zeta.
  etransitivity; [apply from_signals_orders|].
  unfold rsi_sig_bars. rewrite !length_filter_map. cbn [sb_entry sb_exit].
  etransitivity; [apply (length_filter_orb (fun b => buy_signal b (rsi_at wk rs (ts b)))
                                          (fun b => exit_signal b (rsi_at wk rs (ts b))))|].
  reflexivity.
Qed.

Lemma rsi_orders_bounded_witness :
  let wk := [28406880%Z; 28416960%Z; 28427040%Z] in
  let rs := [Some 40; Some 75; Some 40] in
  let bars := [mkBar15 28417875 220; mkBar15 28427955 225; mkBar15 28438035 230] in
  rsi_total_orders wk rs bars = 2%nat /\ rsi_counts wk rs bars = (1%nat, 2%nat, 0%nat) /\
  (rsi_total_orders wk rs bars <= 1 + 2)%nat.
Proof.
  intros wk rs bars. split; [vm_compute; reflexivity|]. split; [vm_compute; reflexivity|].
  pose proof (rsi_orders_bounded wk rs bars) as H.
  destruct (rsi_counts wk rs bars) as [[b e] n] eqn:E. vm_compute in E. injection E as <- <- <-.
  exact H.
Defined.

(** C26: the "Invested Value" line of the second chart (lines 341-342) is
    never negative: on every day it is the market value of the NIFTYBEES
    held after the day's last bar, the equity less the cash of the same
    bar. *)
Theorem rsi_invested_nonneg (wk : list Z) (rs : list (option Q)) (bars : list Bar15) :
  Forall (fun b => 0 <= close15 b) bars ->
  Forall (fun '(_, inv) => 0 <= inv) (invested_daily wk rs bars).
Proof.
  intros Hb. unfold invested_daily, cash_daily, equity_daily, rsi_backtest, from_signals.
  set (sbs := rsi_sig_bars wk rs bars).
  set (states := sim_states (signal_step rsi_cfg rsi_fees true) 0 sbs (init_ledger INIT_CASH 1)).
  rewrite simulate_states. fold states.
  assert (Hlen : length states = length sbs) by apply sim_states_length.
  set (zs := combine states sbs).
  assert (Hcash : map cash states = map (fun z => cash (fst z)) zs)
    by (unfold zs; rewrite <- (map_map fst cash), map_fst_combine by lia; reflexivity).
  rewrite Hcash.
  rewrite !combine_map_r, !resample_last_map, combine_map_map, map_map.
  apply Forall_map, List.Forall_forall. intros [k [L sb]] Hin. simpl.
  apply resample_last_values in Hin as (t & Hin & _).
  apply in_combine_r in Hin. unfold zs in Hin.
  pose proof (in_combine_l _ _ _ _ Hin) as HL. apply in_combine_r in Hin.
  assert (Hok : Forall (ledger_ok rsi_cfg) states).
  { apply sim_states_forall; [|apply init_ledger_ok; unfold INIT_CASH; lra].
    intros t' b' L' _ HL'. unfold signal_step. apply exec_col_ok, HL'. }
  rewrite List.Forall_forall in Hok. destruct (Hok L HL) as (_ & _ & Hpos).
  unfold sbs in Hin. rewrite rsi_sig_bars_map in Hin. apply in_map_iff in Hin as (b & <- & Hin).
  unfold value. cbn [rsi_sig_bar sb_price].
  assert (Hd : 0 <= dotQ (positions L) [close15 b]).
  { apply dotQ_nonneg; [apply Hpos; reflexivity|].
    constructor; [exact (proj1 (List.Forall_forall _ _) Hb b Hin) | constructor]. }
  lra.
Qed.

Lemma rsi_invested_nonneg_witness :
  let wk := [28406880; 28416960; 28427040]%Z in
  let rs := [Some 60; Some 25; Some 75] in
  let bars := [mkBar15 28417875 220; mkBar15 28427955 230; mkBar15 28438035 210] in
  Forall (fun b => 0 <= close15 b) bars /\
  Forall (fun '(_, inv) => 0 <= inv) (invested_daily wk rs bars).
Proof.
  intros wk rs bars.
  assert (H : Forall (fun b => 0 <= close15 b) bars)
    by (repeat constructor; simpl; apply Qle_bool_iff; reflexivity).
  split; [exact H | exact (rsi_invested_nonneg wk rs bars H)].
Defined.

(** The state of the RSI run stays one long position of whole shares with
    non-negative cash. *)
Definition rsi_state_ok (L : Ledger) : Prop :=
  ledger_ok rsi_cfg L /\ length (positions L) = 1%nat /\ is_lot 1 (nth 0 (positions L) 0).

Lemma rsi_step_ok (t : nat) (sb : SigBar) (L : Ledger) :
  rsi_state_ok L -> rsi_state_ok (signal_step rsi_cfg rsi_fees true t sb L).
Proof.
  intros (Hok & Hl & Hlot). unfold signal_step. split; [apply exec_col_ok, Hok|].
  split; [rewrite exec_col_length; exact Hl|].
  apply (exec_col_lot rsi_cfg); [rewrite Hl; lia | exact Hlot].
Qed.

(** C6: every exit signal of the run is served on its bar: whatever
    happened before, the state after an exit bar holds no NIFTYBEES, so
    no position outlives an RSI above 70 on a Friday 15:15. *)
Theorem rsi_exit_flattens (wk : list Z) (rs : list (option Q)) (bars : list Bar15) (k : nat)
    (b : Bar15) :
  Forall (fun bar => 0 < close15 bar) bars ->
  nth_error bars k = Some b -> exit_signal b (rsi_at wk rs (ts b)) = true ->
  nth 0 (positions (nth k (sim_states (signal_step rsi_cfg rsi_fees true) 0
                             (rsi_sig_bars wk rs bars) (init_ledger INIT_CASH 1))
                      (init_ledger INIT_CASH 1))) 0 == 0.
Proof.
  intros Hp Hk Hx.
  assert (Hsb : nth_error (rsi_sig_bars wk rs bars) k = Some (rsi_sig_bar wk rs b))
    by (unfold rsi_sig_bars; rewrite nth_error_map, Hk; reflexivity).
  destruct (sim_states_step (signal_step rsi_cfg rsi_fees true) 0 _ (init_ledger INIT_CASH 1) k _
              (init_ledger INIT_CASH 1) Hsb) as (Lp & HLp & ->).
  assert (H0 : rsi_state_ok (init_ledger INIT_CASH 1)).
  { split; [apply init_ledger_ok; unfold INIT_CASH; lra|]. split; [reflexivity|].
    exists 0%Z. reflexivity. }
  assert (HP : rsi_state_ok Lp).
  { destruct HLp as [-> | HIn]; [exact H0|].
    refine (proj1 (List.Forall_forall _ _)
              (sim_states_forall (signal_step rsi_cfg rsi_fees true) rsi_state_ok 0 _ _ _ H0) _ HIn).
    intros t sb L _. apply rsi_step_ok. }
  destruct HP as ((Hc & _ & Hpos) & Hl & Hlot).
  apply rsi_exit_step_zero; try assumption.
  - exact (proj1 (List.Forall_forall _ _) Hp b (nth_error_In _ _ Hk)).
  - apply is_lot_nonneg_cases; [exact Hlot|]. specialize (Hpos eq_refl).
    destruct (positions Lp) as [|x xs]; [discriminate|]. inversion Hpos. assumption.
Qed.

Lemma rsi_exit_flattens_witness :
  let wk := [28406880%Z; 28416960%Z; 28427040%Z] in
  let rs := [Some 40; Some 75; Some 40] in
  let bars := [mkBar15 28417875 220; mkBar15 28427955 225; mkBar15 28438035 230] in
  Forall (fun bar => 0 < close15 bar) bars /\ nth_error bars 1 = Some (mkBar15 28427955 225) /\
  exit_signal (mkBar15 28427955 225) (rsi_at wk rs 28427955) = true /\
  nth 0 (positions (nth 1 (sim_states (signal_step rsi_cfg rsi_fees true) 0
                             (rsi_sig_bars wk rs bars) (init_ledger INIT_CASH 1))
                      (init_ledger INIT_CASH 1))) 0 == 0.
Proof.
  intros wk rs bars.
  assert (Hp : Forall (fun bar => 0 < close15 bar) bars)
    by (repeat constructor; apply Qltb_iff; reflexivity).
  assert (Hk : nth_error bars 1 = Some (mkBar15 28427955 225)) by reflexivity.
  assert (Hx : exit_signal (mkBar15 28427955 225) (rsi_at wk rs 28427955) = true) by reflexivity.
  split; [exact Hp|]. split; [exact Hk|]. split; [exact Hx|].
  exact (rsi_exit_flattens wk rs bars 1 _ Hp Hk Hx).
Defined.
