(* ===== verification/BuyHold.v ===== *)
(** * BuyHold: buy_hold_75_25_backtest.py

    Two ETF close series are aligned on their dates and rows with a
    missing close are dropped (line 60). On the first aligned bar the
    script asks for a target weight of each ETF ([WEIGHTS], 60% NIFTYBEES
    and 40% GOLDBEES), NaN on every later bar (lines 65-66), and runs
    [from_orders] with one shared cash pool (lines 68-80). The CAGR block
    (lines 119-131) compares the final equity with the initial cash over
    the calendar years of the panel, and the period table (lines 277-291)
    finds, for 1, 2, 3 and 5 years, the first bar on or after
    [last_date - int(yrs * 365.25)] days.

    [bh_panel] builds the panel from the two raw histories (lines 41-60)
    and [bh_cagrs] the CAGR block; [bh_nifty_close] is the NIFTY index
    series reindexed onto the panel (lines 97-109).

    Dates are day numbers ([Z]). The theorems: the panel is the inner
    join of the two histories; the first equity point is the initial cash
    less the fees of the opening orders; after the first bar the
    portfolio never trades again, so the equity is the first bar's
    holdings marked to market; the first bar buys a 60/40 split, not the
    75/25 of the title; the period start is the first bar on or after the
    look-back date and always exists, but on a history shorter than the
    period it is the first bar, so the "5Y" CAGR covers fewer years. The
    benchmark table ([bh_bench], lines 112-117 and 133-178) holds the two
    ETFs with [from_holding]: their columns report the total return and
    drawdown of the closes, and their CAGR compounds to that return. The
    title's weights and the key metrics (lines 85, 89-94) are
    [bh_title_weights] and [bh_key_metrics]; the figures are in
    [Charts]. *)

From Stdlib Require Import QArith Qround Lqa List Bool Lia ZArith.
From Stdlib Require Import Reals Qreals Sorting.Sorted Permutation.
From stdpp Require Import base list.
From S2P Require Import Prelude Panel Sizing Ledger Growth Analytics Benchmarks.
Import ListNotations.
Open Scope Q_scope.
Open Scope bt_scope.

Module BuyHoldConfig.
(** Lines 16-20. *)
Definition W_NIFTYBEES : Q := 60 # 100.
Definition W_GOLDBEES : Q := 40 # 100.
Definition INIT_CASH : Q := 1000000.
Definition FEES : Q := 1 # 1000.
(** Line 77: [freq="1D"], in minutes. *)
Definition FREQ : Z := 1440.
End BuyHoldConfig.
Import BuyHoldConfig.

(** [size_df = pd.DataFrame(np.nan, ...); size_df.iloc[0] = weights] *)
Definition bh_sizes (n : nat) : list (list Size) :=
  match n with
  | O => []
  | S k => [Num W_NIFTYBEES; Num W_GOLDBEES] :: repeat [NaN; NaN] k
  end.

(** [size_type="targetpercent", min_size=1, size_granularity=1]; the
    direction is from_orders' default, both. *)
Definition bh_cfg : SizingConfig := mkSizingConfig SizeTargetPercent 1 1 Both.
Definition bh_fees : FeeModel := mkFeeModel FEES 0 0.

Definition bh_bars (panel : list (Z * Q * Q)) : list Bar :=
  map (fun '(row, sz) => let '(_, n, g) := row in mkBar [n; g] sz)
      (combine panel (bh_sizes (length panel))).

(** Lines 41-60: each symbol's history indexed and sorted by its
    timestamps (line 55), the two close series aligned on their dates and
    the incomplete rows dropped. *)
Definition bh_panel (hist_n hist_g : list (Z * Q)) : list (Z * Q * Q) :=
  dropna_panel (align (sort_index hist_n) (sort_index hist_g)).

(** Lines 68-80. *)
Definition buy_hold_backtest (hist_n hist_g : list (Z * Q)) : list Q * Ledger :=
  from_orders bh_cfg bh_fees INIT_CASH (bh_bars (bh_panel hist_n hist_g)).

(** Lines 85 and 89-94: the weights in the title, in percent, and the
    key metrics printed after the run: total return, Sharpe and Sortino
    ratios, maximum drawdown and final value ([None] where [iloc[-1]] of
    no bars raises). *)
Definition bh_title_weights : Q * Q := (W_NIFTYBEES * 100, W_GOLDBEES * 100).

Definition bh_key_metrics (equity : list Q) : (Q * option R * option R * Q) * option Q :=
  (perf_row (ann_factor FREQ) equity,
   match equity with [] => None | e0 :: _ => Some (List.last equity e0) end).

(** Lines 119-131: [n_days] between the first and last bar, and the CAGR
    of the portfolio, of each ETF and of the NIFTY 50 over [n_years];
    [None] where [iloc[0]] of an empty series raises. *)
Definition span_days (panel : list (Z * Q * Q)) : nat :=
  match panel with
  | [] => O
  | r0 :: _ => let '(d0, _, _) := r0 in
               let '(d1, _, _) := List.last panel r0 in Z.to_nat (d1 - d0)
  end.

Definition bh_cagrs (panel : list (Z * Q * Q)) (equity : list Q) (nifty : list (option Q))
    : option (R * R * R * option R) :=
  let y := years_between (span_days panel) in
  match panel, nifty with
  | r0 :: _, x0 :: _ =>
      let '(_, n0, g0) := r0 in
      let '(_, n1, g1) := List.last panel r0 in
      Some (calc_cagr (Q2R INIT_CASH) (Q2R (List.last equity 0)) y,
            calc_cagr (Q2R n0) (Q2R n1) y, calc_cagr (Q2R g0) (Q2R g1) y,
            calc_cagr_nan (option_map Q2R x0) (option_map Q2R (List.last nifty x0)) y)
  | _, _ => None
  end.

(** Lines 97-109: the NIFTY 50 closes, sorted, read on the panel's dates
    ([reindex]), forward then backward filled; NaN throughout when the
    index has no close on any of the panel's dates. *)
Definition bh_nifty_close (index_hist : list (Z * Q)) (panel : list (Z * Q * Q)) : list (option Q) :=
  reindex_ffill_bfill (sort_index index_hist) (map (fun '(d, _, _) => d) panel).

(** [int(yrs * 365.25)] *)
Definition lookback_days (yrs : nat) : Z := (Z.of_nat yrs * 36525 / 100)%Z.

(** Lines 284-291: [lookback_date = last_date - timedelta(days=...)];
    [mask = index >= lookback_date]; [if mask.sum() == 0: continue];
    [start_idx = index[mask][0]]. *)
Definition period_start (days : list Z) (yrs : nat) : option Z :=
  match days with
  | [] => None
  | d0 :: _ =>
      let lb := (List.last days d0 - lookback_days yrs)%Z in
      List.find (fun d => (lb <=? d)%Z) days
  end.

(** Lines 283-305, one row of the period table: the years [y] between the
    period's start and the last bar, and the CAGR of the portfolio and of
    each ETF over them. [None] is the [continue] of line 289. *)
Definition period_row (days : list Z) (equity nb gb : list Q) (yrs : nat)
    : option (R * R * R * R) :=
  match period_start days yrs with
  | None => None
  | Some s =>
      let y := (IZR (List.last days s - s) / days_per_year)%R in
      match loc days equity s, loc days nb s, loc days gb s with
      | Some e0, Some n0, Some g0 =>
          Some (y, calc_cagr (Q2R e0) (Q2R (List.last equity 0)) y,
                calc_cagr (Q2R n0) (Q2R (List.last nb 0)) y,
                calc_cagr (Q2R g0) (Q2R (List.last gb 0)) y)
      | _, _, _ => None
      end
  end.

(** Lines 307-313 of the same iteration: the NIFTY 50 column, the CAGR
    of the reindexed index closes from the period's start
    ([nifty_close.loc[start_idx]]) to the last one, and the FD column,
    the fixed rate. *)
Definition period_row_benchmarks (days : list Z) (nifty : list (option Q)) (yrs : nat)
    : option (option R * R) :=
  match period_start days yrs with
  | None => None
  | Some s =>
      let y := (IZR (List.last days s - s) / days_per_year)%R in
      match loc days nifty s with
      | Some n0 => Some (calc_cagr_nan (option_map Q2R n0) (option_map Q2R (List.last nifty None)) y,
                         FD_CAGR)
      | None => None
      end
  end.

(** Lines 112-117 and 133-178: the benchmark table, one column per
    portfolio (the strategy, 100% NIFTYBEES and 100% GOLDBEES held from
    the first bar with [from_holding], the NIFTY 50 index, the FD). The
    ETF columns' CAGR reads the closes (lines 124-129); their other rows
    read the [from_holding] portfolios. The NIFTY 50 column has only its
    CAGR ("-" in the other rows, lines 160-167), NaN ([None]) when the
    index closes are NaN. The FD's maximum drawdown is the literal "0.00%"
    of line 175. *)
Record BhBench := mkBhBench {
  bb_portfolio : BenchCol; bb_niftybees : BenchCol; bb_goldbees : BenchCol;
  bb_nifty50 : option R; bb_fd : BenchCol
}.

Definition bh_bench (panel : list (Z * Q * Q)) (equity : list Q) (nifty : list (option Q))
    : option BhBench :=
  match bh_cagrs panel equity nifty with
  | None => None
  | Some (cp, cn, cg, c50) =>
      let y := years_between (span_days panel) in
      let fdf := fd_final (Q2R INIT_CASH) y in
      let hn := from_holding FEES INIT_CASH (map (fun '(_, n, _) => n) panel) in
      let hg := from_holding FEES INIT_CASH (map (fun '(_, _, g) => g) panel) in
      let ppy := ann_factor FREQ in
      Some (mkBhBench (bench_col ppy cp equity) (bench_col ppy cn hn) (bench_col ppy cg hg)
              c50
              (mkBenchCol FD_CAGR (Some (fdf / Q2R INIT_CASH - 1)%R) (Some 0%R) (Some fdf)
                 None None))
  end.

(** ** Lemmas *)

Lemma bar_step_nan (cfg : SizingConfig) (fm : FeeModel) (t : nat) (prices : list Q) (n : nat)
    (L : Ledger) :
  bar_step cfg fm t (mkBar prices (repeat NaN n)) L = L.
Proof.
  unfold bar_step. apply (fold_left_inv _ (fun L' => L' = L)); [|reflexivity].
  intros L' i _ ->. unfold exec_col, col_req. simpl.
  replace (nth i (repeat NaN n) NaN) with NaN by (destruct (Nat.lt_ge_cases i n);
    [rewrite nth_repeat | rewrite nth_overflow by (rewrite repeat_length; lia)]; reflexivity).
  reflexivity.
Qed.

Lemma simulate_idle {B} (step : nat -> B -> Ledger -> Ledger) (marks : B -> list Q)
    (t : nat) (bars : list B) (L : Ledger) :
  (forall t b, In b bars -> step t b L = L) ->
  simulate step marks t bars L = (map (fun b => value L (marks b)) bars, L).
Proof.
  revert t; induction bars as [|b bs IH]; intros t H; simpl; [reflexivity|].
  rewrite H by (left; reflexivity). rewrite IH by (intros; apply H; right; assumption).
  reflexivity.
Qed.

Lemma combine_repeat {A C} (l : list A) (x : C) :
  combine l (repeat x (length l)) = map (fun a => (a, x)) l.
Proof. induction l as [|a l IH]; simpl; [reflexivity | rewrite IH; reflexivity]. Qed.

Lemma bh_bars_cons (d : Z) (n g : Q) (rest : list (Z * Q * Q)) :
  bh_bars ((d, n, g) :: rest)
  = mkBar [n; g] [Num W_NIFTYBEES; Num W_GOLDBEES]
    :: map (fun '(d', n', g') => mkBar [n'; g'] [NaN; NaN]) rest.
Proof.
  unfold bh_bars. simpl. rewrite combine_repeat, map_map. f_equal.
Qed.

Lemma find_some_first (p : Z -> bool) (l : list Z) (x : Z) :
  List.find p l = Some x ->
  In x l /\ p x = true /\ exists pre post, l = pre ++ x :: post /\ Forall (fun y => p y = false) pre.
Proof.
  induction l as [|y l IH]; simpl; [discriminate|].
  destruct (p y) eqn:Ey.
  - intros [= ->]. split; [left; reflexivity|]. split; [exact Ey|].
    exists [], l. split; [reflexivity | constructor].
  - intros H. destruct (IH H) as (Hin & Hp & pre & post & -> & Hpre).
    split; [right; exact Hin|]. split; [exact Hp|].
    exists (y :: pre), post. split; [reflexivity | constructor; assumption].
Qed.

(** The run on a non-empty panel: the first bar's ledger, kept to the end. *)
Lemma buy_hold_backtest_cons (hist_n hist_g : list (Z * Q)) (d : Z) (n g : Q)
    (rest : list (Z * Q * Q)) :
  bh_panel hist_n hist_g = (d, n, g) :: rest ->
  let L1 := bar_step bh_cfg bh_fees 0 (mkBar [n; g] [Num W_NIFTYBEES; Num W_GOLDBEES])
              (init_ledger INIT_CASH 2) in
  buy_hold_backtest hist_n hist_g
  = (value L1 [n; g] :: map (fun '(_, n', g') => value L1 [n'; g']) rest, L1).
Proof.
  intros Hp L1. unfold buy_hold_backtest. rewrite Hp.
  cbv beta iota zeta. rewrite bh_bars_cons. unfold from_orders, ncols_of.
  cbn [simulate length bar_price fst snd]. fold L1.
  rewrite simulate_idle; cbn [fst snd].
  - rewrite map_map. f_equal. f_equal. apply map_ext. intros [[d' n'] g']. reflexivity.
  - intros t b Hb. apply in_map_iff in Hb as ([[d' n'] g'] & <- & _).
    exact (bar_step_nan bh_cfg bh_fees t [n'; g'] 2 L1).
Qed.

(** ** Theorems *)

(** C4: the buy-and-hold run trades on its first aligned bar only: the
    final ledger is the ledger after the first bar, and every point of
    the equity curve is that ledger marked at the bar's closes. *)
Theorem buy_hold_trades_once (hist_n hist_g : list (Z * Q)) :
  match bh_panel hist_n hist_g with
  | [] => buy_hold_backtest hist_n hist_g = ([], init_ledger INIT_CASH 0)
  | (d, n, g) :: rest =>
      let L1 := bar_step bh_cfg bh_fees 0 (mkBar [n; g] [Num W_NIFTYBEES; Num W_GOLDBEES])
                  (init_ledger INIT_CASH 2) in
      buy_hold_backtest hist_n hist_g
      = (value L1 [n; g] :: map (fun '(_, n', g') => value L1 [n'; g']) rest, L1)
  end.
Proof.
  destruct (bh_panel hist_n hist_g) as [|[[d n] g] rest] eqn:Hp.
  - unfold buy_hold_backtest. now rewrite Hp.
  - exact (buy_hold_backtest_cons hist_n hist_g d n g rest Hp).
Qed.

(** C32: the first point of the equity curve is the initial cash less the
    fees of the opening orders, and it stays that way: the fees of the
    final ledger are those of the first bar. Fills and marks are at the
    same close and there is no slippage, so fees are the only leak. *)
Theorem buy_hold_accounting (hist_n hist_g : list (Z * Q)) (d : Z) (n g : Q)
    (rest : list (Z * Q * Q)) :
  bh_panel hist_n hist_g = (d, n, g) :: rest ->
  exists e0 es, fst (buy_hold_backtest hist_n hist_g) = e0 :: es /\
    e0 + fees_paid (snd (buy_hold_backtest hist_n hist_g)) == INIT_CASH.
Proof.
  intros Hp. rewrite (buy_hold_backtest_cons hist_n hist_g d n g rest Hp).
  eexists _, _. split; [reflexivity|]. cbn [fst snd].
  rewrite bar_step_conservation by reflexivity.
  rewrite value_init. unfold fees_paid. simpl. ring.
Qed.

Lemma buy_hold_accounting_witness :
  bh_panel [(1%Z, 250); (2%Z, 260)] [(1%Z, 50); (2%Z, 51)] = [(1%Z, 250, 50); (2%Z, 260, 51)] /\
  exists e0 es, fst (buy_hold_backtest [(1%Z, 250); (2%Z, 260)] [(1%Z, 50); (2%Z, 51)]) = e0 :: es /\
    e0 + fees_paid (snd (buy_hold_backtest [(1%Z, 250); (2%Z, 260)] [(1%Z, 50); (2%Z, 51)]))
    == INIT_CASH.
Proof.
  assert (H : bh_panel [(1%Z, 250); (2%Z, 260)] [(1%Z, 50); (2%Z, 51)]
              = [(1%Z, 250, 50); (2%Z, 260, 51)]) by (vm_compute; reflexivity).
  split; [exact H|]. exact (buy_hold_accounting _ _ 1%Z 250 50 _ H).
Defined.

(** The target-percent request of a column with no position yet. *)
Lemma target_request_fresh (w v p : Q) :
  requested SizeTargetPercent (Num w) p v 0 = Qty ((v * w - 0 * p) / p).
Proof. reflexivity. Qed.


(** C5: the first bar buys NIFTYBEES for 60% of the initial cash (the
    [WEIGHTS] of line 16), not the 75% the script's name and chart title
    announce: with [size_granularity=1] the order is the target of
    600000 / price units rounded to the nearest whole unit (the lot
    rounding of spec 4.2), so the holding is worth 600000 within half a
    unit's price. *)
Theorem buy_hold_first_bar_nifty (n g : Q) :
  0 < n <= 100000 -> 0 < g ->
  let L1 := bar_step bh_cfg bh_fees 0 (mkBar [n; g] [Num W_NIFTYBEES; Num W_GOLDBEES])
              (init_ledger INIT_CASH 2) in
  nth 0 (positions L1) 0 == round_lot 1 (W_NIFTYBEES * INIT_CASH / n) /\
  W_NIFTYBEES * INIT_CASH - (1 # 2) * n < nth 0 (positions L1) 0 * n
    <= W_NIFTYBEES * INIT_CASH + (1 # 2) * n.
Proof.
  intros [Hn0 Hn1] Hg L1. unfold L1, bar_step.
  rewrite call_seq_auto_no_sells.
  2:{ intros [|[|i]] Hi; simpl in Hi; try lia; unfold col_req; simpl; apply Qltb_false;
      apply Qle_shift_div_l; rewrite ?value_init; unfold W_NIFTYBEES, W_GOLDBEES, INIT_CASH; lra. }
  cbn [bar_price length seq fold_left].
  rewrite exec_col_other by lia.
  set (x := (value (init_ledger INIT_CASH 2) [n; g] * W_NIFTYBEES - 0 * n) / n).
  assert (Hxn : x * n == 600000)
    by (unfold x; rewrite value_init; unfold W_NIFTYBEES, INIT_CASH; field; lra).
  assert (Hx6 : 6 <= x) by nra.
  pose proof (round_lot_bounds 1 x ltac:(lra)) as [HR1 HR2].
  set (R := round_lot 1 x) in *.
  assert (HRn1 : x * n - (1 # 2) * n < R * n) by nra.
  assert (HRn2 : R * n <= x * n + (1 # 2) * n) by nra.
  enough (Hpos : nth 0 (positions (exec_col bh_cfg bh_fees 0
            (mkBar [n; g] [Num W_NIFTYBEES; Num W_GOLDBEES]) (init_ledger INIT_CASH 2) 0)) 0 == R).
  { rewrite Hpos. split; [apply round_lot_comp; unfold x; rewrite value_init; field; lra|].
    unfold W_NIFTYBEES, INIT_CASH. lra. }
  unfold exec_col. rewrite apply_outcome_position by (simpl; lia).
  change (col_req _ _ _ 0) with (Qty x).
  unfold size_order, is_sell_req. rewrite (proj2 (Qltb_false _ _)) by nra.
  unfold settle, buy_qty. fold R.
  unfold buy_price, order_fee, bh_fees, bh_cfg, FEES; cbn [fees fixed_fees slippage min_size size_granularity].
  cbn [nth bar_price cash positions init_ledger repeat]. fold R. unfold INIT_CASH.
  rewrite (proj2 (Qle_bool_iff (R * _ + _) _)) by nra.
  rewrite (proj2 (Qle_bool_false _ _)) by nra.
  rewrite (proj2 (Qltb_false _ _)) by nra.
  rewrite (proj2 (Qltb_false _ _)) by nra.
  simpl. ring.
Qed.

Lemma buy_hold_first_bar_nifty_witness :
  (0 < 250 <= 100000) /\ 0 < 50 /\
  nth 0 (positions (bar_step bh_cfg bh_fees 0
     (mkBar [250; 50] [Num W_NIFTYBEES; Num W_GOLDBEES]) (init_ledger INIT_CASH 2))) 0 == 2400.
Proof.
  assert (H1 : 0 < 250 <= 100000) by (split; lra). assert (H2 : (0 : Q) < 50) by lra.
  split; [exact H1|]. split; [exact H2|].
  destruct (buy_hold_first_bar_nifty 250 50 H1 H2) as [-> _]. reflexivity.
Defined.

(** ** The period table *)

Lemma last_default (l : list Z) (a b : Z) : l <> [] -> List.last l a = List.last l b.
Proof.
  induction l as [|x l IH]; intros H; [congruence|].
  destruct l as [|y l]; [reflexivity|]. apply IH. discriminate.
Qed.

Lemma last_In (l : list Z) (a : Z) : l <> [] -> In (List.last l a) l.
Proof.
  induction l as [|x l IH]; intros H; [congruence|].
  destruct l as [|y l]; [left; reflexivity|]. right. apply IH. discriminate.
Qed.

Lemma find_some_exists (p : Z -> bool) (l : list Z) (x : Z) :
  In x l -> p x = true -> exists y, List.find p l = Some y.
Proof.
  induction l as [|y l IH]; intros Hin Hp; [destruct Hin|]. simpl.
  destruct (p y) eqn:E; [eauto|]. destruct Hin as [-> | Hin]; [congruence | eauto].
Qed.

Lemma lookback_days_nonneg (yrs : nat) : (0 <= lookback_days yrs)%Z.
Proof. unfold lookback_days. apply Z.div_pos; lia. Qed.

(** Consecutive bars are increasing and at most [gap] days apart. *)
Fixpoint gaps_within (gap : Z) (days : list Z) : Prop :=
  match days with
  | d1 :: ((d2 :: _) as rest) => (d1 < d2 <= d1 + gap)%Z /\ gaps_within gap rest
  | _ => True
  end.

Lemma find_ge_gap (gap lb : Z) (d0 : Z) (l : list Z) (s : Z) :
  gaps_within gap (d0 :: l) -> (d0 < lb + gap)%Z ->
  List.find (fun d => (lb <=? d)%Z) (d0 :: l) = Some s -> (s < lb + gap)%Z.
Proof.
  revert d0; induction l as [|d1 l IH]; intros d0 Hg Hd0 Hf; simpl in Hf.
  - destruct (lb <=? d0)%Z; [injection Hf as <-; exact Hd0 | discriminate].
  - destruct (lb <=? d0)%Z eqn:E; [injection Hf as <-; exact Hd0|].
    apply Z.leb_gt in E. destruct Hg as [Hd Hg]. apply (IH d1 Hg); [lia | exact Hf].
Qed.

Lemma gaps_within_sorted (gap : Z) (days : list Z) (d : Z) :
  gaps_within gap days -> In d days -> (d <= List.last days d)%Z.
Proof.
  revert d; induction days as [|x l IH]; intros d Hg Hin; [destruct Hin|].
  destruct l as [|y l]; [destruct Hin as [-> | []]; simpl; lia|].
  destruct Hg as [Hxy Hg]. change (List.last (x :: y :: l) d) with (List.last (y :: l) d).
  destruct Hin as [-> | Hin].
  - specialize (IH y Hg (or_introl eq_refl)).
    rewrite (last_default (y :: l) y d) in IH by discriminate. lia.
  - exact (IH d Hg Hin).
Qed.

(** C17: the period table never skips a period: on any non-empty history
    the [mask.sum() == 0] branch is dead, and the start it picks is the
    first bar on or after [last_date - int(yrs * 365.25)] days: it is a
    bar of the panel, on or after the look-back date, and every bar before
    it is before that date. *)
Theorem period_start_first_on_or_after (days : list Z) (yrs : nat) :
  days <> [] ->
  let lb := (List.last days 0 - lookback_days yrs)%Z in
  exists s, period_start days yrs = Some s /\ In s days /\ (lb <= s)%Z /\
    exists pre post, days = pre ++ s :: post /\ Forall (fun d => d < lb)%Z pre.
Proof.
  intros Hne lb. destruct days as [|d0 ds]; [congruence|].
  unfold period_start. rewrite (last_default _ d0 0%Z) by discriminate. fold lb.
  destruct (find_some_exists (fun d => (lb <=? d)%Z) (d0 :: ds) (List.last (d0 :: ds) 0%Z))
    as [s Hs]; [apply last_In; discriminate
               | apply Z.leb_le; pose proof (lookback_days_nonneg yrs); unfold lb; lia |].
  exists s. split; [exact Hs|].
  apply find_some_first in Hs as (Hin & Hp & pre & post & Heq & Hpre). split; [exact Hin|].
  split; [apply Z.leb_le, Hp|]. exists pre, post. split; [exact Heq|].
  refine (List.Forall_impl _ _ Hpre). intros d Hd. apply Z.leb_gt, Hd.
Qed.

Lemma period_start_first_on_or_after_witness :
  [0; 100; 400; 500]%Z <> [] /\
  period_start [0; 100; 400; 500]%Z 1 = Some 400%Z.
Proof.
  split; [discriminate|].
  destruct (period_start_first_on_or_after [0; 100; 400; 500]%Z 1 ltac:(discriminate))
    as (s & Hs & _). rewrite Hs. vm_compute in Hs. symmetry; exact Hs.
Defined.

(** C18: when the history covers the look-back date and consecutive bars
    are at most [gap] days apart, the period the table measures spans the
    look-back exactly, up to one gap: between [int(yrs * 365.25) - gap]
    (exclusive) and [int(yrs * 365.25)] days. *)
Theorem period_start_span (days : list Z) (yrs : nat) (gap s : Z) :
  (0 < gap)%Z -> gaps_within gap days ->
  (hd 0%Z days <= List.last days 0%Z - lookback_days yrs)%Z ->
  period_start days yrs = Some s ->
  (lookback_days yrs - gap < List.last days 0%Z - s <= lookback_days yrs)%Z.
Proof.
  intros Hgap Hg Hhd Hs. destruct days as [|d0 ds]; [discriminate|].
  unfold period_start in Hs. rewrite (last_default _ d0 0%Z) in Hs by discriminate.
  simpl hd in Hhd.
  pose proof (find_ge_gap gap (List.last (d0 :: ds) 0%Z - lookback_days yrs) d0 ds s Hg
                ltac:(lia) Hs) as Hlt.
  apply find_some_first in Hs as (_ & Hp & _). apply Z.leb_le in Hp. lia.
Qed.

Lemma period_start_span_witness :
  (0 < 100)%Z /\ gaps_within 100 [0; 100; 200; 300; 400; 500]%Z /\
  (hd 0%Z [0; 100; 200; 300; 400; 500]%Z
     <= List.last [0; 100; 200; 300; 400; 500]%Z 0%Z - lookback_days 1)%Z /\
  period_start [0; 100; 200; 300; 400; 500]%Z 1 = Some 200%Z /\
  (lookback_days 1 - 100 < List.last [0; 100; 200; 300; 400; 500]%Z 0%Z - 200
     <= lookback_days 1)%Z.
Proof.
  assert (H1 : (0 < 100)%Z) by lia.
  assert (H2 : gaps_within 100 [0; 100; 200; 300; 400; 500]%Z) by (simpl; lia).
  assert (H3 : (hd 0%Z [0; 100; 200; 300; 400; 500]%Z
     <= List.last [0; 100; 200; 300; 400; 500]%Z 0%Z - lookback_days 1)%Z) by (vm_compute; discriminate).
  assert (H4 : period_start [0; 100; 200; 300; 400; 500]%Z 1 = Some 200%Z) by reflexivity.
  exact (conj H1 (conj H2 (conj H3 (conj H4 (period_start_span _ 1 100 200 H1 H2 H3 H4))))).
Defined.

Lemma lookback_days_le (yrs : nat) (k : Z) :
  (k < lookback_days yrs)%Z -> (100 * IZR k < 36525 * INR yrs)%R.
Proof.
  intros Hk. unfold lookback_days in Hk.
  pose proof (Z.mul_div_le (Z.of_nat yrs * 36525) 100 ltac:(lia)) as Hd.
  assert (Hz : (100 * k < Z.of_nat yrs * 36525)%Z) by lia.
  apply IZR_lt in Hz. rewrite mult_IZR, mult_IZR, <- INR_IZR_INZ, (Rmult_comm (INR yrs)) in Hz.
  exact Hz.
Qed.

(** C19: on a history shorter than the period (the "5Y" row of a panel that
    starts less than five years before its last bar), the table does not
    skip the row: it starts it at the first bar and reports the CAGR over
    the [y] years the panel has, fewer than the [yrs] of its label. *)
Theorem period_row_short_history (d0 : Z) (ds : list Z) (e0 n0 g0 : Q) (es ns gs : list Q)
    (yrs : nat) :
  (List.last (d0 :: ds) d0 - d0 < lookback_days yrs)%Z ->
  let y := (IZR (List.last (d0 :: ds) d0 - d0) / days_per_year)%R in
  period_row (d0 :: ds) (e0 :: es) (n0 :: ns) (g0 :: gs) yrs
  = Some (y, calc_cagr (Q2R e0) (Q2R (List.last (e0 :: es) 0)) y,
          calc_cagr (Q2R n0) (Q2R (List.last (n0 :: ns) 0)) y,
          calc_cagr (Q2R g0) (Q2R (List.last (g0 :: gs) 0)) y) /\
  (y < INR yrs)%R.
Proof.
  intros Hshort y. split.
  - unfold period_row, period_start. cbn [List.find].
    rewrite (proj2 (Z.leb_le _ _)) by lia. cbn [loc]. rewrite Z.eqb_refl. reflexivity.
  - apply years_of_days_lt, lookback_days_le, Hshort.
Qed.

Lemma period_row_short_history_witness :
  (List.last [0; 365; 730]%Z 0%Z - 0 < lookback_days 5)%Z /\
  period_row [0; 365; 730]%Z [1000000; 1100000; 1210000] [100; 110; 121] [50; 50; 50] 5
  = Some ((IZR 730 / days_per_year)%R,
          calc_cagr (Q2R 1000000) (Q2R 1210000) (IZR 730 / days_per_year),
          calc_cagr (Q2R 100) (Q2R 121) (IZR 730 / days_per_year),
          calc_cagr (Q2R 50) (Q2R 50) (IZR 730 / days_per_year)).
Proof.
  assert (H : (List.last [0; 365; 730]%Z 0%Z - 0 < lookback_days 5)%Z) by (vm_compute; reflexivity).
  split; [exact H|].
  exact (proj1 (period_row_short_history 0%Z [365; 730]%Z 1000000 100 50 [1100000; 1210000]
                  [110; 121] [50; 50] 5 H)).
Defined.


(** C16: the panel the script backtests (lines 41-60) holds exactly the
    dates both ETFs have a close for, with both closes: whatever order the
    broker returns the bars in, provided each history has one bar per
    date, [sort_index] then the aligned [dropna] give the inner join of the
    two histories, in increasing date order. *)
Theorem bh_panel_inner_join (hist_n hist_g : list (Z * Q)) (d : Z) (n g : Q) :
  List.NoDup (map fst hist_n) -> List.NoDup (map fst hist_g) ->
  In (d, n, g) (bh_panel hist_n hist_g) <-> In (d, n) hist_n /\ In (d, g) hist_g.
Proof.
  intros Hn Hg. unfold bh_panel.
  rewrite (dropna_align_inner_join _ _ d n g (sort_index_strict _ Hn) (sort_index_strict _ Hg)).
  split; intros [H1 H2]; split;
    solve [ eapply Permutation_in; [apply Permutation_sym, sort_index_perm | eassumption]
          | eapply Permutation_in; [apply sort_index_perm | eassumption] ].
Qed.

Lemma bh_panel_inner_join_witness :
  let hn : list (Z * Q) := [(4%Z, 103); (1%Z, 100); (2%Z, 101)] in
  let hg : list (Z * Q) := [(3%Z, 51); (2%Z, 50); (4%Z, 52)] in
  List.NoDup (map fst hn) /\ List.NoDup (map fst hg) /\ In (2%Z, 101, 50) (bh_panel hn hg).
Proof.
  intros hn hg.
  assert (Hn : List.NoDup (map fst hn)) by (repeat constructor; simpl; intuition lia).
  assert (Hg : List.NoDup (map fst hg)) by (repeat constructor; simpl; intuition lia).
  split; [exact Hn|]. split; [exact Hg|].
  apply (bh_panel_inner_join hn hg 2 101 50 Hn Hg). simpl. tauto.
Defined.

(** One ETF column of the table: on a panel of positive closes it shows
    the total return and the maximum drawdown of the ETF's closes (the fee
    paid on the first bar only scales the [from_holding] curve), and its
    CAGR compounds over the table's years to that total return. *)
Lemma bh_bench_etf (f : Z * Q * Q -> Q) (panel : list (Z * Q * Q)) (c : R) :
  Forall (fun r => 0 < f r) panel -> panel <> [] -> (0 < span_days panel)%nat ->
  c = calc_cagr (Q2R (f (hd (0%Z, 0, 0) panel)))
        (Q2R (f (List.last panel (hd (0%Z, 0, 0) panel)))) (years_between (span_days panel)) ->
  let e := map f panel in
  bench_col (ann_factor FREQ) c (from_holding FEES INIT_CASH e)
  = mkBenchCol c (Some (Q2R (total_return e))) (Some (Q2R (max_drawdown e)))
      (Some (Q2R (holding_units FEES INIT_CASH (hd 0 e) * List.last e 0)))
      (Some (sharpe (ann_factor FREQ) e)) (Some (sortino (ann_factor FREQ) e)) /\
  Rpower (1 + c) (years_between (span_days panel)) = (1 + Q2R (total_return e))%R.
Proof.
  intros Hpos Hne Hs -> e. destruct panel as [|r0 rest]; [congruence|].
  apply List.Forall_forall with (x := r0) in Hpos as H0; [|now left].
  assert (H1 : 0 < f (List.last (r0 :: rest) r0))
    by (apply (proj1 (List.Forall_forall _ _) Hpos), last_In_cons).
  destruct (from_holding_metrics FEES INIT_CASH (f r0) (map f rest)) as (Ht & _ & Hm & Hl);
    [unfold INIT_CASH; lra | exact H0 | unfold FEES; lra |].
  split.
  - destruct (from_holding_ratios FEES INIT_CASH (f r0) (map f rest) (ann_factor FREQ))
      as [Hsh Hso]; [unfold INIT_CASH; lra | exact H0 | unfold FEES; lra |].
    unfold bench_col, e. cbn [map hd]. rewrite (Qeq_eqR _ _ Ht), (Qeq_eqR _ _ Hm), (Qeq_eqR _ _ Hl).
    rewrite Hsh, Hso. reflexivity.
  - unfold e. cbn [map hd]. rewrite <- (last_map_default f (r0 :: rest) r0) in H1 |- *.
    apply (cagr_total_return (f r0) (map f rest)); [exact H0 | exact H1 | apply years_between_pos, Hs].
Qed.

(** C22: the ETF columns of the buy-and-hold benchmark table (lines
    112-117, 124-129, 137-178) report each ETF's own performance: the
    total return, maximum drawdown and Sharpe and Sortino ratios of the
    [from_holding] portfolio are those of the ETF's closes, and the CAGR
    the table prints next to them compounds over the table's years to
    that total return. *)
Theorem bh_bench_etf_columns (panel : list (Z * Q * Q)) (equity : list Q) (nifty : list (option Q))
    (B : BhBench) :
  bh_bench panel equity nifty = Some B ->
  Forall (fun '(_, n, g) => 0 < n /\ 0 < g) panel -> (0 < span_days panel)%nat ->
  let nb := map (fun '(_, n, _) => n) panel in
  let gb := map (fun '(_, _, g) => g) panel in
  let y := years_between (span_days panel) in
  bc_total (bb_niftybees B) = Some (Q2R (total_return nb)) /\
  bc_maxdd (bb_niftybees B) = Some (Q2R (max_drawdown nb)) /\
  bc_sharpe (bb_niftybees B) = Some (sharpe (ann_factor FREQ) nb) /\
  bc_sortino (bb_niftybees B) = Some (sortino (ann_factor FREQ) nb) /\
  Rpower (1 + bc_cagr (bb_niftybees B)) y = (1 + Q2R (total_return nb))%R /\
  bc_total (bb_goldbees B) = Some (Q2R (total_return gb)) /\
  bc_maxdd (bb_goldbees B) = Some (Q2R (max_drawdown gb)) /\
  bc_sharpe (bb_goldbees B) = Some (sharpe (ann_factor FREQ) gb) /\
  bc_sortino (bb_goldbees B) = Some (sortino (ann_factor FREQ) gb) /\
  Rpower (1 + bc_cagr (bb_goldbees B)) y = (1 + Q2R (total_return gb))%R.
Proof.
  intros HB Hpos Hs nb gb y. unfold nb, gb, y. clear nb gb y.
  remember (years_between (span_days panel)) as y eqn:Ey.
  unfold bh_bench, bh_cagrs in HB. rewrite <- Ey in HB.
  destruct panel as [|[[d0 n0] g0] rest]; [discriminate|]. destruct nifty as [|x0 xs]; [discriminate|].
  destruct (List.last ((d0, n0, g0) :: rest) (d0, n0, g0)) as [[d1 n1] g1] eqn:El.
  injection HB as <-. cbv zeta. cbn [bb_niftybees bb_goldbees].
  destruct (bh_bench_etf (fun '(_, n, _) => n) ((d0, n0, g0) :: rest) (calc_cagr (Q2R n0) (Q2R n1) y))
    as [Hn Hnc]; [| discriminate | exact Hs | cbn [hd]; rewrite El, Ey; reflexivity |].
  { refine (List.Forall_impl _ _ Hpos). intros [[? ?] ?] []; assumption. }
  destruct (bh_bench_etf (fun '(_, _, g) => g) ((d0, n0, g0) :: rest) (calc_cagr (Q2R g0) (Q2R g1) y))
    as [Hg Hgc]; [| discriminate | exact Hs | cbn [hd]; rewrite El, Ey; reflexivity |].
  { refine (List.Forall_impl _ _ Hpos). intros [[? ?] ?] []; assumption. }
  rewrite <- Ey in Hnc, Hgc.
  refine (conj (f_equal bc_total Hn) (conj (f_equal bc_maxdd Hn) (conj (f_equal bc_sharpe Hn)
    (conj (f_equal bc_sortino Hn) (conj Hnc (conj (f_equal bc_total Hg) (conj (f_equal bc_maxdd Hg)
    (conj (f_equal bc_sharpe Hg) (conj (f_equal bc_sortino Hg) Hgc))))))))).
Qed.

(** Two bars a year apart: NIFTYBEES 100 then 110, GOLDBEES 50 then 45. *)
Lemma bh_bench_etf_columns_witness :
  let panel : list (Z * Q * Q) := [(0%Z, 100, 50); (366%Z, 110, 45)] in
  exists B, bh_bench panel [1000000; 1030000] [Some 20000; Some 21000] = Some B /\
    Forall (fun '(_, n, g) => 0 < n /\ 0 < g) panel /\ (0 < span_days panel)%nat /\
    bc_total (bb_niftybees B) = Some (Q2R (total_return [100; 110])).
Proof.
  intros panel. eexists. split; [reflexivity|].
  assert (Hp : Forall (fun '(_, n, g) => 0 < n /\ 0 < g) panel)
    by (repeat constructor; reflexivity).
  assert (Hs : (0 < span_days panel)%nat) by (vm_compute; lia).
  split; [exact Hp|]. split; [exact Hs|].
  exact (proj1 (bh_bench_etf_columns panel [1000000; 1030000] [Some 20000; Some 21000] _ eq_refl Hp Hs)).
Defined.
