(* ===== verification/DualMomentum.v ===== *)
(** * DualMomentum: dual_momentum_backtest.py

    The script rotates 75% of the portfolio between NIFTYBEES and GOLDBEES
    every quarter. From the aligned close panel (lines 52-57) it takes the
    last close of each calendar quarter (line 63), their quarter-on-quarter
    returns (line 66) and the better of the two ETFs per quarter (line 71,
    ties to NIFTYBEES, the first column). The winners are shifted by one
    quarter (line 82) and each is placed on the first trading day after
    its quarter-end label (lines 84-89), forward filled (line 91) and cut
    to start at the first placed day (line 92). The target weights are
    75% on the held ETF and 0% on the other (lines 95-97), sent only on the
    days the holding changes (lines 100-102), and [from_orders] runs them
    at the day's open prices (lines 111-125).

    Dates are [yyyymmdd] integers, so that their order is the calendar's
    and the quarter of a date is arithmetic on its digits; [valid_date]
    says a date exists in the calendar, which the quarter arithmetic
    needs ([quarter_end_ge], [quarter_end_next]). The theorems: the day a
    quarter's winner is placed on is the first day after its quarter end
    (numpy's [searchsorted], side right); on a sorted history of calendar
    dates the holding of a whole quarter is the winner of the quarter two
    before it, not the one just ended (a finding); orders are sent on
    switch days only, 75% on the ETF held that day and 0 on the other;
    once a winner is placed every day holds an ETF; every fill of the run
    is on a switch day; a switch closes the leg it leaves entirely; the
    printed rebalance log has one row per switch. [dm_run] goes from the
    two raw histories to the run (lines 33-57); the printed winner list
    ([winner_log], lines 72-76), rebalance schedule (lines 105-107), key
    metrics (lines 134-138), the benchmark table ([dm_bench], lines
    158-191) and the reporting series (lines 140-211, 300-305) follow the
    run. The run is handed the open prices as its close, so the equity is
    marked at the open (a finding, [dm_equity_at_open]). *)

From Stdlib Require Import QArith Qround Lqa List Bool Lia ZArith Sorting.Sorted Reals.
From stdpp Require Import base list decidable.
From S2P Require Import Prelude Panel Sizing Ledger Analytics Benchmarks.
Import ListNotations.
Open Scope Q_scope.
Open Scope bt_scope.

Module DualMomentumConfig.
(** Lines 15-20. *)
Definition INIT_CASH : Q := 1000000.
Definition FEES : Q := 1 # 1000.
Definition ALLOCATION : Q := 3 # 4.
(** Line 122: [freq="1D"], in minutes. *)
Definition FREQ : Z := 1440.
End DualMomentumConfig.
Import DualMomentumConfig.

(** The two columns of the panel, in [SYMBOLS] order. *)
Inductive Sym := NIFTYBEES | GOLDBEES.

#[export] Instance Sym_eq_dec : EqDecision Sym.
Proof. solve_decision. Defined.

(** ** Quarterly winners (lines 63-82) *)

(** The [QE] label of the quarter of a [yyyymmdd] date. *)
Definition quarter_end (d : Z) : Z :=
  let y := (d / 10000)%Z in
  let m := ((d / 100) mod 100)%Z in
  (y * 10000 + match ((m - 1) / 3)%Z with
               | 0%Z => 331 | 1%Z => 630 | 2%Z => 930 | _ => 1231
               end)%Z.

(** [close_prices.resample("QE").last().dropna(how="all")]: one row per
    quarter that has a bar, labelled by its quarter end, holding the last
    close of the quarter. *)
Fixpoint quarter_last (rows : list (Z * Q * Q)) : list (Z * Q * Q) :=
  match rows with
  | [] => []
  | (d, n, g) :: rest =>
      match quarter_last rest with
      | [] => [(quarter_end d, n, g)]
      | ((qe, _, _) :: _) as qs =>
          if (qe =? quarter_end d)%Z then qs else (quarter_end d, n, g) :: qs
      end
  end.

(** The dates the data source can produce: [yyyymmdd] with a month 1-12
    and a day that exists in that month (29 in February, any year). *)
Definition month_days (m : Z) : Z :=
  if (m =? 2)%Z then 29
  else if (m =? 4)%Z || (m =? 6)%Z || (m =? 9)%Z || (m =? 11)%Z then 30 else 31.

Definition valid_date (d : Z) : bool :=
  let m := ((d / 100) mod 100)%Z in
  let dd := (d mod 100)%Z in
  (0 <=? d)%Z && (1 <=? m)%Z && (m <=? 12)%Z && (1 <=? dd)%Z && (dd <=? month_days m)%Z.

(** The last day, [mmdd], of the quarter of month [m]. *)
Definition qend (m : Z) : Z :=
  if (m <=? 3)%Z then 331 else if (m <=? 6)%Z then 630 else if (m <=? 9)%Z then 930 else 1231.

(** [pct_change()]: NaN ([None]) on the first row. *)
Fixpoint pct_change_from (prev : option Q) (xs : list Q) : list (option Q) :=
  match xs with
  | [] => []
  | x :: xs' =>
      match prev with None => None | Some p => Some (x / p - 1) end
      :: pct_change_from (Some x) xs'
  end.

Definition pct_change (xs : list Q) : list (option Q) := pct_change_from None xs.

(** [idxmax(axis=1)] over the two returns: NaN are skipped, a tie goes to
    the first column, a row of NaN has no winner. *)
Definition idxmax (rn rg : option Q) : option Sym :=
  match rn, rg with
  | None, None => None
  | Some _, None => Some NIFTYBEES
  | None, Some _ => Some GOLDBEES
  | Some a, Some b => if a <? b then Some GOLDBEES else Some NIFTYBEES
  end.

(** [winner = quarterly_returns.idxmax(axis=1)], with its labels. *)
Definition winners (qc : list (Z * Q * Q)) : list (Z * option Sym) :=
  let labels := map (fun '(qe, _, _) => qe) qc in
  let rn := pct_change (map (fun '(_, n, _) => n) qc) in
  let rg := pct_change (map (fun '(_, _, g) => g) qc) in
  map (fun '(qe, (a, b)) => (qe, idxmax a b)) (combine labels (combine rn rg)).

(** Lines 72-76: the printed winner list, one row per quarter whose two
    returns are both defined ([pd.notna]), with its winner and the two
    returns. *)
Definition winner_row (row : (Z * option Sym) * (option Q * option Q))
    : list (Z * option Sym * Q * Q) :=
  match row with
  | ((qe, w), (Some x, Some y)) => [(qe, w, x, y)]
  | _ => []
  end.

Definition winner_log (qc : list (Z * Q * Q)) : list (Z * option Sym * Q * Q) :=
  let rn := pct_change (map (fun '(_, n, _) => n) qc) in
  let rg := pct_change (map (fun '(_, _, g) => g) qc) in
  flat_map winner_row (combine (winners qc) (combine rn rg)).

(** [winner.shift(1).dropna()]: each label gets the previous row's winner;
    rows whose shifted value is NaN are dropped. *)
Fixpoint shift_pairs (prev : option Sym) (ws : list (Z * option Sym)) : list (Z * Sym) :=
  match ws with
  | [] => []
  | (qe, w) :: rest =>
      match prev with
      | Some s => (qe, s) :: shift_pairs w rest
      | None => shift_pairs w rest
      end
  end.

Definition winner_shifted (ws : list (Z * option Sym)) : list (Z * Sym) := shift_pairs None ws.

(** ** Daily allocation (lines 84-102) *)

(** [index.searchsorted(dt, side="right")] on a sorted index: the position
    of the first date after [dt]. *)
Fixpoint searchsorted_right (idx : list Z) (x : Z) : nat :=
  match idx with
  | [] => O
  | d :: ds => if (x <? d)%Z then O else S (searchsorted_right ds x)
  end.

(** Lines 86-89, one iteration: [next_idx_pos] is the position of the
    first trading day after the quarter-end label; when there is such a
    day, [alloc_daily.loc[index[next_idx_pos]] = sym]. *)
Definition place_winner (days : list Z) (alloc : list (option Sym)) (p : Z * Sym)
    : list (option Sym) :=
  let '(dt, s) := p in
  let pos := searchsorted_right days dt in
  if Nat.ltb pos (length days) then <[pos := Some s]> alloc else alloc.

(** Lines 84-89: an empty object series, then one [place_winner] per
    shifted winner, in label order. *)
Definition place_winners (days : list Z) (ws : list (Z * Sym)) : list (option Sym) :=
  fold_left (place_winner days) ws (repeat None (length days)).

(** [np.where(alloc_daily == sym, ALLOCATION, 0.0)] *)
Definition weight_of (s : Sym) (a : option Sym) : Q :=
  match a with
  | Some s' => if decide (s = s') then ALLOCATION else 0
  | None => 0
  end.

(** [Series.ne]: NaN is unequal to everything, itself included. *)
Definition sym_ne (a b : option Sym) : bool :=
  match a, b with
  | Some x, Some y => negb (bool_decide (x = y))
  | _, _ => true
  end.

(** [switch_mask = alloc_daily.ne(alloc_daily.shift(1)); switch_mask.iloc[0] = True] *)
Fixpoint switch_from (prev : option Sym) (l : list (option Sym)) : list bool :=
  match l with
  | [] => []
  | a :: rest => sym_ne a prev :: switch_from a rest
  end.

Definition switch_mask (alloc : list (option Sym)) : list bool :=
  match alloc with
  | [] => []
  | a :: rest => true :: switch_from a rest
  end.

(** [target_on_switch = weights.where(switch_mask, np.nan)] *)
Definition target_on_switch (alloc : list (option Sym)) : list (list Size) :=
  map (fun '(a, sw) =>
         if sw : bool then [Num (weight_of NIFTYBEES a); Num (weight_of GOLDBEES a)]
         else [NaN; NaN])
      (combine alloc (switch_mask alloc)).

(** ** The run (lines 57, 111-125) *)

(** [open_prices.reindex(close_prices.index).ffill().bfill()] on one
    column. A column with no open at all would stay NaN and is priced 0
    here; the script cannot produce one, since every date of the close
    panel is a row of both histories and each row carries its open. *)
Definition fill_opens (l : list (option Q)) : list Q :=
  map (fun o => match o with Some p => p | None => 0 end) (bfill (ffill l)).

Definition dm_cfg : SizingConfig := mkSizingConfig SizeTargetPercent 1 1 Both.
Definition dm_fees : FeeModel := mkFeeModel FEES 0 0.

(** The allocation series of lines 84-92, before the cut, and the offset
    of the cut. *)
Definition alloc_ffilled (panel : list (Z * Q * Q)) : list (option Sym) :=
  let days := map (fun '(d, _, _) => d) panel in
  ffill (place_winners days (winner_shifted (winners (quarter_last panel)))).

Definition dm_bars (panel : list (Z * Q * Q)) (opens : list (option Q * option Q)) : list Bar :=
  let alloc := alloc_ffilled panel in
  let k := first_valid_offset alloc in
  let prices := combine (fill_opens (map fst opens)) (fill_opens (map snd opens)) in
  map (fun '((pn, pg), sz) => mkBar [pn; pg] sz)
      (combine (skipn k prices) (target_on_switch (skipn k alloc))).

Definition dm_backtest (panel : list (Z * Q * Q)) (opens : list (option Q * option Q))
    : list Q * Ledger :=
  from_orders dm_cfg dm_fees INIT_CASH (dm_bars panel opens).

(** Lines 33-56: each symbol's history (open and close per date) sorted by
    timestamp (line 47), the two close series aligned on their dates and
    the incomplete rows dropped. *)
Definition dm_panel (hist_n hist_g : list (Z * (Q * Q))) : list (Z * Q * Q) :=
  let closes := fun h => map (fun '(t, (_, c)) => (t, c)) (sort_index h) in
  dropna_panel (align (closes hist_n) (closes hist_g)).

(** Lines 53 and 57: the opens, read on the dates of the close panel. *)
Definition dm_opens (hist_n hist_g : list (Z * (Q * Q))) : list (option Q * option Q) :=
  let sn := sort_index hist_n in
  let sg := sort_index hist_g in
  map (fun '(d, _, _) => (loc (map fst sn) (map (fun '(_, (o, _)) => o) sn) d,
                          loc (map fst sg) (map (fun '(_, (o, _)) => o) sg) d))
      (dm_panel hist_n hist_g).

Definition dm_run (hist_n hist_g : list (Z * (Q * Q))) : list Q * Ledger :=
  dm_backtest (dm_panel hist_n hist_g) (dm_opens hist_n hist_g).

(** ** Reporting (lines 104-108, 140-211, 251, 301-305) *)

(** The allocation after the cut of line 92. *)
Definition alloc_daily (panel : list (Z * Q * Q)) : list (option Sym) :=
  skipn (first_valid_offset (alloc_ffilled panel)) (alloc_ffilled panel).

(** Line 104: [rebalance_count = switch_mask.sum()]. *)
Definition rebalance_count (alloc : list (option Sym)) : nat := count_true (switch_mask alloc).

(** Lines 105-107: the printed rebalance schedule, the switch days with
    the ETF bought. *)
Definition rebalance_schedule (days : list Z) (alloc : list (option Sym)) : list (Z * option Sym) :=
  flat_map (fun '(d, a, sw) => if sw : bool then [(d, a)] else [])
           (combine (combine days alloc) (switch_mask alloc)).

(** Lines 301-305: the date, the ETF bought and the portfolio value of
    each switch day. *)
Definition rebalance_log (days : list Z) (alloc : list (option Sym)) (equity : list Q)
    : list (Z * option Sym * Q) :=
  flat_map (fun '(d, a, e, sw) => if sw : bool then [(d, a, e)] else [])
           (combine (combine (combine days alloc) equity) (switch_mask alloc)).

(** Lines 210-211, 251: 1 on the days NIFTYBEES is held, 0 otherwise. *)
Definition holding_indicator (alloc : list (option Sym)) : list Z :=
  map (fun a => if decide (a = Some NIFTYBEES) then 1%Z else 0%Z) alloc.

(** Lines 140-155: the NIFTY 50 closes on the days of the cut allocation,
    forward then backward filled; NaN throughout when the index has no
    close on any of those days. *)
Definition dm_nifty_close (index_hist : list (Z * Q)) (panel : list (Z * Q * Q)) : list (option Q) :=
  let days := map (fun '(d, _, _) => d) panel in
  reindex_ffill_bfill (sort_index index_hist)
    (skipn (first_valid_offset (alloc_ffilled panel)) days).

(** Lines 195-207: the strategy's equity, the two ETFs' closes on the same
    days, their cumulative returns and the strategy's drawdown. *)
Definition dm_curves (panel : list (Z * Q * Q)) (opens : list (option Q * option Q))
    : list Q * list Q * list Q * list Q :=
  let k := first_valid_offset (alloc_ffilled panel) in
  let equity := fst (dm_backtest panel opens) in
  let bees := map (fun '(_, n, _) => n) (skipn k panel) in
  let gold := map (fun '(_, _, g) => g) (skipn k panel) in
  (cum_returns equity, cum_returns bees, cum_returns gold, drawdown equity).

(** Lines 134-138: the key metrics printed after the run, total return,
    Sharpe and Sortino ratios and maximum drawdown. *)
Definition dm_key_metrics (equity : list Q) : Q * option R * option R * Q :=
  perf_row (ann_factor FREQ) equity.

(** Lines 158-191: the benchmark table, the strategy against NIFTYBEES
    and GOLDBEES held with [from_holding] over the days of the cut
    allocation ([close_prices.loc[alloc_daily.index, ...]]): total
    return, Sharpe and Sortino ratios and maximum drawdown of each. *)
Definition dm_bench (panel : list (Z * Q * Q)) (opens : list (option Q * option Q))
    : list (Q * option R * option R * Q) :=
  let k := first_valid_offset (alloc_ffilled panel) in
  let equity := fst (dm_backtest panel opens) in
  let bees := from_holding FEES INIT_CASH (map (fun '(_, n, _) => n) (skipn k panel)) in
  let gold := from_holding FEES INIT_CASH (map (fun '(_, _, g) => g) (skipn k panel)) in
  map (perf_row (ann_factor FREQ)) [equity; bees; gold].

(** Line 203: [cum_nifty50 = nifty_close / nifty_close.iloc[0] - 1]. *)
Definition dm_cum_nifty50 (index_hist : list (Z * Q)) (panel : list (Z * Q * Q)) : list (option Q) :=
  cum_returns_nan (dm_nifty_close index_hist panel).

(** ** Lemmas *)

Lemma searchsorted_right_le (idx : list Z) (x : Z) : (searchsorted_right idx x <= length idx)%nat.
Proof. induction idx as [|d ds IH]; simpl; [lia|]. destruct (x <? d)%Z; lia. Qed.

Lemma nth_error_combine {A B} (l1 : list A) (l2 : list B) (k : nat) :
  nth_error (combine l1 l2) k =
  match nth_error l1 k, nth_error l2 k with Some a, Some b => Some (a, b) | _, _ => None end.
Proof.
  revert l2 k; induction l1 as [|a l1 IH]; intros [|b l2] [|k]; simpl; try reflexivity.
  - destruct (nth_error l1 k); reflexivity.
  - apply IH.
Qed.

(** The orders of bar [k] of the run: its sizes are the targets of day
    [k] of the cut allocation. *)
Lemma dm_bars_nth (panel : list (Z * Q * Q)) (opens : list (option Q * option Q)) (k : nat)
    (b : Bar) :
  nth_error (dm_bars panel opens) k = Some b ->
  let alloc := skipn (first_valid_offset (alloc_ffilled panel)) (alloc_ffilled panel) in
  exists a sw, nth_error alloc k = Some a /\ nth_error (switch_mask alloc) k = Some sw /\
    bar_size b = if sw then [Num (weight_of NIFTYBEES a); Num (weight_of GOLDBEES a)]
                 else [NaN; NaN].
Proof.
  intros Hb alloc. unfold dm_bars in Hb. fold alloc in Hb.
  rewrite nth_error_map, nth_error_combine in Hb.
  destruct (nth_error (skipn _ _) k) as [[pn pg]|]; [|discriminate].
  unfold target_on_switch in Hb. rewrite nth_error_map, nth_error_combine in Hb.
  destruct (nth_error alloc k) as [a|]; [|discriminate].
  destruct (nth_error (switch_mask alloc) k) as [sw|]; [|discriminate].
  simpl in Hb. injection Hb as <-. exists a, sw. split; [reflexivity|]. split; [reflexivity|].
  destruct sw; reflexivity.
Qed.

(** Once a winner has been placed, every day of the cut allocation holds
    an ETF. *)
Lemma alloc_daily_total (panel : list (Z * Q * Q)) :
  first_valid_index (alloc_ffilled panel) <> None -> Forall (fun a => a <> None) (alloc_daily panel).
Proof.
  intros H. unfold alloc_daily, first_valid_offset.
  destruct (first_valid_index (alloc_ffilled panel)) as [k|] eqn:E; [|contradiction].
  unfold alloc_ffilled in E |- *. rewrite ffill_first_valid in E.
  exact (first_valid_ffill_total _ _ E).
Qed.

(** A bar whose day is not a switch day sends no order. *)
Lemma dm_bars_idle (panel : list (Z * Q * Q)) (opens : list (option Q * option Q)) (k : nat)
    (b : Bar) :
  nth_error (dm_bars panel opens) k = Some b ->
  nth k (switch_mask (skipn (first_valid_offset (alloc_ffilled panel)) (alloc_ffilled panel)))
    false = false ->
  bar_size b = [NaN; NaN].
Proof.
  intros Hb E. destruct (dm_bars_nth panel opens k b Hb) as (a & sw & _ & Hsw & ->).
  rewrite (nth_error_nth _ _ _ Hsw) in E. now subst sw.
Qed.

(** ** Calendar dates and quarter ends *)

(** Case analysis on the month of a date, each case evaluated. *)
Ltac months m :=
  let H := fresh "Hmonth" in
  assert (H : (m = 1 \/ m = 2 \/ m = 3 \/ m = 4 \/ m = 5 \/ m = 6 \/ m = 7 \/ m = 8 \/ m = 9 \/
               m = 10 \/ m = 11 \/ m = 12)%Z) by lia;
  repeat destruct H as [H|H]; subst m; cbv [qend month_days] in *;
  cbn [Z.leb Z.eqb Pos.eqb Z.compare Pos.compare Pos.compare_cont orb] in *.

Lemma qend_match (m : Z) : (1 <= m <= 12)%Z ->
  (match (m - 1) / 3 with 0 => 331 | 1 => 630 | 2 => 930 | _ => 1231 end = qend m)%Z.
Proof. intros Hm. months m; reflexivity. Qed.

Lemma valid_date_parts (d : Z) :
  valid_date d = true ->
  exists y m dd, (d = 10000 * y + 100 * m + dd /\ 0 <= y /\ 1 <= m <= 12 /\
                  1 <= dd <= month_days m /\ quarter_end d = 10000 * y + qend m)%Z.
Proof.
  unfold valid_date, quarter_end. rewrite !andb_true_iff, !Z.leb_le.
  intros ((((H0 & H1) & H2) & H3) & H4).
  exists (d / 10000)%Z, ((d / 100) mod 100)%Z, (d mod 100)%Z.
  assert (Hy : (d / 10000 = (d / 100) / 100)%Z) by (rewrite Z.div_div by lia; reflexivity).
  split; [|split; [apply Z.div_pos; lia | split; [lia | split; [lia |]]]].
  - rewrite Hy. pose proof (Z.div_mod d 100). pose proof (Z.div_mod (d / 100) 100). lia.
  - rewrite Z.mul_comm, qend_match by lia. reflexivity.
Qed.

(** A date lies on or before the end of its quarter. *)
Lemma quarter_end_ge (d : Z) : valid_date d = true -> (d <= quarter_end d)%Z.
Proof.
  intros H. destruct (valid_date_parts d H) as (y & m & dd & -> & Hy & Hm & Hd & ->).
  months m; lia.
Qed.

Lemma quarter_end_mono (d d' : Z) :
  valid_date d = true -> valid_date d' = true -> (d <= d')%Z -> (quarter_end d <= quarter_end d')%Z.
Proof.
  intros H H' Hle.
  destruct (valid_date_parts d H) as (y & m & dd & -> & Hy & Hm & Hd & ->).
  destruct (valid_date_parts d' H') as (y' & m' & dd' & -> & Hy' & Hm' & Hd' & ->).
  months m; months m'; lia.
Qed.

(** A later date of another quarter lies after the end of the earlier
    date's quarter. *)
Lemma quarter_end_next (d d' : Z) :
  valid_date d = true -> valid_date d' = true -> (d < d')%Z ->
  quarter_end d <> quarter_end d' -> (quarter_end d < d')%Z.
Proof.
  intros H H' Hlt Hne.
  destruct (valid_date_parts d H) as (y & m & dd & -> & Hy & Hm & Hd & E).
  destruct (valid_date_parts d' H') as (y' & m' & dd' & -> & Hy' & Hm' & Hd' & E').
  rewrite E, E' in *. months m; months m'; lia.
Qed.

(** ** The quarterly rows *)

Lemma StronglySorted_nth_error {A} (R : A -> A -> Prop) (l : list A) (a b : nat) (x y : A) :
  StronglySorted R l -> (a < b)%nat -> nth_error l a = Some x -> nth_error l b = Some y -> R x y.
Proof.
  intros Hs. revert a b. induction Hs as [|z l Hs IH Hz]; intros a b Hab Ha Hb; [destruct a; discriminate|].
  destruct a as [|a], b as [|b]; cbn in Ha, Hb; try lia.
  - injection Ha as <-. exact (proj1 (List.Forall_forall _ _) Hz y (nth_error_In _ _ Hb)).
  - apply (IH a b); [lia | exact Ha | exact Hb].
Qed.

(** Every quarterly label is the quarter end of a day of the panel. *)
Lemma quarter_last_labels (panel : list (Z * Q * Q)) :
  Forall (fun qe => exists d n g, In (d, n, g) panel /\ quarter_end d = qe)
         (map (fun '(qe, _, _) => qe) (quarter_last panel)).
Proof.
  induction panel as [|[[d n] g] rest IH]; cbn [quarter_last]; [constructor|].
  assert (Hr : Forall (fun qe => exists d' n' g', In (d', n', g') ((d, n, g) :: rest) /\
                                                   quarter_end d' = qe)
                 (map (fun '(qe, _, _) => qe) (quarter_last rest))).
  { refine (List.Forall_impl _ _ IH). intros qe (d' & n' & g' & Hin & Hq).
    exists d', n', g'. split; [right; exact Hin | exact Hq]. }
  destruct (quarter_last rest) as [|[[qe0 n0] g0] qs].
  - constructor; [exists d, n, g; split; [left; reflexivity | reflexivity] | constructor].
  - destruct (qe0 =? quarter_end d)%Z; [exact Hr|].
    constructor; [exists d, n, g; split; [left; reflexivity | reflexivity] | exact Hr].
Qed.

(** On increasing calendar dates the quarterly labels increase. *)
Lemma quarter_last_sorted (panel : list (Z * Q * Q)) :
  StronglySorted Z.lt (map (fun '(d, _, _) => d) panel) ->
  Forall (fun '(d, _, _) => valid_date d = true) panel ->
  StronglySorted Z.lt (map (fun '(qe, _, _) => qe) (quarter_last panel)).
Proof.
  induction panel as [|[[d n] g] rest IH]; intros Hs Hv; cbn [quarter_last]; [constructor|].
  cbn [map] in Hs. apply StronglySorted_inv in Hs as [Hs Hd].
  apply List.Forall_cons_iff in Hv as [Hvd Hv]. specialize (IH Hs Hv).
  assert (Hge : Forall (fun qe => (quarter_end d <= qe)%Z)
                       (map (fun '(qe, _, _) => qe) (quarter_last rest))).
  { refine (List.Forall_impl _ _ (quarter_last_labels rest)). intros qe (d' & n' & g' & Hin & <-).
    apply quarter_end_mono; [exact Hvd | exact (proj1 (List.Forall_forall _ _) Hv _ Hin) |].
    pose proof (proj1 (List.Forall_forall _ _) Hd d' (in_map (fun '(d, _, _) => d) _ _ Hin)).
    lia. }
  destruct (quarter_last rest) as [|[[qe0 n0] g0] qs]; [repeat constructor|].
  destruct (qe0 =? quarter_end d)%Z eqn:E; [exact IH|].
  apply Z.eqb_neq in E. cbn [map] in *. constructor; [exact IH|].
  apply StronglySorted_inv in IH as [_ Hqs]. apply List.Forall_cons_iff in Hge as [H0 _].
  constructor; [lia|]. refine (List.Forall_impl _ _ Hqs). intros x Hx. lia.
Qed.

(** Between two quarterly labels there is a trading day: one of the later
    quarter, after the earlier quarter's end. *)
Lemma quarter_gap_day (panel : list (Z * Q * Q)) (a b : nat) (qa qb : Z) :
  StronglySorted Z.lt (map (fun '(d, _, _) => d) panel) ->
  Forall (fun '(d, _, _) => valid_date d = true) panel ->
  (a < b)%nat ->
  nth_error (map (fun '(qe, _, _) => qe) (quarter_last panel)) a = Some qa ->
  nth_error (map (fun '(qe, _, _) => qe) (quarter_last panel)) b = Some qb ->
  exists d, In d (map (fun '(d, _, _) => d) panel) /\ (qa < d <= qb)%Z.
Proof.
  intros Hs Hv Hab Ha Hb.
  pose proof (StronglySorted_nth_error _ _ a b qa qb (quarter_last_sorted panel Hs Hv) Hab Ha Hb) as Hq.
  pose proof (quarter_last_labels panel) as Hl. rewrite List.Forall_forall in Hl, Hv.
  destruct (Hl qa (nth_error_In _ _ Ha)) as (da & na & ga & Hina & <-).
  destruct (Hl qb (nth_error_In _ _ Hb)) as (db & nb & gb & Hinb & <-).
  pose proof (Hv _ Hina) as Hva. pose proof (Hv _ Hinb) as Hvb. cbn in Hva, Hvb.
  exists db. split; [exact (in_map (fun '(d, _, _) => d) _ _ Hinb)|].
  split; [|exact (quarter_end_ge db Hvb)].
  destruct (Z.le_gt_cases db da) as [Hle | Hlt].
  - pose proof (quarter_end_mono db da Hvb Hva Hle). lia.
  - apply quarter_end_next; [exact Hva | exact Hvb | exact Hlt | lia].
Qed.

Lemma pct_change_from_length (prev : option Q) (xs : list Q) :
  length (pct_change_from prev xs) = length xs.
Proof. revert prev; induction xs as [|x xs IH]; intros prev; cbn; [reflexivity | now rewrite IH]. Qed.

(** The winner series keeps the quarterly labels. *)
Lemma winners_labels (qc : list (Z * Q * Q)) :
  map fst (winners qc) = map (fun '(qe, _, _) => qe) qc.
Proof.
  unfold winners, pct_change. rewrite map_map.
  rewrite (map_ext _ fst) by (intros [qe [a b]]; reflexivity).
  apply map_fst_combine. rewrite length_combine, !pct_change_from_length, !length_map. lia.
Qed.

(** ** Placing the shifted winners *)

Lemma place_winner_length (days : list Z) (acc : list (option Sym)) (p : Z * Sym) :
  length (place_winner days acc p) = length acc.
Proof. destruct p as [dt s]. unfold place_winner. destruct (Nat.ltb _ _); [apply length_insert | reflexivity]. Qed.

Lemma fold_place_length (days : list Z) (ps : list (Z * Sym)) (acc : list (option Sym)) :
  length (fold_left (place_winner days) ps acc) = length acc.
Proof.
  apply (fold_left_inv _ (fun l => length l = length acc)); [|reflexivity].
  intros l p _ Hl. rewrite place_winner_length. exact Hl.
Qed.

Lemma place_winners_length (days : list Z) (ws : list (Z * Sym)) :
  length (place_winners days ws) = length days.
Proof. unfold place_winners. rewrite fold_place_length. apply repeat_length. Qed.

(** A placement leaves every other day alone. *)
Lemma fold_place_other (days : list Z) (ps : list (Z * Sym)) (acc : list (option Sym)) (k : nat) :
  Forall (fun p => searchsorted_right days (fst p) <> k) ps ->
  fold_left (place_winner days) ps acc !! k = acc !! k.
Proof.
  revert acc; induction ps as [|[dt s] ps IH]; intros acc Hps; [reflexivity|].
  apply List.Forall_cons_iff in Hps as [Hp Hps]. cbn [fold_left]. rewrite IH by exact Hps.
  unfold place_winner. destruct (Nat.ltb _ _); [apply list_lookup_insert_ne; exact Hp | reflexivity].
Qed.

(** The shifted series pairs the label after a row with that row's winner. *)
Lemma shift_pairs_at (prev : option Sym) (l1 : list (Z * option Sym)) (qe : Z) (s : Sym)
    (qe' : Z) (w' : option Sym) (l2 : list (Z * option Sym)) :
  exists pre, shift_pairs prev (l1 ++ (qe, Some s) :: (qe', w') :: l2)
              = pre ++ (qe', s) :: shift_pairs w' l2.
Proof.
  revert prev; induction l1 as [|[q0 w0] l1 IH]; intros prev.
  - exists (match prev with Some p => [(qe, p)] | None => [] end). destruct prev; reflexivity.
  - destruct (IH w0) as [pre Hpre]. cbn [app shift_pairs]. rewrite Hpre.
    exists (match prev with Some p => (q0, p) :: pre | None => pre end). destruct prev; reflexivity.
Qed.

Lemma shift_pairs_labels (prev : option Sym) (l : list (Z * option Sym)) (q : Z) (t : Sym) :
  In (q, t) (shift_pairs prev l) -> exists w, In (q, w) l.
Proof.
  revert prev; induction l as [|[q0 w0] l IH]; intros prev Hin; [destruct Hin|].
  cbn [shift_pairs] in Hin.
  assert (Hr : In (q, t) (shift_pairs w0 l) -> exists w, In (q, w) ((q0, w0) :: l))
    by (intros H; destruct (IH w0 H) as [w Hw]; exists w; right; exact Hw).
  destruct prev as [p|]; [destruct Hin as [[= -> _] | Hin] | ]; auto.
  exists w0. left. reflexivity.
Qed.

(** The winner of row [i] is the last one written on the first day after
    label [i + 1], when no later label maps to that day. *)
Lemma place_after_label (days : list Z) (ws : list (Z * option Sym)) (i : nat) (qe qe' : Z)
    (s : Sym) (w' : option Sym) :
  nth_error ws i = Some (qe, Some s) -> nth_error ws (S i) = Some (qe', w') ->
  (forall j q w, (S i < j)%nat -> nth_error ws j = Some (q, w) ->
                 searchsorted_right days q <> searchsorted_right days qe') ->
  (searchsorted_right days qe' < length days)%nat ->
  place_winners days (winner_shifted ws) !! searchsorted_right days qe' = Some (Some s).
Proof.
  intros Hi Hs Hlater Hpos.
  destruct (nth_error_split ws i Hi) as (l1 & l2 & -> & Hl1).
  rewrite nth_error_app2 in Hs by lia. replace (S i - length l1)%nat with 1%nat in Hs by lia.
  destruct l2 as [|x l3]; [discriminate|]. cbn in Hs. injection Hs as ->.
  unfold winner_shifted. destruct (shift_pairs_at None l1 qe s qe' w' l3) as [pre ->].
  unfold place_winners. rewrite fold_left_app. cbn [fold_left].
  rewrite fold_place_other.
  - unfold place_winner at 1. rewrite (proj2 (Nat.ltb_lt _ _) Hpos).
    apply list_lookup_insert_eq. rewrite fold_place_length, repeat_length. exact Hpos.
  - apply List.Forall_forall. intros [q t] Hin. apply shift_pairs_labels in Hin as [w Hw].
    apply In_nth_error in Hw as [k Hk]. cbn [fst].
    apply (Hlater (S (S (i + k))) q w); [lia|].
    rewrite nth_error_app2 by lia. replace (S (S (i + k)) - length l1)%nat with (S (S k)) by lia.
    exact Hk.
Qed.

Lemma ffill_from_lookup_some {A} (last : option A) (l : list (option A)) (k : nat) (x : A) :
  l !! k = Some (Some x) -> ffill_from last l !! k = Some (Some x).
Proof.
  revert last k; induction l as [|o l IH]; intros last [|k] H; try discriminate.
  - injection H as ->. reflexivity.
  - apply IH. exact H.
Qed.

(** [searchsorted] on a sorted index: a day on or before [x] lies before
    the position, a day after [x] at or after it. *)
Lemma searchsorted_right_after (days : list Z) (x d : Z) (j : nat) :
  StronglySorted Z.lt days -> nth_error days j = Some d -> (d <= x)%Z ->
  (j < searchsorted_right days x)%nat.
Proof.
  intros Hs. revert j. induction Hs as [|d0 ds Hs IH Hd0]; intros [|j] Hj Hx; try discriminate.
  - cbn in Hj. injection Hj as <-. cbn. rewrite (proj2 (Z.ltb_ge x d0) Hx). lia.
  - cbn in Hj |- *. pose proof (proj1 (List.Forall_forall _ _) Hd0 d (nth_error_In _ _ Hj)).
    rewrite (proj2 (Z.ltb_ge x d0)) by lia. specialize (IH j Hj Hx). lia.
Qed.

Lemma searchsorted_right_before (days : list Z) (x d : Z) (j : nat) :
  nth_error days j = Some d -> (x < d)%Z -> (searchsorted_right days x <= j)%nat.
Proof.
  revert j. induction days as [|d0 ds IH]; intros [|j] Hj Hx; try discriminate.
  - cbn in Hj. injection Hj as <-. cbn. rewrite (proj2 (Z.ltb_lt x d0) Hx). lia.
  - cbn in Hj |- *. destruct (x <? d0)%Z; [lia|]. specialize (IH j Hj Hx). lia.
Qed.

(** Forward fill carries the last value over a run of NaN. *)
Lemma ffill_from_carry {A} (last : option A) (l : list (option A)) (k : nat) :
  (forall j, (j <= k)%nat -> l !! j = Some None) -> (k < length l)%nat ->
  ffill_from last l !! k = Some last.
Proof.
  revert last k; induction l as [|o l IH]; intros last k Hn Hk; cbn [length] in Hk; [lia|].
  pose proof (Hn 0%nat ltac:(lia)) as H0. cbn in H0. injection H0 as ->.
  destruct k as [|k]; [reflexivity|]. cbn [ffill_from].
  apply IH; [intros j Hj; exact (Hn (S j) ltac:(lia)) | lia].
Qed.

Lemma ffill_from_hold {A} (last : option A) (l : list (option A)) (pos k : nat) (x : A) :
  (pos <= k < length l)%nat -> l !! pos = Some (Some x) ->
  (forall j, (pos < j <= k)%nat -> l !! j = Some None) ->
  ffill_from last l !! k = Some (Some x).
Proof.
  revert last pos k; induction l as [|o l IH]; intros last pos k Hk Hp Hn; cbn [length] in Hk; [lia|].
  destruct pos as [|pos].
  - cbn in Hp. injection Hp as ->. destruct k as [|k]; [reflexivity|]. cbn [ffill_from].
    apply ffill_from_carry; [intros j Hj; exact (Hn (S j) ltac:(lia)) | lia].
  - destruct k as [|k]; [lia|]. cbn [ffill_from].
    apply (IH _ pos k); [lia | exact Hp | intros j Hj; exact (Hn (S j) ltac:(lia))].
Qed.

(** A day no placement maps to stays empty. *)
Lemma place_winners_none (days : list Z) (ps : list (Z * Sym)) (j : nat) :
  Forall (fun p => searchsorted_right days (fst p) <> j) ps -> (j < length days)%nat ->
  place_winners days ps !! j = Some None.
Proof.
  intros Hps Hj. unfold place_winners. rewrite fold_place_other by exact Hps.
  generalize (length days) Hj. clear. intros n. revert j.
  induction n as [|n IH]; intros [|j] Hj; cbn; try lia; [reflexivity|]. apply IH. lia.
Qed.

(** Later quarterly labels map to later days. *)
Lemma label_searchsorted_lt (panel : list (Z * Q * Q)) (a b : nat) (qa qb : Z) :
  StronglySorted Z.lt (map (fun '(d, _, _) => d) panel) ->
  Forall (fun '(d, _, _) => valid_date d = true) panel ->
  (a < b)%nat ->
  nth_error (map (fun '(qe, _, _) => qe) (quarter_last panel)) a = Some qa ->
  nth_error (map (fun '(qe, _, _) => qe) (quarter_last panel)) b = Some qb ->
  (searchsorted_right (map (fun '(d, _, _) => d) panel) qa
   < searchsorted_right (map (fun '(d, _, _) => d) panel) qb)%nat.
Proof.
  intros Hs Hv Hab Ha Hb.
  destruct (quarter_gap_day panel a b qa qb Hs Hv Hab Ha Hb) as (d & Hd & Hlo & Hhi).
  apply In_nth_error in Hd as [k Hk].
  pose proof (searchsorted_right_after _ qb d k Hs Hk Hhi).
  pose proof (searchsorted_right_before _ qa d k Hk Hlo). lia.
Qed.

(** After the first quarter both returns are always defined, so every
    later quarter is printed with the winner of its two returns. *)
Lemma winner_log_from (rows : list (Z * Q * Q)) (p q : Q) :
  let rn := pct_change_from (Some p) (map (fun '(_, n, _) => n) rows) in
  let rg := pct_change_from (Some q) (map (fun '(_, _, g) => g) rows) in
  let L := flat_map winner_row
             (combine (map (fun '(qe, (a, b)) => (qe, idxmax a b))
                         (combine (map (fun '(qe, _, _) => qe) rows) (combine rn rg)))
                      (combine rn rg)) in
  map (fun '(qe, _, _, _) => qe) L = map (fun '(qe, _, _) => qe) rows /\
  Forall (fun '(_, w, x, y) => w = Some (if x <? y then GOLDBEES else NIFTYBEES)) L.
Proof.
  revert p q. induction rows as [|[[qe n] g] rest IH]; intros p q; cbn; [split; constructor|].
  destruct (IH n g) as [H1 H2]. split; [f_equal; exact H1|].
  constructor; [|exact H2]. now destruct (_ <? _).
Qed.

(** Bar [k] of the run carries the open prices of day [k] of the cut
    allocation: [price_df = open_prices.loc[alloc_daily.index]]. *)
Lemma dm_bars_price (panel : list (Z * Q * Q)) (opens : list (option Q * option Q)) (k : nat)
    (b : Bar) :
  nth_error (dm_bars panel opens) k = Some b ->
  let off := first_valid_offset (alloc_ffilled panel) in
  exists pn pg, nth_error (fill_opens (map fst opens)) (off + k) = Some pn /\
    nth_error (fill_opens (map snd opens)) (off + k) = Some pg /\ bar_price b = [pn; pg].
Proof.
  intros Hb off. unfold dm_bars in Hb. fold off in Hb.
  rewrite nth_error_map, nth_error_combine, nth_error_skipn, nth_error_combine in Hb.
  destruct (nth_error (fill_opens (map fst opens)) (off + k)) as [pn|]; [|discriminate].
  destruct (nth_error (fill_opens (map snd opens)) (off + k)) as [pg|]; [|discriminate].
  destruct (nth_error (target_on_switch _) k); [|discriminate].
  cbn in Hb. injection Hb as <-. eauto.
Qed.

(** ** Theorems *)

(** C21: the linear scan [searchsorted_right] is numpy's
    [searchsorted(dt, side="right")]: on a sorted index it is the number
    of dates not after [dt]; every date before that position is on or
    before [dt] and the date at it, when there is one, is after [dt]. *)
Theorem searchsorted_right_spec (idx : list Z) (x : Z) :
  Sorted Z.le idx ->
  searchsorted_right idx x = length (List.filter (fun d => (d <=? x)%Z) idx) /\
  (forall i d, (i < searchsorted_right idx x)%nat -> nth_error idx i = Some d -> (d <= x)%Z) /\
  (forall d, nth_error idx (searchsorted_right idx x) = Some d -> (x < d)%Z).
Proof.
  intros Hs. induction Hs as [|d ds Hs IH Hhd]; [split; [reflexivity|]; split;
    [intros i d Hi; simpl in Hi; lia | intros d Hd; simpl in Hd; discriminate]|].
  destruct IH as (IH1 & IH2 & IH3). simpl. destruct (x <? d)%Z eqn:E.
  - apply Z.ltb_lt in E.
    assert (Hall : Forall (fun y => (x < y)%Z) ds).
    { apply Sorted_StronglySorted in Hs; [|intros ???; lia].
      destruct ds as [|d' ds']; [constructor|]. inversion Hhd; subst.
      apply StronglySorted_inv in Hs as [_ Hs]. constructor; [lia|].
      refine (List.Forall_impl _ _ Hs). intros; lia. }
    rewrite (proj2 (Z.leb_gt d x)) by lia. rewrite filter_all_false.
    + split; [reflexivity|]. split; [intros i d' Hi; lia|]. intros d' [= <-]. exact E.
    + intros y Hy. apply Z.leb_gt. exact (proj1 (List.Forall_forall _ _) Hall y Hy).
  - apply Z.ltb_ge in E. rewrite (proj2 (Z.leb_le d x)) by lia. simpl.
    split; [rewrite IH1; reflexivity|]. split.
    + intros [|i] d' Hi Hd; [injection Hd as <-; exact E|]. apply (IH2 i); [lia | exact Hd].
    + exact IH3.
Qed.

Lemma searchsorted_right_spec_witness :
  Sorted Z.le [20240102; 20240328; 20241001]%Z /\
  searchsorted_right [20240102; 20240328; 20241001]%Z 20240331 = 2%nat.
Proof.
  assert (H : Sorted Z.le [20240102; 20240328; 20241001]%Z)
    by (repeat constructor; simpl; lia).
  split; [exact H|].
  rewrite (proj1 (searchsorted_right_spec _ 20240331 H)). reflexivity.
Defined.

(** C25: the printed quarterly winner list (lines 72-76) has a row for
    every quarter but the first, whose returns are NaN, and each row
    names the ETF with the larger quarterly return, NIFTYBEES on a tie:
    the list shows the winner of each quarter, the allocation holds it
    two quarters later. *)
Theorem winner_log_rows (qc : list (Z * Q * Q)) :
  map (fun '(qe, _, _, _) => qe) (winner_log qc) = tl (map (fun '(qe, _, _) => qe) qc) /\
  Forall (fun '(_, w, x, y) => w = Some (if x <? y then GOLDBEES else NIFTYBEES)) (winner_log qc).
Proof.
  destruct qc as [|[[qe n] g] rest]; [split; constructor|].
  exact (winner_log_from rest n g).
Qed.

(** C14: the strategy's equity is marked at the open: [from_orders] gets
    [close=price_df], the open prices, so point [k] of [pf.value()] is the
    ledger after day [k] valued at that day's opens, while the benchmark
    curves and table read the closes (a finding). *)
Theorem dm_equity_at_open (panel : list (Z * Q * Q)) (opens : list (option Q * option Q))
    (k : nat) (b : Bar) :
  nth_error (dm_bars panel opens) k = Some b ->
  let bars := dm_bars panel opens in
  let L0 := init_ledger INIT_CASH (ncols_of bars) in
  let off := first_valid_offset (alloc_ffilled panel) in
  exists pn pg, nth_error (fill_opens (map fst opens)) (off + k) = Some pn /\
    nth_error (fill_opens (map snd opens)) (off + k) = Some pg /\
    nth_error (fst (dm_backtest panel opens)) k
    = Some (value (nth k (sim_states (bar_step dm_cfg dm_fees) 0 bars L0) L0) [pn; pg]).
Proof.
  intros Hb bars L0 off.
  destruct (dm_bars_price panel opens k b Hb) as (pn & pg & Hn & Hg & Hp).
  exists pn, pg. split; [exact Hn|]. split; [exact Hg|].
  unfold dm_backtest, from_orders. fold bars L0. rewrite simulate_states.
  rewrite nth_error_map, nth_error_combine. change bars with (dm_bars panel opens) at 2. rewrite Hb.
  assert (Hk : (k < length (sim_states (bar_step dm_cfg dm_fees) 0 bars L0))%nat)
    by (rewrite sim_states_length; apply nth_error_Some; unfold bars; rewrite Hb; discriminate).
  rewrite (nth_error_nth' _ L0 Hk). cbn. rewrite Hp. reflexivity.
Qed.

Lemma dm_equity_at_open_witness :
  let panel : list (Z * Q * Q) :=
    [(20240102%Z, 100, 50); (20240328%Z, 110, 52); (20240402%Z, 110, 52);
     (20240628%Z, 120, 53); (20240701%Z, 120, 53); (20240927%Z, 115, 60);
     (20241001%Z, 115, 60); (20241227%Z, 130, 61); (20250102%Z, 130, 61)] in
  let opens := map (fun '(_, n, g) => (Some (n - 1), Some (g + 1))) panel in
  exists b, nth_error (dm_bars panel opens) 0 = Some b /\
  exists pn pg, nth_error (fill_opens (map fst opens)) (first_valid_offset (alloc_ffilled panel)) = Some pn /\
    nth_error (fill_opens (map snd opens)) (first_valid_offset (alloc_ffilled panel)) = Some pg /\
    nth_error (fst (dm_backtest panel opens)) 0
    = Some (value (nth 0 (sim_states (bar_step dm_cfg dm_fees) 0 (dm_bars panel opens)
                            (init_ledger INIT_CASH (ncols_of (dm_bars panel opens))))
                     (init_ledger INIT_CASH (ncols_of (dm_bars panel opens)))) [pn; pg]).
Proof.
  intros panel opens. set (b := nth 0 (dm_bars panel opens) (mkBar [] [])).
  assert (Hb : nth_error (dm_bars panel opens) 0 = Some b) by (vm_compute; reflexivity).
  exists b. split; [exact Hb|]. rewrite <- (Nat.add_0_r (first_valid_offset _)).
  exact (dm_equity_at_open panel opens 0 b Hb).
Defined.

(** C29: The ETF rows of the dual-momentum benchmark table (lines 158-191):
    the NIFTYBEES and GOLDBEES columns, held with [from_holding] over the
    days of the cut allocation, report the total return, Sharpe and
    Sortino ratios and maximum drawdown of the ETF's closes on those days. *)
Theorem dm_bench_etf_rows (panel : list (Z * Q * Q)) (opens : list (option Q * option Q)) :
  Forall (fun '(_, n, g) => 0 < n /\ 0 < g) panel ->
  skipn (first_valid_offset (alloc_ffilled panel)) panel <> [] ->
  let rows := skipn (first_valid_offset (alloc_ffilled panel)) panel in
  Forall2 (fun row e => let '(t, s, o, d) := row in
             t == total_return e /\ s = sharpe (ann_factor FREQ) e /\
             o = sortino (ann_factor FREQ) e /\ d == max_drawdown e)
    (tl (dm_bench panel opens))
    [map (fun '(_, n, _) => n) rows; map (fun '(_, _, g) => g) rows].
Proof.
  intros Hpos Hne rows. unfold dm_bench. fold rows. cbn [map tl].
  apply (Forall_drop _ (first_valid_offset (alloc_ffilled panel))) in Hpos.
  fold rows in Hpos, Hne. clearbody rows.
  destruct rows as [|[[d0 n0] g0] rest]; [contradiction|].
  apply List.Forall_cons_iff in Hpos as [[Hn Hg] _]. cbn [map].
  apply List.Forall2_cons; [|apply List.Forall2_cons; [|apply List.Forall2_nil]];
    apply from_holding_perf_row; unfold INIT_CASH, FEES; lra.
Qed.

Lemma dm_bench_etf_rows_witness :
  let panel : list (Z * Q * Q) :=
    [(20240102%Z, 100, 50); (20240328%Z, 110, 52); (20240402%Z, 110, 52);
     (20240628%Z, 120, 53); (20240701%Z, 120, 53); (20240927%Z, 115, 60);
     (20241001%Z, 115, 60); (20241227%Z, 130, 61); (20250102%Z, 130, 61)] in
  Forall (fun '(_, n, g) => 0 < n /\ 0 < g) panel /\
  skipn (first_valid_offset (alloc_ffilled panel)) panel <> [] /\
  length (tl (dm_bench panel (repeat (Some 100, Some 50) 9))) = 2%nat.
Proof.
  intros panel.
  assert (Hp : Forall (fun '(_, n, g) => 0 < n /\ 0 < g) panel) by (repeat constructor; reflexivity).
  assert (Hn : skipn (first_valid_offset (alloc_ffilled panel)) panel <> [])
    by (vm_compute; discriminate).
  split; [exact Hp|]. split; [exact Hn|].
  pose proof (Forall2_length (dm_bench_etf_rows panel (repeat (Some 100, Some 50) 9) Hp Hn)) as H.
  cbv zeta in H. rewrite H. reflexivity.
Defined.

(** C1: the rotation holds the winner of the quarter before the one that
    has just ended. Let [qe'] be the quarter-end label of quarterly row
    [i + 1], whatever its own winner [w'], and [s] the winner of row [i]
    (the quarter that ended at [qe]). From the first trading day after
    [qe'] up to the day before the next placement (the one after the
    label of row [i + 2], or the end of the data), the allocation holds
    [s]. [winner.shift(1)] (line 82) moves each winner one row down, and
    the placement after its new label (lines 84-89) adds the quarter of
    delay the comment of line 80 counts on alone: a quarter's holding is
    decided by returns measured two quarter ends before it starts. *)
Theorem dm_holds_previous_winner (panel : list (Z * Q * Q)) (i : nat) (qe qe' : Z) (s : Sym)
    (w' : option Sym) (k : nat) :
  StronglySorted Z.lt (map (fun '(d, _, _) => d) panel) ->
  Forall (fun '(d, _, _) => valid_date d = true) panel ->
  nth_error (winners (quarter_last panel)) i = Some (qe, Some s) ->
  nth_error (winners (quarter_last panel)) (S i) = Some (qe', w') ->
  (searchsorted_right (map (fun '(d, _, _) => d) panel) qe' <= k < length panel)%nat ->
  (forall qe'' w'', nth_error (winners (quarter_last panel)) (S (S i)) = Some (qe'', w'') ->
     (k < searchsorted_right (map (fun '(d, _, _) => d) panel) qe'')%nat) ->
  alloc_ffilled panel !! k = Some (Some s).
Proof.
  intros Hs Hv Hi Hi' Hk Hnext.
  assert (Hl : forall m l, nth_error (winners (quarter_last panel)) m = Some l ->
                 nth_error (map (fun '(qe, _, _) => qe) (quarter_last panel)) m = Some (fst l))
    by (intros m l Hm; rewrite <- winners_labels, nth_error_map, Hm; reflexivity).
  set (days := map (fun '(d, _, _) => d) panel) in *.
  set (ws := winners (quarter_last panel)) in *.
  assert (Hlt : forall a b la lb, (a < b)%nat -> nth_error ws a = Some la -> nth_error ws b = Some lb ->
                  (searchsorted_right days (fst la) < searchsorted_right days (fst lb))%nat)
    by (intros a b la lb Hab Ha Hb; exact (label_searchsorted_lt panel a b _ _ Hs Hv Hab (Hl _ _ Ha) (Hl _ _ Hb))).
  assert (Hlen : length days = length panel) by apply length_map.
  unfold alloc_ffilled, ffill. fold days ws.
  apply (ffill_from_hold _ _ (searchsorted_right days qe')); [rewrite place_winners_length; lia | |].
  - apply (place_after_label _ _ i qe qe' s w' Hi Hi'); [|lia].
    intros j q w Hj Hq. pose proof (Hlt _ _ _ _ Hj Hi' Hq). cbn [fst] in *. lia.
  - intros j Hj. apply place_winners_none; [|lia].
    apply List.Forall_forall. intros [q t] Hin. apply shift_pairs_labels in Hin as [w Hw].
    apply In_nth_error in Hw as [m Hm]. cbn [fst].
    destruct (Nat.lt_ge_cases (S i) m) as [Hgt | Hle].
    + destruct (nth_error ws (S (S i))) as [[q2 w2]|] eqn:E2;
        [|apply nth_error_None in E2;
          assert (Hm' : nth_error ws m <> None) by (rewrite Hm; discriminate);
          apply nth_error_Some in Hm'; lia].
      pose proof (Hnext q2 w2 eq_refl).
      destruct (Nat.eq_dec m (S (S i))) as [-> | Hne].
      * rewrite E2 in Hm. injection Hm as -> ->. lia.
      * pose proof (Hlt _ _ _ _ (ltac:(lia) : (S (S i) < m)%nat) E2 Hm). cbn [fst] in *. lia.
    + destruct (Nat.eq_dec m (S i)) as [-> | Hne].
      * rewrite Hi' in Hm. injection Hm as -> ->. lia.
      * pose proof (Hlt _ _ _ _ (ltac:(lia) : (m < S i)%nat) Hm Hi'). cbn [fst] in *. lia.
Qed.

(** GOLDBEES wins the quarter ending 2024-09-30, yet from the first
    trading day after it (2024-10-01, day 6) to the last day before the
    next placement (2024-12-27, day 7) the portfolio holds NIFTYBEES,
    the winner of the quarter ending 2024-06-30. *)
Lemma dm_holds_previous_winner_witness :
  let panel : list (Z * Q * Q) :=
    [(20240102%Z, 100, 50); (20240328%Z, 110, 52); (20240402%Z, 110, 52);
     (20240628%Z, 120, 53); (20240701%Z, 120, 53); (20240927%Z, 115, 60);
     (20241001%Z, 115, 60); (20241227%Z, 130, 61); (20250102%Z, 130, 61)] in
  StronglySorted Z.lt (map (fun '(d, _, _) => d) panel) /\
  Forall (fun '(d, _, _) => valid_date d = true) panel /\
  nth_error (winners (quarter_last panel)) 2 = Some (20240930%Z, Some GOLDBEES) /\
  alloc_ffilled panel !! 7%nat = Some (Some NIFTYBEES).
Proof.
  intros panel.
  assert (H1 : StronglySorted Z.lt (map (fun '(d, _, _) => d) panel)) by (cbn; repeat constructor).
  assert (H2 : Forall (fun '(d, _, _) => valid_date d = true) panel) by (repeat constructor).
  split; [exact H1|]. split; [exact H2|]. split; [vm_compute; reflexivity|].
  apply (dm_holds_previous_winner panel 1 20240630 20240930 NIFTYBEES (Some GOLDBEES) 7 H1 H2);
    [vm_compute; reflexivity | vm_compute; reflexivity | vm_compute; lia |].
  intros qe'' w'' E. vm_compute in E. injection E as <- <-. vm_compute. lia.
Defined.

(** On a concrete panel the lag shows end to end: GOLDBEES wins the
    quarter ending 2024-09-30, yet from the first trading day after it
    (2024-10-01) the portfolio holds NIFTYBEES, the winner of the quarter
    before; GOLDBEES is bought only on 2025-01-02. *)
Example dm_holding_two_quarters_back :
  let panel : list (Z * Q * Q) :=
    [(20240102%Z, 100, 50); (20240328%Z, 110, 52); (20240402%Z, 110, 52);
     (20240628%Z, 120, 53); (20240701%Z, 120, 53); (20240927%Z, 115, 60);
     (20241001%Z, 115, 60); (20241227%Z, 130, 61); (20250102%Z, 130, 61)] in
  In (20240930%Z, Some GOLDBEES) (winners (quarter_last panel)) /\
  nth 6 (alloc_ffilled panel) None = Some NIFTYBEES /\
  nth 8 (alloc_ffilled panel) None = Some GOLDBEES.
Proof. vm_compute. split; [right; right; left; reflexivity | split; reflexivity]. Qed.

(** C20: the rotation sends the held ETF's order on switch days only: if a
    winner has been placed, bar [k] of the run carries the holding [s] of
    day [k] of the cut allocation ([alloc_daily]); on a switch day its
    sizes are [ALLOCATION] on [s] and 0 on the other ETF
    ([np.where(alloc_daily == sym, ALLOCATION, 0.0)], lines 96-97), on any
    other day both are NaN ([weights.where(switch_mask, np.nan)], line
    102). *)
Theorem dm_orders_on_switch_days (panel : list (Z * Q * Q)) (opens : list (option Q * option Q))
    (k : nat) (b : Bar) :
  first_valid_index (alloc_ffilled panel) <> None ->
  nth_error (dm_bars panel opens) k = Some b ->
  exists s, nth_error (alloc_daily panel) k = Some (Some s) /\
    bar_size b = if nth k (switch_mask (alloc_daily panel)) false
                 then match s with
                      | NIFTYBEES => [Num ALLOCATION; Num 0]
                      | GOLDBEES => [Num 0; Num ALLOCATION]
                      end
                 else [NaN; NaN].
Proof.
  intros Hv Hb. destruct (dm_bars_nth panel opens k b Hb) as (a & sw & Ha & Hsw & Hsz).
  pose proof (alloc_daily_total panel Hv) as Ht. unfold alloc_daily in Ht |- *.
  destruct a as [s|]; [|exact (False_ind _ (proj1 (List.Forall_forall _ _) Ht None (nth_error_In _ _ Ha) eq_refl))].
  exists s. split; [exact Ha|]. rewrite (nth_error_nth _ _ _ Hsw), Hsz. destruct sw, s; reflexivity.
Qed.

Lemma dm_orders_on_switch_days_witness :
  let panel : list (Z * Q * Q) :=
    [(20240102%Z, 100, 50); (20240328%Z, 110, 52); (20240402%Z, 110, 52);
     (20240628%Z, 120, 53); (20240701%Z, 120, 53); (20240927%Z, 115, 60);
     (20241001%Z, 115, 60); (20241227%Z, 130, 61); (20250102%Z, 130, 61)] in
  let opens := repeat (Some 100, Some 50) 9 in
  first_valid_index (alloc_ffilled panel) = Some 6%nat /\
  nth_error (dm_bars panel opens) 2 = Some (mkBar [100; 50] [Num 0; Num ALLOCATION]) /\
  exists s, nth_error (alloc_daily panel) 2 = Some (Some s) /\
    [Num 0; Num ALLOCATION] = if nth 2 (switch_mask (alloc_daily panel)) false
                              then match s with
                                   | NIFTYBEES => [Num ALLOCATION; Num 0]
                                   | GOLDBEES => [Num 0; Num ALLOCATION]
                                   end
                              else [NaN; NaN].
Proof.
  intros panel opens.
  assert (Hv : first_valid_index (alloc_ffilled panel) = Some 6%nat) by (vm_compute; reflexivity).
  assert (Hb : nth_error (dm_bars panel opens) 2 = Some (mkBar [100; 50] [Num 0; Num ALLOCATION]))
    by (vm_compute; reflexivity).
  split; [exact Hv|]. split; [exact Hb|].
  exact (dm_orders_on_switch_days panel opens 2 _ ltac:(rewrite Hv; discriminate) Hb).
Defined.

(** C2: the rotation trades on switch days only: every fill of the run is
    on a day whose holding differs from the day before (or on the first
    day), never in between. *)
Theorem dm_trades_on_switch_days (panel : list (Z * Q * Q)) (opens : list (option Q * option Q))
    (f : Fill) :
  In f (fills (snd (dm_backtest panel opens))) ->
  let alloc := skipn (first_valid_offset (alloc_ffilled panel)) (alloc_ffilled panel) in
  nth (fill_bar f) (switch_mask alloc) false = true.
Proof.
  intros Hf alloc. unfold dm_backtest in Hf.
  destruct (from_orders_fills _ _ _ _ f Hf) as (b & Hb & i & Hi).
  destruct (nth (fill_bar f) (switch_mask alloc) false) eqn:E; [reflexivity|].
  rewrite (dm_bars_idle panel opens _ b Hb E) in Hi.
  exfalso. apply Hi. destruct i as [|[|[|i]]]; reflexivity.
Qed.

Lemma dm_trades_on_switch_days_witness :
  let panel : list (Z * Q * Q) :=
    [(20240102%Z, 100, 50); (20240328%Z, 110, 52); (20240402%Z, 110, 52);
     (20240628%Z, 120, 53); (20240701%Z, 120, 53); (20240927%Z, 115, 60);
     (20241001%Z, 115, 60); (20241227%Z, 130, 61); (20250102%Z, 130, 61)] in
  let opens := repeat (Some 100, Some 50) 9 in
  let fs := fills (snd (dm_backtest panel opens)) in
  In (nth 2 fs (mkFill 0 0 0 0 0 0)) fs /\
  fill_bar (nth 2 fs (mkFill 0 0 0 0 0 0)) = 2%nat /\
  nth 2 (switch_mask (skipn (first_valid_offset (alloc_ffilled panel)) (alloc_ffilled panel)))
    false = true.
Proof.
  intros panel opens fs.
  assert (H : In (nth 2 fs (mkFill 0 0 0 0 0 0)) fs)
    by (apply nth_In; vm_compute; lia).
  split; [exact H|]. split; [vm_compute; reflexivity|].
  exact (dm_trades_on_switch_days panel opens _ H).
Defined.

(** C3: a switch closes the leg it leaves: on a switch day to [s], the
    other ETF gets a zero target and the bar sells all of it (sells run
    before buys), so after the bar the portfolio holds none of it,
    whatever whole number of units it held. *)
Theorem dm_switch_closes_leg (t : nat) (pn pg : Q) (s : Sym) (L : Ledger) :
  0 < pn -> 0 < pg -> ledger_ok dm_cfg L -> length (positions L) = 2%nat ->
  Forall (fun q => 0 <= q /\ is_lot 1 q) (positions L) ->
  let other := match s with NIFTYBEES => 1%nat | GOLDBEES => 0%nat end in
  nth other (positions (bar_step dm_cfg dm_fees t
     (mkBar [pn; pg] [Num (weight_of NIFTYBEES (Some s)); Num (weight_of GOLDBEES (Some s))]) L)) 0
  == 0.
Proof.
  intros Hn Hg HL Hlen Hpos other.
  assert (Ho : (other < 2)%nat) by (destruct s; simpl; lia).
  assert (Hq : 0 <= nth other (positions L) 0 /\ is_lot 1 (nth other (positions L) 0)).
  { rewrite List.Forall_forall in Hpos. apply Hpos, nth_In. lia. }
  assert (Hmin : min_size dm_cfg <= 1) by (simpl; lra).
  assert (Hfee : 0 <= fees dm_fees <= 1) by (unfold dm_fees, FEES; simpl; lra).
  apply (bar_step_target_zero dm_cfg dm_fees eq_refl eq_refl Hmin eq_refl Hfee
           (Qeq_refl _) (Qeq_refl _)).
  - destruct s; reflexivity.
  - destruct s; simpl; assumption.
  - exact HL.
  - apply Hq.
  - apply Hq.
  - rewrite Hlen. reflexivity.
  - exact Ho.
Qed.

Lemma dm_switch_closes_leg_witness :
  let L := mkLedger 250000 [7500; 0] [] 0 in
  0 < 100 /\ 0 < 50 /\ ledger_ok dm_cfg L /\ length (positions L) = 2%nat /\
  Forall (fun q => 0 <= q /\ is_lot 1 q) (positions L) /\
  nth 0 (positions (bar_step dm_cfg dm_fees 3
     (mkBar [100; 50] [Num (weight_of NIFTYBEES (Some GOLDBEES));
                       Num (weight_of GOLDBEES (Some GOLDBEES))]) L)) 0 == 0.
Proof.
  intros L.
  assert (H1 : (0 : Q) < 100) by lra. assert (H2 : (0 : Q) < 50) by lra.
  assert (H3 : ledger_ok dm_cfg L)
    by (split; [unfold L; simpl; lra | split; [constructor | discriminate]]).
  assert (H5 : Forall (fun q => 0 <= q /\ is_lot 1 q) (positions L)).
  { repeat constructor; simpl; try lra; [exists 7500%Z | exists 0%Z]; reflexivity. }
  split; [exact H1|]. split; [exact H2|]. split; [exact H3|]. split; [reflexivity|].
  split; [exact H5|].
  exact (dm_switch_closes_leg 3 100 50 GOLDBEES L H1 H2 H3 eq_refl H5).
Defined.

Lemma switch_from_length (prev : option Sym) (l : list (option Sym)) :
  length (switch_from prev l) = length l.
Proof. revert prev; induction l as [|a l IH]; intros prev; simpl; [reflexivity | rewrite IH; reflexivity]. Qed.

Lemma switch_mask_length (alloc : list (option Sym)) : length (switch_mask alloc) = length alloc.
Proof. destruct alloc as [|a l]; simpl; [reflexivity | rewrite switch_from_length; reflexivity]. Qed.

Lemma select_length {X Y} (h : X -> Y) (xs : list X) (m : list bool) :
  length xs = length m ->
  length (flat_map (fun p : X * bool => if snd p then [h (fst p)] else []) (combine xs m))
  = count_true m.
Proof.
  unfold count_true. revert m; induction xs as [|x xs IH]; intros [|b m] Hl; simpl in *;
    try discriminate; [reflexivity|].
  destruct b; simpl; rewrite IH by lia; reflexivity.
Qed.

(** The exported rebalance log (lines 301-305) has one row per
    rebalance the script counts and prints (line 104): exactly the switch
    days, each with the ETF bought and the portfolio value of the day. *)
Theorem rebalance_log_count (days : list Z) (alloc : list (option Sym)) (equity : list Q) :
  length days = length alloc -> length equity = length alloc ->
  length (rebalance_log days alloc equity) = rebalance_count alloc /\
  Forall (fun '(d, a, e) => exists i, nth_error days i = Some d /\ nth_error alloc i = Some a /\
                              nth_error equity i = Some e /\
                              nth_error (switch_mask alloc) i = Some true)
         (rebalance_log days alloc equity).
Proof.
  intros Hd He. unfold rebalance_log, rebalance_count. split.
  - rewrite (flat_map_ext _ (fun p : Z * option Sym * Q * bool => if snd p then [fst p] else []))
      by (intros [[[d a] e] sw]; reflexivity).
    apply (select_length (fun x => x)). rewrite !length_combine, switch_mask_length. lia.
  - apply List.Forall_forall. intros [[d a] e] Hin. apply in_flat_map in Hin as ([[[d' a'] e'] sw] & Hin & Hx).
    destruct sw; [|destruct Hx]. destruct Hx as [[= <- <- <-] | []].
    apply In_nth_error in Hin as [i Hi]. exists i.
    rewrite !nth_error_combine in Hi.
    destruct (nth_error days i), (nth_error alloc i), (nth_error equity i), (nth_error (switch_mask alloc) i);
      try discriminate; injection Hi as -> -> -> ->. auto.
Qed.

Lemma rebalance_log_count_witness :
  length [1; 2; 3]%Z = length [Some NIFTYBEES; Some NIFTYBEES; Some GOLDBEES] /\
  length [100; 101; 99] = length [Some NIFTYBEES; Some NIFTYBEES; Some GOLDBEES] /\
  length (rebalance_log [1; 2; 3]%Z [Some NIFTYBEES; Some NIFTYBEES; Some GOLDBEES] [100; 101; 99]) = 2%nat.
Proof.
  split; [reflexivity|]. split; [reflexivity|].
  rewrite (proj1 (rebalance_log_count [1; 2; 3]%Z [Some NIFTYBEES; Some NIFTYBEES; Some GOLDBEES]
                    [100; 101; 99] eq_refl eq_refl)).
  reflexivity.
Defined.


