(* ===== verification/Charts.v ===== *)
(** * Charts: the Plotly figures of the scripts, as data

    Three of the scripts end with Plotly figures of the curves they
    computed (buy_hold_75_25_backtest.py lines 199-275,
    dual_momentum_backtest.py lines 213-297,
    niftybees_rsi_accumulation_backtest.py lines 283-369). A figure is
    modelled by the data it is handed: one [Trace] per [go.Scatter] with
    its name, its subplot row, its x values (the dates of the series'
    index) and its y values, NaN as [None]. Colours, widths, dash styles,
    fills, titles and axis formats are presentation, not modelled. A name
    written with an f-string that formats a rate,
    [f"{prefix}{v * 100:.2f}%{suffix}"], is [PctLabel prefix v suffix]:
    the rate is kept ([None] for a NaN, printed "nan%"), its decimal
    rendering is not modelled.

    The theorems: every trace of every figure is drawn over the dates of
    its script's axis, with one y value per date and no gap: the panel's
    days for buy-and-hold and the days of the cut allocation for dual
    momentum, provided the NIFTY 50 index has a close on one of those
    days (otherwise its reindexed closes, and its curve, are NaN
    throughout); the resampled days for the RSI strategy, whose strategy,
    NIFTYBEES and cash curves are resampled from different series and
    still share their days. *)

From Stdlib Require Import String.
From Stdlib Require Import QArith List Lia ZArith Reals Qreals Permutation.
From stdpp Require Import base list.
From S2P Require Import Prelude Panel Sizing Ledger Growth Analytics.
From S2P Require Import BuyHold DualMomentum RsiAccumulation.
Import ListNotations.
Open Scope Q_scope.

(** The name of a trace: a literal, or an f-string formatting a rate. *)
Inductive Label := Lit (s : string) | PctLabel (prefix : string) (v : option R) (suffix : string).

(** [go.Scatter(x=..., y=..., name=...)] added at [row=...]. *)
Record Trace := mkTrace { tr_name : Label; tr_row : nat; tr_x : list Z; tr_y : list (option R) }.

(** [series.values] and [series.values * 100] of a rational series. *)
Definition ys (l : list Q) : list (option R) := map (fun v => Some (Q2R v)) l.
Definition ys_pct (l : list Q) : list (option R) := map (fun v => Some (Q2R v * 100)%R) l.

(** The same of a series that may hold NaN. *)
Definition ys_nan (l : list (option Q)) : list (option R) := map (option_map Q2R) l.
Definition ys_nan_pct (l : list (option Q)) : list (option R) :=
  map (option_map (fun v => Q2R v * 100)%R) l.

(** Line 192 of buy_hold_75_25_backtest.py:
    [cum_fd = fd_equity / fd_equity.iloc[0] - 1] on the real FD curve. *)
Definition cum_returns_R (l : list R) : list R :=
  match l with [] => [] | f0 :: _ => map (fun f => f / f0 - 1)%R l end.

(** A trace drawn over [days], one value per day, no gap. *)
Definition trace_on (days : list Z) (t : Trace) : Prop :=
  tr_x t = days /\ length (tr_y t) = length days /\ Forall (fun y => y <> None) (tr_y t).

(** ** buy_hold_75_25_backtest.py *)

(** Lines 210-235: the dashboard, five cumulative-return curves on row 1
    and the strategy's drawdown on row 2, all indexed by
    [close_prices.index] (the NIFTY 50 closes are reindexed onto it, the
    FD curve is built on it). *)
Definition bh_dashboard (panel : list (Z * Q * Q)) (equity : list Q) (nifty : list (option Q))
    : list Trace :=
  let days := map (fun '(d, _, _) => d) panel in
  let nb := map (fun '(_, n, _) => n) panel in
  let gb := map (fun '(_, _, g) => g) panel in
  let cum_fd := cum_returns_R (fd_equity (Q2R BuyHoldConfig.INIT_CASH) (length panel)) in
  [mkTrace (Lit "75/25 Portfolio") 1 days (ys (cum_returns equity));
   mkTrace (Lit "NIFTY 50 Index") 1 days (ys_nan (cum_returns_nan nifty));
   mkTrace (Lit "NIFTYBEES (B&H)") 1 days (ys (cum_returns nb));
   mkTrace (Lit "GOLDBEES (B&H)") 1 days (ys (cum_returns gb));
   mkTrace (PctLabel "HDFC FD " (Some FD_CAGR) "") 1 days (map Some cum_fd);
   mkTrace (Lit "Drawdown") 2 days (ys (drawdown equity))].

(** Lines 249-264: the strategy, the NIFTY 50 and the FD in percent, named
    with their CAGR; [None] where the CAGR block raises. *)
Definition bh_fig2 (panel : list (Z * Q * Q)) (equity : list Q) (nifty : list (option Q))
    : option (list Trace) :=
  match bh_cagrs panel equity nifty with
  | None => None
  | Some (cp, _, _, c50) =>
      let days := map (fun '(d, _, _) => d) panel in
      let cum_fd := cum_returns_R (fd_equity (Q2R BuyHoldConfig.INIT_CASH) (length panel)) in
      Some [mkTrace (PctLabel "75/25 Portfolio (CAGR: " (Some cp) ")") 1 days (ys_pct (cum_returns equity));
            mkTrace (PctLabel "NIFTY 50 B&H (CAGR: " c50 ")") 1 days (ys_nan_pct (cum_returns_nan nifty));
            mkTrace (PctLabel "HDFC FD (CAGR: " (Some FD_CAGR) ")") 1 days
                    (map (fun f => Some (f * 100)%R) cum_fd)]
  end.

(** The figures of a run from the three raw histories. *)
Definition bh_charts (hist_n hist_g index_hist : list (Z * Q))
    : list Trace * option (list Trace) :=
  let panel := bh_panel hist_n hist_g in
  let equity := fst (buy_hold_backtest hist_n hist_g) in
  let nifty := bh_nifty_close index_hist panel in
  (bh_dashboard panel equity nifty, bh_fig2 panel equity nifty).

(** ** dual_momentum_backtest.py *)

(** Lines 226-256: the dashboard, four cumulative-return curves on row 1,
    the drawdown on row 2 and the holding indicator (1 on NIFTYBEES days)
    on row 3, all over [alloc_daily.index], the days of the cut
    allocation. *)
Definition dm_dashboard (panel : list (Z * Q * Q)) (opens : list (option Q * option Q))
    (index_hist : list (Z * Q)) : list Trace :=
  let days := skipn (first_valid_offset (alloc_ffilled panel)) (map (fun '(d, _, _) => d) panel) in
  let '(cs, cb, cg, dd) := dm_curves panel opens in
  let c50 := dm_cum_nifty50 index_hist panel in
  [mkTrace (Lit "Dual Momentum") 1 days (ys cs);
   mkTrace (Lit "NIFTY 50 Index") 1 days (ys_nan c50);
   mkTrace (Lit "NIFTYBEES (B&H)") 1 days (ys cb);
   mkTrace (Lit "GOLDBEES (B&H)") 1 days (ys cg);
   mkTrace (Lit "Drawdown") 2 days (ys dd);
   mkTrace (Lit "Holding") 3 days (map (fun z => Some (IZR z)) (holding_indicator (alloc_daily panel)))].

(** Lines 275-285: the strategy against the NIFTY 50, in percent. *)
Definition dm_fig2 (panel : list (Z * Q * Q)) (opens : list (option Q * option Q))
    (index_hist : list (Z * Q)) : list Trace :=
  let days := skipn (first_valid_offset (alloc_ffilled panel)) (map (fun '(d, _, _) => d) panel) in
  let '(cs, _, _, _) := dm_curves panel opens in
  [mkTrace (Lit "Dual Momentum Strategy") 1 days (ys_pct cs);
   mkTrace (Lit "NIFTY 50 Buy & Hold") 1 days (ys_nan_pct (dm_cum_nifty50 index_hist panel))].

(** The figures of a run from the three raw histories. *)
Definition dm_charts (hist_n hist_g : list (Z * (Q * Q))) (index_hist : list (Z * Q))
    : list Trace * list Trace :=
  let panel := dm_panel hist_n hist_g in
  let opens := dm_opens hist_n hist_g in
  (dm_dashboard panel opens index_hist, dm_fig2 panel opens index_hist).

(** ** niftybees_rsi_accumulation_backtest.py *)

(** Lines 296-322: the strategy's daily equity, the NIFTYBEES buy and
    hold and the FD on row 1, the drawdown on row 2 (all on their own
    daily index), the weekly RSI from the first bar on, row 3; [None]
    where [close_15m.index[0]] of no bars raises. *)
Definition rsi_dashboard (wk : list Z) (rs : list (option Q)) (bars : list Bar15)
    : option (list Trace) :=
  let equity := fst (rsi_backtest wk rs bars) in
  let ed := equity_daily bars equity in
  let nb := niftybees_bh_equity bars in
  match rsi_plot wk rs bars with
  | None => None
  | Some rp =>
      Some [mkTrace (Lit "RSI Accumulation") 1 (map fst ed) (ys (map snd ed));
            mkTrace (Lit "NIFTYBEES B&H") 1 (map fst nb) (ys (map snd nb));
            mkTrace (PctLabel "HDFC FD " (Some FD_CAGR) "") 1 (map fst ed)
                    (map Some (rsi_fd_equity bars equity));
            mkTrace (Lit "Drawdown") 2 (map fst ed) (ys (drawdown_daily bars equity));
            mkTrace (Lit "Weekly RSI") 3 (map fst rp) (ys (map snd rp))]
  end.

(** Lines 344-357: portfolio value, invested value and cash; the cash
    trace takes its x from [cash.index] and its y from
    [cash.reindex(equity_daily.index).ffill()]. *)
Definition rsi_fig2 (wk : list Z) (rs : list (option Q)) (bars : list Bar15) : list Trace :=
  let ed := equity_daily bars (fst (rsi_backtest wk rs bars)) in
  let cs := cash_daily wk rs bars in
  let inv := invested_daily wk rs bars in
  [mkTrace (Lit "Portfolio Value") 1 (map fst ed) (ys (map snd ed));
   mkTrace (Lit "Invested Value") 1 (map fst inv) (ys (map snd inv));
   mkTrace (Lit "Cash") 1 (map fst cs) (map (option_map Q2R) (reindex_ffill cs (map fst ed)))].

(** ** Lemmas *)

Lemma trace_on_map_some (days : list Z) (name : Label) (row : nat) {A} (f : A -> R) (l : list A) :
  length l = length days -> trace_on days (mkTrace name row days (map (fun v => Some (f v)) l)).
Proof.
  intros H. split; [reflexivity|]. cbn [tr_y]. rewrite length_map. split; [exact H|].
  apply Forall_map, Forall_forall. intros; discriminate.
Qed.

Lemma trace_on_ys (days : list Z) (name : Label) (row : nat) (l : list Q) :
  length l = length days -> trace_on days (mkTrace name row days (ys l)).
Proof. apply trace_on_map_some. Qed.

Lemma trace_on_ys_pct (days : list Z) (name : Label) (row : nat) (l : list Q) :
  length l = length days -> trace_on days (mkTrace name row days (ys_pct l)).
Proof. apply (trace_on_map_some days name row (fun v => Q2R v * 100)%R). Qed.

Lemma cum_returns_R_length (l : list R) : length (cum_returns_R l) = length l.
Proof. destruct l; [reflexivity | apply length_map]. Qed.

(** A series that may hold NaN, drawn where it has none. *)
Lemma trace_on_nan (days : list Z) (name : Label) (row : nat) (f : Q -> R) (l : list (option Q)) :
  length l = length days -> Forall (fun o => o <> None) l ->
  trace_on days (mkTrace name row days (map (option_map f) l)).
Proof.
  intros Hl Hn. split; [reflexivity|]. cbn [tr_y]. rewrite length_map. split; [exact Hl|].
  apply Forall_map. refine (List.Forall_impl _ _ Hn). intros [x|] H; [discriminate | contradiction].
Qed.

Lemma cum_returns_nan_total (l : list (option Q)) :
  Forall (fun o => o <> None) l -> Forall (fun o => o <> None) (cum_returns_nan l).
Proof.
  intros H. destruct l as [|[a|] l]; [constructor | | inversion H; contradiction].
  unfold cum_returns_nan. apply Forall_map. refine (List.Forall_impl _ _ H).
  intros [b|] Hb; cbn; [discriminate | contradiction].
Qed.

(** The NIFTY 50 closes read on [days] have no NaN as soon as the index
    has a close on one of them. *)
Lemma nifty_total (index_hist : list (Z * Q)) (days : list Z) :
  (exists d, In d days /\ In d (map fst index_hist)) ->
  Forall (fun o => o <> None) (reindex_ffill_bfill (sort_index index_hist) days).
Proof.
  intros (d & Hd & Hi).
  assert (Hs : In d (map fst (sort_index index_hist)))
    by exact (Permutation_in _ (Permutation_map fst (sort_index_perm index_hist)) Hi).
  refine (List.Forall_impl _ _ (proj2 (reindex_ffill_bfill_total _ _ d Hd Hs))).
  intros o (p & -> & _). discriminate.
Qed.

Create Rewrite HintDb charts_len.
#[export] Hint Rewrite cum_returns_length drawdown_length cum_returns_R_length fd_equity_length
  cum_returns_nan_length length_map : charts_len.

(** Split a list of traces into one goal per trace, each reduced to the
    length of its series. *)
Ltac trace_goals :=
  repeat (apply List.Forall_cons;
          [first [ apply trace_on_ys | apply trace_on_ys_pct
                 | apply (trace_on_map_some _ _ _ (fun f => f))
                 | apply (trace_on_map_some _ _ _ (fun f => f * 100)%R)
                 | apply (trace_on_map_some _ _ _ IZR)
                 | apply (trace_on_nan _ _ _ Q2R)
                 | apply (trace_on_nan _ _ _ (fun v => Q2R v * 100)%R) ] |]);
  try apply List.Forall_nil.

(** Every point of a series read on [days] by [reindex().ffill().bfill()]. *)
Lemma reindex_ffill_bfill_length (src : list (Z * Q)) (days : list Z) :
  length (reindex_ffill_bfill src days) = length days.
Proof. unfold reindex_ffill_bfill. now rewrite bfill_ffill_length, length_map. Qed.

Lemma bh_bars_length (panel : list (Z * Q * Q)) : length (bh_bars panel) = length panel.
Proof.
  unfold bh_bars. rewrite length_map, length_combine.
  destruct panel as [|r panel]; cbn; [reflexivity|]. now rewrite repeat_length, PeanoNat.Nat.min_id.
Qed.

Lemma buy_hold_equity_length (hist_n hist_g : list (Z * Q)) :
  length (fst (buy_hold_backtest hist_n hist_g)) = length (bh_panel hist_n hist_g).
Proof. unfold buy_hold_backtest, from_orders. now rewrite simulate_length, bh_bars_length. Qed.


(** The lengths of the dual-momentum series: everything after the cut
    has one point per day of the cut allocation. *)
Lemma alloc_ffilled_length (panel : list (Z * Q * Q)) : length (alloc_ffilled panel) = length panel.
Proof. unfold alloc_ffilled, ffill. now rewrite ffill_from_length, place_winners_length, length_map. Qed.

Lemma fill_opens_length (l : list (option Q)) : length (fill_opens l) = length l.
Proof. unfold fill_opens. now rewrite length_map, bfill_ffill_length. Qed.

Lemma dm_bars_length (panel : list (Z * Q * Q)) (opens : list (option Q * option Q)) :
  length opens = length panel ->
  length (dm_bars panel opens) = (length panel - first_valid_offset (alloc_ffilled panel))%nat.
Proof.
  intros H. unfold dm_bars, target_on_switch.
  repeat progress rewrite ?length_map, ?length_combine, ?length_skipn, ?switch_mask_length,
    ?fill_opens_length, ?alloc_ffilled_length.
  lia.
Qed.

Lemma holding_indicator_length (alloc : list (option Sym)) :
  length (holding_indicator alloc) = length alloc.
Proof. apply length_map. Qed.

Lemma dm_opens_length (hist_n hist_g : list (Z * (Q * Q))) :
  length (dm_opens hist_n hist_g) = length (dm_panel hist_n hist_g).
Proof. apply length_map. Qed.


(** The RSI strategy's daily series: the equity, the NIFTYBEES closes and
    the cash are all resampled from the 15-minute bars, so they share the
    days of [day_label] over the bars' timestamps. *)
Definition rsi_days (bars : list Bar15) : list Z :=
  map fst (resample_last day_label (map (fun b => (ts b, close15 b)) bars)).

Lemma rsi_equity_length (wk : list Z) (rs : list (option Q)) (bars : list Bar15) :
  length (fst (rsi_backtest wk rs bars)) = length bars.
Proof. unfold rsi_backtest, from_signals, rsi_sig_bars. now rewrite simulate_length, length_map. Qed.

Lemma resample_on_bars_keys {B} (bars : list Bar15) (vs : list B) :
  length vs = length bars ->
  map fst (resample_last day_label (combine (map ts bars) vs)) = rsi_days bars.
Proof.
  intros H. unfold rsi_days. apply resample_last_keys.
  rewrite map_fst_combine by (rewrite length_map; lia). now rewrite map_map.
Qed.

Lemma equity_daily_keys (wk : list Z) (rs : list (option Q)) (bars : list Bar15) :
  map fst (equity_daily bars (fst (rsi_backtest wk rs bars))) = rsi_days bars.
Proof. apply resample_on_bars_keys, rsi_equity_length. Qed.

Lemma niftybees_bh_keys (bars : list Bar15) : map fst (niftybees_bh_equity bars) = rsi_days bars.
Proof.
  unfold niftybees_bh_equity, rsi_days.
  destruct (resample_last _ _) as [|[k0 p0] nd]; [reflexivity|].
  rewrite map_map. apply map_ext. now intros [k p].
Qed.

Lemma cash_daily_keys (wk : list Z) (rs : list (option Q)) (bars : list Bar15) :
  map fst (cash_daily wk rs bars) = rsi_days bars.
Proof.
  apply resample_on_bars_keys. unfold rsi_sig_bars.
  now rewrite length_map, sim_states_length, length_map.
Qed.

Lemma invested_daily_keys (wk : list Z) (rs : list (option Q)) (bars : list Bar15) :
  map fst (invested_daily wk rs bars) = rsi_days bars.
Proof.
  unfold invested_daily. cbv zeta.
  set (ed := equity_daily bars (fst (rsi_backtest wk rs bars))).
  transitivity (map fst (map fst (combine ed (cash_daily wk rs bars)))).
  - rewrite !map_map. apply map_ext. now intros [[k e] [k' c]].
  - rewrite map_fst_combine; [apply equity_daily_keys|].
    rewrite <- (length_map fst ed), <- (length_map fst (cash_daily _ _ _)).
    unfold ed. rewrite equity_daily_keys, cash_daily_keys. lia.
Qed.

(** ** Theorems *)

(** Every curve of the buy-and-hold figures (lines 210-264) is drawn over
    the panel's days, one value per day and no gap, as soon as the NIFTY
    50 index has a close on one of those days: the strategy's equity, the
    NIFTY 50 closes reindexed onto the panel and filled both ways, both
    ETFs, the FD curve and the drawdown. *)
Theorem bh_charts_aligned (hist_n hist_g index_hist : list (Z * Q)) :
  let days := map (fun '(d, _, _) => d) (bh_panel hist_n hist_g) in
  (exists d, In d days /\ In d (map fst index_hist)) ->
  Forall (trace_on days) (fst (bh_charts hist_n hist_g index_hist)) /\
  (forall f, snd (bh_charts hist_n hist_g index_hist) = Some f -> Forall (trace_on days) f).
Proof.
  unfold bh_charts, bh_dashboard, bh_fig2, bh_nifty_close. cbv zeta. cbn [fst snd].
  pose proof (buy_hold_equity_length hist_n hist_g) as He.
  set (panel := bh_panel hist_n hist_g) in *.
  set (days := map (fun '(d, _, _) => d) panel).
  intros Hi. pose proof (cum_returns_nan_total _ (nifty_total index_hist days Hi)) as Hn.
  assert (Hd : length days = length panel) by apply length_map.
  split; [|destruct (bh_cagrs _ _ _) as [[[[cp cn] cg] c50]|]; intros f Hf; [|discriminate];
            injection Hf as <-];
    trace_goals; try exact Hn; autorewrite with charts_len; rewrite ?reindex_ffill_bfill_length; lia.
Qed.

Lemma bh_charts_aligned_witness :
  let hn := [(17532%Z, 100); (17533%Z, 101); (17534%Z, 99)] in
  let hg := [(17533%Z, 51); (17532%Z, 50); (17534%Z, 52)] in
  let hi := [(17532%Z, 20000); (17534%Z, 20100)] in
  (exists d, In d (map (fun '(d, _, _) => d) (bh_panel hn hg)) /\ In d (map fst hi)) /\
  exists f, snd (bh_charts hn hg hi) = Some f /\ Forall (trace_on [17532; 17533; 17534]%Z) f.
Proof.
  intros hn hg hi.
  assert (Hd : map (fun '(d, _, _) => d) (bh_panel hn hg) = [17532; 17533; 17534]%Z)
    by (vm_compute; reflexivity).
  assert (Hi : exists d, In d (map (fun '(d, _, _) => d) (bh_panel hn hg)) /\ In d (map fst hi))
    by (exists 17532%Z; rewrite Hd; split; left; reflexivity).
  split; [exact Hi|]. destruct (bh_charts_aligned hn hg hi Hi) as [_ H].
  rewrite Hd in H. eexists. split; [reflexivity|]. apply H. reflexivity.
Defined.

(** Every curve of the dual-momentum figures (lines 226-285) is
    drawn over the days of the cut allocation, one value per day and no
    gap, as soon as the NIFTY 50 index has a close on one of those days:
    the strategy's equity (the run has one bar per such day), the NIFTY
    50 closes reindexed onto them, both ETFs, the drawdown and the
    holding indicator. *)
Theorem dm_charts_aligned (hist_n hist_g : list (Z * (Q * Q))) (index_hist : list (Z * Q)) :
  let panel := dm_panel hist_n hist_g in
  let days := skipn (first_valid_offset (alloc_ffilled panel)) (map (fun '(d, _, _) => d) panel) in
  (exists d, In d days /\ In d (map fst index_hist)) ->
  Forall (trace_on days) (fst (dm_charts hist_n hist_g index_hist)) /\
  Forall (trace_on days) (snd (dm_charts hist_n hist_g index_hist)).
Proof.
  unfold dm_charts, dm_dashboard, dm_fig2, dm_curves, dm_cum_nifty50, dm_nifty_close,
    dm_backtest, from_orders, alloc_daily. cbv zeta. cbn [fst snd].
  pose proof (dm_bars_length _ _ (dm_opens_length hist_n hist_g)) as Hb.
  set (panel := dm_panel hist_n hist_g) in *.
  set (off := first_valid_offset (alloc_ffilled panel)) in *.
  set (days := skipn off (map (fun '(d, _, _) => d) panel)).
  intros Hi. pose proof (cum_returns_nan_total _ (nifty_total index_hist days Hi)) as Hn.
  assert (Hd : length days = (length panel - off)%nat) by (unfold days; now rewrite length_skipn, length_map).
  split; trace_goals; try exact Hn;
    autorewrite with charts_len; rewrite ?simulate_length, ?reindex_ffill_bfill_length,
      ?holding_indicator_length, ?length_skipn, ?alloc_ffilled_length; lia.
Qed.

(** C30: the RSI figures (lines 296-357) draw the strategy's equity, the
    NIFTYBEES buy and hold, the FD, the drawdown, the invested value and
    the cash over the same days, one value per day and no gap, although
    they are resampled from different series; the cash trace's x values
    ([cash.index]) are the days its y values are reindexed on. The weekly
    RSI, row 3, has its own weekly axis. *)
Theorem rsi_charts_aligned (wk : list Z) (rs : list (option Q)) (bars : list Bar15) :
  let days := map fst (equity_daily bars (fst (rsi_backtest wk rs bars))) in
  (forall f, rsi_dashboard wk rs bars = Some f ->
     Forall (fun t => tr_row t = 3%nat \/ trace_on days t) f) /\
  Forall (trace_on days) (rsi_fig2 wk rs bars).
Proof.
  cbv zeta. rewrite equity_daily_keys. unfold rsi_dashboard, rsi_fig2.
  pose proof (equity_daily_keys wk rs bars) as Hed.
  pose proof (niftybees_bh_keys bars) as Hnb.
  pose proof (cash_daily_keys wk rs bars) as Hcs.
  pose proof (invested_daily_keys wk rs bars) as Hinv.
  assert (Hl : forall (l : list (Z * Q)), map fst l = rsi_days bars -> length l = length (rsi_days bars))
    by (intros l <-; now rewrite length_map).
  split.
  - destruct (rsi_plot wk rs bars) as [rp|]; intros f Hf; [|discriminate]. injection Hf as <-.
    repeat apply List.Forall_cons; try apply List.Forall_nil; try (left; reflexivity); right;
      rewrite ?Hed, ?Hnb.
    + apply trace_on_ys. rewrite length_map. exact (Hl _ Hed).
    + apply trace_on_ys. rewrite length_map. exact (Hl _ Hnb).
    + apply (trace_on_map_some _ _ _ (fun f => f)).
      unfold rsi_fd_equity. rewrite fd_equity_length. exact (Hl _ Hed).
    + apply trace_on_ys. unfold drawdown_daily. rewrite drawdown_length, length_map. exact (Hl _ Hed).
  - repeat apply List.Forall_cons; try apply List.Forall_nil; rewrite ?Hed, ?Hinv, ?Hcs.
    + apply trace_on_ys. rewrite length_map. exact (Hl _ Hed).
    + apply trace_on_ys. rewrite length_map. exact (Hl _ Hinv).
    + destruct (reindex_ffill_self (cash_daily wk rs bars)) as [H1 H2]. rewrite Hcs in H1, H2.
      split; [reflexivity|]. cbn [tr_y]. rewrite length_map.
      split; [rewrite H1; exact (Hl _ Hcs)|].
      apply Forall_map. refine (List.Forall_impl _ _ H2). intros [y|] Hy; [discriminate | contradiction].
Qed.

Lemma rsi_charts_aligned_witness :
  let wk := [28406880; 28416960; 28427040]%Z in
  let rs := [Some 60; Some 25; Some 75] in
  let bars := [mkBar15 28417875 220; mkBar15 28427955 230; mkBar15 28438035 210] in
  exists f, rsi_dashboard wk rs bars = Some f /\
    Forall (fun t => tr_row t = 3%nat \/ trace_on [28416960; 28427040; 28437120]%Z t) f.
Proof.
  intros wk rs bars. destruct (rsi_charts_aligned wk rs bars) as [H _].
  assert (Hd : map fst (equity_daily bars (fst (rsi_backtest wk rs bars)))
               = [28416960; 28427040; 28437120]%Z) by (vm_compute; reflexivity).
  rewrite Hd in H. eexists. split; [reflexivity|]. apply H. reflexivity.
Defined.
